(** * A4_Utsp property-set validation: a shallow embedding

    The development follows the three Python sources of the repository:
    - [src/validation_rules.py]     (module [validation_rules]),
    - [src/validate_utsparinger.py] (module [validate_utsparinger]),
    - [app.py]                      (module [app]).

    Python values are embedded as follows.
    - A [str] is the list of its Unicode code points ([list N]).
    - A property value is [None], a [str], an [int], a [float] or a [bool].
    - A [dict] is a [gmap]; a Python [int] is a [Z].
    - A call that can raise returns a [result]; code that touches the
      file system is a function of the file system (module [app]). *)

From Stdlib Require Import ZArith NArith String Ascii List Lia Bool.
From Stdlib Require Import Floats.SpecFloat.
From Stdlib Require Import Numbers.DecimalString Strings.Byte.
From stdpp Require Import gmap list strings.

(** ** Strings *)

Abbreviation str := (list N).

(** Code points of a UTF-8 encoded byte sequence; string literals of this
    file are written in UTF-8 and decoded with [utf8]. *)
Fixpoint utf8_decode (bs : list N) : str :=
  match bs with
  | [] => []
  | b0 :: r0 =>
      if (b0 <? 128)%N then b0 :: utf8_decode r0
      else
        match r0 with
        | [] => []
        | b1 :: r1 =>
            if (b0 <? 224)%N
            then ((b0 - 192) * 64 + (b1 - 128))%N :: utf8_decode r1
            else
              match r1 with
              | [] => []
              | b2 :: r2 =>
                  if (b0 <? 240)%N
                  then (((b0 - 224) * 64 + (b1 - 128)) * 64 + (b2 - 128))%N
                         :: utf8_decode r2
                  else
                    match r2 with
                    | [] => []
                    | b3 :: r3 =>
                        ((((b0 - 240) * 64 + (b1 - 128)) * 64
                          + (b2 - 128)) * 64 + (b3 - 128))%N
                          :: utf8_decode r3
                    end
              end
        end
  end.

Definition utf8 (s : string) : str :=
  utf8_decode (map N_of_ascii (list_ascii_of_string s)).

(** [str.isspace] on one code point (CPython's [_PyUnicode_IsWhitespace]). *)
Definition isspace (c : N) : bool :=
  ((9 <=? c) && (c <=? 13) || (28 <=? c) && (c <=? 32)
   || (c =? 133) || (c =? 160) || (c =? 5760)
   || (8192 <=? c) && (c <=? 8202)
   || (c =? 8232) || (c =? 8233) || (c =? 8239) || (c =? 8287)
   || (c =? 12288))%N.

Fixpoint str_lstrip (s : str) : str :=
  match s with
  | [] => []
  | c :: s' => if isspace c then str_lstrip s' else s
  end.

Definition str_rstrip (s : str) : str := rev (str_lstrip (rev s)).

(** [s.strip()] *)
Definition str_strip (s : str) : str := str_rstrip (str_lstrip s).

(** [s.split(sep)] for a one-character separator. *)
Fixpoint str_split (sep : N) (s : str) : list str :=
  match s with
  | [] => [[]]
  | c :: s' =>
      if (c =? sep)%N then [] :: str_split sep s'
      else
        match str_split sep s' with
        | w :: ws => (c :: w) :: ws
        | [] => [[c]]
        end
  end.

(** [sep.join(parts)] *)
Fixpoint str_join (sep : str) (parts : list str) : str :=
  match parts with
  | [] => []
  | [p] => p
  | p :: ps => p ++ sep ++ str_join sep ps
  end.

(** [s.startswith(prefix)] *)
Fixpoint str_startswith (pre s : str) : bool :=
  match pre, s with
  | [], _ => true
  | _ :: _, [] => false
  | a :: pre', b :: s' => (a =? b)%N && str_startswith pre' s'
  end.

(** [s.replace(old, new)] for a non-empty [old]: [skip] counts the characters
    of a replaced occurrence that are still to be dropped. *)
Fixpoint str_replace_from (old new : str) (skip : nat) (s : str) : str :=
  match s with
  | [] => []
  | c :: s' =>
      match skip with
      | S k => str_replace_from old new k s'
      | O =>
          if str_startswith old s
          then new ++ str_replace_from old new (length old - 1) s'
          else c :: str_replace_from old new 0 s'
      end
  end.

Definition str_replace (old new s : str) : str := str_replace_from old new 0 s.

(** ** Regular expressions ([re])

    Patterns are regular expressions over character classes; matching is by
    derivatives.  The three patterns of the sources are anchored with [^] and
    [$]; outside MULTILINE mode [$] matches at the end of the string and also
    just before a newline that ends the string, which is what [anchored]
    adds. *)

Inductive regex : Type :=
| Void
| Eps
| Sym (p : N -> bool)
| Cat (r1 r2 : regex)
| Alt (r1 r2 : regex)
| Star (r : regex).

Fixpoint nullable (r : regex) : bool :=
  match r with
  | Void => false
  | Eps => true
  | Sym _ => false
  | Cat r1 r2 => nullable r1 && nullable r2
  | Alt r1 r2 => nullable r1 || nullable r2
  | Star _ => true
  end.

Fixpoint deriv (c : N) (r : regex) : regex :=
  match r with
  | Void => Void
  | Eps => Void
  | Sym p => if p c then Eps else Void
  | Cat r1 r2 =>
      if nullable r1
      then Alt (Cat (deriv c r1) r2) (deriv c r2)
      else Cat (deriv c r1) r2
  | Alt r1 r2 => Alt (deriv c r1) (deriv c r2)
  | Star r1 => Cat (deriv c r1) (Star r1)
  end.

Fixpoint matches (r : regex) (s : str) : bool :=
  match s with
  | [] => nullable r
  | c :: s' => matches (deriv c r) s'
  end.

(** The words of a regular expression. *)
Inductive lang : regex -> str -> Prop :=
| lang_eps : lang Eps []
| lang_sym p c : p c = true -> lang (Sym p) [c]
| lang_cat r1 r2 s1 s2 : lang r1 s1 -> lang r2 s2 -> lang (Cat r1 r2) (s1 ++ s2)
| lang_alt_l r1 r2 s : lang r1 s -> lang (Alt r1 r2) s
| lang_alt_r r1 r2 s : lang r2 s -> lang (Alt r1 r2) s
| lang_star_nil r : lang (Star r) []
| lang_star_cons r s1 s2 :
    lang r s1 -> lang (Star r) s2 -> lang (Star r) (s1 ++ s2).

(** [r{n}], [r{0,n}], [r+] and a literal. *)
Fixpoint times (n : nat) (r : regex) : regex :=
  match n with
  | O => Eps
  | S k => Cat r (times k r)
  end.

Fixpoint upto (n : nat) (r : regex) : regex :=
  match n with
  | O => Eps
  | S k => Alt Eps (Cat r (upto k r))
  end.

Definition plus (r : regex) : regex := Cat r (Star r).

Fixpoint lit (s : str) : regex :=
  match s with
  | [] => Eps
  | c :: s' => Cat (Sym (N.eqb c)) (lit s')
  end.

Definition anchored (body : regex) : regex :=
  Cat body (Alt Eps (Sym (N.eqb 10))).

(** [pattern.match(s)] is truthy. *)
Definition re_match (pattern : regex) (s : str) : bool := matches pattern s.

Definition is_upper_AZ (c : N) : bool := ((65 <=? c) && (c <=? 90))%N.

(** ** Values, exceptions and the parts of the runtime left abstract *)

(** A property value as [wrappedValue] delivers it, or [None]. *)
Inductive PyValue : Type :=
| PyNone
| PyStr (s : str)
| PyInt (z : Z)
| PyFloat (f : spec_float)
| PyBool (b : bool).

Inductive exn : Type :=
| ValueError
| TypeError
| OverflowError
| OSError
| IfcError.

Inductive result (A : Type) : Type :=
| Ok (a : A)
| Raise (e : exn).

Arguments Ok {A} a.
Arguments Raise {A} e.

#[global] Instance result_ret : MRet result := fun _ a => Ok a.
#[global] Instance result_bind : MBind result :=
  fun _ _ f m => match m with Ok a => f a | Raise e => Raise e end.

(** What CPython and pathlib decide and this development does not fix:
    the non-ASCII decimal digits of the Unicode database, the shortest
    round-trip rendering of a float, the parsing of a float literal, and
    the flavour-dependent path components. *)
Class PyRuntime : Type := {
  unicode_decimal : N -> bool;
  float_repr : spec_float -> str;
  float_of_str : str -> option spec_float;
  path_name : str -> str;
  path_stem : str -> str;
  path_str : str -> str;
}.

Definition is_None (v : PyValue) : bool :=
  match v with PyNone => true | _ => false end.

Definition str_of_Z (z : Z) : str :=
  utf8 (NilZero.string_of_int (Z.to_int z)).

(** int -> float conversion, rounding to nearest even in binary64. *)
Definition float_of_Z (z : Z) : spec_float := binary_normalize 53 1024 z 0 false.

Section runtime.
Context {rt : PyRuntime}.

(** The class [\d] of [re] on a [str] pattern. *)
Definition isdecimal (c : N) : bool :=
  if (c <? 128)%N then ((48 <=? c) && (c <=? 57))%N else unicode_decimal c.

(** [str(v)], which is also what an f-string field renders. *)
Definition py_str (v : PyValue) : str :=
  match v with
  | PyNone => utf8 "None"
  | PyStr s => s
  | PyInt z => str_of_Z z
  | PyFloat f => float_repr f
  | PyBool b => if b then utf8 "True" else utf8 "False"
  end.

(** [float(v)] *)
Definition py_float (v : PyValue) : result spec_float :=
  match v with
  | PyNone => Raise TypeError
  | PyStr s =>
      match float_of_str s with
      | Some f => Ok f
      | None => Raise ValueError
      end
  | PyInt z =>
      match float_of_Z z with
      | S754_infinity _ => Raise OverflowError
      | f => Ok f
      end
  | PyFloat f => Ok f
  | PyBool b => Ok (float_of_Z (if b then 1 else 0))
  end.

End runtime.

(** [int(f)] for a float: truncation towards zero. *)
Definition py_int (f : spec_float) : result Z :=
  match f with
  | S754_zero _ => Ok 0%Z
  | S754_infinity _ => Raise OverflowError
  | S754_nan => Raise ValueError
  | S754_finite s m e =>
      let n := Z.shiftl (Z.pos m) e in
      Ok (if s then (- n)%Z else n)
  end.

(** [d.get(k)] on a dict of property values. *)
Definition dict_get (d : gmap str PyValue) (k : str) : PyValue :=
  default PyNone (d !! k).

(** ** Records shared by the command-line tool and the app *)

(** [ValidationResult]; [severity] defaults to ["error"]. *)
Record ValidationResult : Type := mkValidationResult {
  is_valid : bool;
  message : str;
  severity : str;
}.

Definition Result3 (valid : bool) (msg : string) (sev : string) : ValidationResult :=
  mkValidationResult valid (utf8 msg) (utf8 sev).

Definition Result2 (valid : bool) (msg : string) : ValidationResult :=
  Result3 valid msg "error".

Record ElementValidation : Type := mkElementValidation {
  guid : str;
  element_name : str;
  element_type : str;
  object_type : option str;
  has_pset : bool;
  pset_name_found : option str;
  all_psets : list (option str);
  properties_found : gmap str PyValue;
  property_validations : gmap str ValidationResult;
  dimension_validation : option ValidationResult;
  overall_status : str;
  error_count : Z;
  warning_count : Z;
}.

(** The summary dict of [calculate_summary]; its eight keys are fixed. *)
Record Summary : Type := mkSummary {
  s_total : Z;
  s_ok : Z;
  s_feil : Z;
  s_advarsel : Z;
  s_mangler_pset : Z;
  s_has_pset : Z;
  s_total_errors : Z;
  s_total_warnings : Z;
}.

(** ** The part of an IFC model the validator reads *)

(** A property: [Name] is absent when the entity has no such attribute;
    [NominalValue] is absent when the attribute is missing or unset, and
    otherwise holds the [wrappedValue]. *)
Record IfcProperty : Type := mkIfcProperty {
  prop_Name : option str;
  NominalValue : option PyValue;
}.

Inductive IfcPropertyDefinition : Type :=
| IfcPropertySet (Name : option str) (HasProperties : list IfcProperty)
| IfcOtherPropertyDefinition.

Inductive IfcRelDefines : Type :=
| IfcRelDefinesByProperties (RelatingPropertyDefinition : IfcPropertyDefinition)
| IfcRelDefinesOther.

Record IfcElement : Type := mkIfcElement {
  GlobalId : str;
  Name : option str;
  is_a : str;
  ObjectType : option str;
  IsDefinedBy : list IfcRelDefines;
}.

Record IfcFile : Type := mkIfcFile {
  by_type : str -> list IfcElement;
}.

(** String literals stand for their code points. *)
Coercion utf8 : string >-> list.
Arguments utf8 : simpl never.

(** The [in] operator on a list of strings. *)
Definition str_in (x : str) (l : list str) : bool := bool_decide (x ∈ l).

(** [value is None or str(value).strip() == ""] *)
Definition none_or_blank {rt : PyRuntime} (value : PyValue) : bool :=
  is_None value || bool_decide (str_strip (py_str value) = []).

(** * src/validation_rules.py *)
Module validation_rules.
Section rules.
Context {rt : PyRuntime}.

Definition REQUIRED_PSET : str := "A4_Utsp".

Definition REQUIRED_PROPERTIES : list str :=
  [ "A4_Utsp_Kategori" : str; "A4_Utsp_ID" : str; "A4_Utsp_Utsparingstype" : str;
    "A4_Utsp_Tetting" : str; "A4_Utsp_Fase" : str; "A4_Utsp_Status" : str;
    "A4_Utsp_Rev" : str; "A4_Utsp_RevDato" : str; "A4_Utsp_RevBeskrivelse" : str ].

Definition DIMENSION_PROPERTIES : list str :=
  [ "A4_Utsp_DimBredde" : str; "A4_Utsp_DimHøyde" : str;
    "A4_Utsp_DimDybde" : str; "A4_Utsp_DimDiameter" : str ].

Definition OPTIONAL_PROPERTIES : list str := [ "A4_Utsp_Funksjon" : str ].

Definition ALL_PROPERTIES : list str :=
  REQUIRED_PROPERTIES ++ DIMENSION_PROPERTIES ++ OPTIONAL_PROPERTIES.

Definition VALID_KATEGORI : list str := [ "ProvisionForVoid" : str ].
Definition VALID_UTSPARINGSTYPE_PREFERRED : list str :=
  [ "Utsparing" : str; "Hulltaking" : str ].
Definition VALID_TETTING_STR : list str := [ "Ja" : str; "Nei" : str ].
Definition VALID_FASE : list str := [ "Fase 1" : str; "Fase 2" : str ].
Definition VALID_STATUS : list str :=
  [ "Godkjent" : str; "Ikke godkjent" : str; "Behandles av RIB" : str ].
Definition VALID_FUNKSJON : list str :=
  [ "Bæring" : str; "Vanntetting" : str; "Brann" : str; "Lyd" : str ].

(** [^[A-Z]{2,4}_Hull-\d+$] *)
Definition ID_PATTERN : regex :=
  anchored
    (Cat (Cat (times 2 (Sym is_upper_AZ)) (upto 2 (Sym is_upper_AZ)))
         (Cat (lit "_Hull-") (plus (Sym isdecimal)))).

(** [^\d{2}\.\d{2}\.\d{4}$] *)
Definition DATE_PATTERN : regex :=
  anchored
    (Cat (times 2 (Sym isdecimal))
         (Cat (lit ".")
              (Cat (times 2 (Sym isdecimal))
                   (Cat (lit ".") (times 4 (Sym isdecimal)))))).

(** [^\d+$] *)
Definition REV_PATTERN : regex := anchored (plus (Sym isdecimal)).

Definition validate_kategori (value : PyValue) : ValidationResult :=
  if none_or_blank value then Result3 false "Kategori mangler" "error"
  else if str_in (py_str value) VALID_KATEGORI then Result2 true "OK"
  else
    mkValidationResult false
      ("Ugyldig kategori: '" ++ py_str value ++ "' (forventet: ProvisionForVoid)")
      "error".

Definition validate_id (value : PyValue) (expected_prefix : option str)
  : ValidationResult :=
  if none_or_blank value then Result3 false "ID mangler" "error"
  else
    let val_str := str_strip (py_str value) in
    if negb (re_match ID_PATTERN val_str)
    then
      mkValidationResult false
        ("Ugyldig ID-format: '" ++ val_str ++ "' (forventet: XXX_Hull-nn)")
        "error"
    else
      match expected_prefix with
      | Some (c :: e) =>
          let expected := c :: e in
          let prefix := default [] (str_split 95 val_str !! 0%nat) in
          if bool_decide (prefix ≠ expected)
          then
            mkValidationResult false
              ("ID-prefiks '" ++ prefix ++ "' matcher ikke forventet '"
                 ++ expected ++ "'")
              "warning"
          else Result2 true "OK"
      | _ => Result2 true "OK"
      end.

Definition validate_utsparingstype (value : PyValue) : ValidationResult :=
  if none_or_blank value then Result3 false "Utsparingstype mangler" "error"
  else
    let val_str := str_strip (py_str value) in
    if str_in val_str VALID_UTSPARINGSTYPE_PREFERRED then Result2 true "OK"
    else if bool_decide (val_str = "Innstøpningsgods")
    then Result3 true "Innstøpningsgods skal normalt ikke være i utsparings-IFC"
           "warning"
    else
      mkValidationResult false ("Ugyldig utsparingstype: '" ++ val_str ++ "'")
        "error".

Definition validate_tetting (value : PyValue) : ValidationResult :=
  match value with
  | PyNone => Result3 false "Tetting mangler" "error"
  | PyBool _ => Result2 true "OK"
  | _ =>
      let val_str := str_strip (py_str value) in
      if bool_decide (val_str = []) then Result3 false "Tetting mangler" "error"
      else if str_in val_str VALID_TETTING_STR then Result2 true "OK"
      else
        mkValidationResult false
          ("Ugyldig tetting-verdi: '" ++ py_str value
             ++ "' (forventet: Ja/Nei eller True/False)")
          "error"
  end.

Definition validate_funksjon (value : PyValue) : ValidationResult :=
  if none_or_blank value
  then Result3 true "Funksjon ikke angitt (valgfritt)" "info"
  else
    let val_str := str_strip (py_str value) in
    let values := map str_strip (str_split 44 val_str) in
    let invalid_values :=
      filter (fun v => bool_decide (v ≠ []) && negb (str_in v VALID_FUNKSJON))
        values in
    match invalid_values with
    | _ :: _ =>
        mkValidationResult true
          ("Ukjent funksjon: " ++ str_join ", " invalid_values) "warning"
    | [] => Result2 true "OK"
    end.

Definition validate_fase (value : PyValue) : ValidationResult :=
  if none_or_blank value then Result3 false "Fase mangler" "error"
  else
    let val_str := str_strip (py_str value) in
    if str_in val_str VALID_FASE then Result2 true "OK"
    else
      mkValidationResult false
        ("Ugyldig fase: '" ++ val_str ++ "' (forventet: Fase 1 eller Fase 2)")
        "error".

Definition validate_status (value : PyValue) : ValidationResult :=
  if none_or_blank value then Result3 false "Status mangler" "error"
  else
    let val_str := str_strip (py_str value) in
    if str_in val_str VALID_STATUS then Result2 true "OK"
    else mkValidationResult false ("Ugyldig status: '" ++ val_str ++ "'") "error".

(** The [try] block catches [ValueError] and [TypeError] only: the
    [OverflowError] of [int] on an infinite float, or of [float] on an
    integer beyond the binary64 range, leaves the function. *)
Definition validate_rev (value : PyValue) : result ValidationResult :=
  if is_None value then Ok (Result3 false "Revisjon mangler" "error")
  else
    let val_str := str_strip (py_str value) in
    if bool_decide (val_str = []) then Ok (Result3 false "Revisjon mangler" "error")
    else if re_match REV_PATTERN val_str then Ok (Result2 true "OK")
    else
      let invalid :=
        mkValidationResult false
          ("Ugyldig revisjonsnummer: '" ++ py_str value
             ++ "' (forventet: 0, 1, 2, ...)")
          "error" in
      match py_float value ≫= py_int with
      | Ok rev_num => if (0 <=? rev_num)%Z then Ok (Result2 true "OK") else Ok invalid
      | Raise ValueError | Raise TypeError => Ok invalid
      | Raise e => Raise e
      end.

Definition validate_rev_dato (value : PyValue) : ValidationResult :=
  if none_or_blank value then Result3 false "Revisjonsdato mangler" "error"
  else
    let val_str := str_strip (py_str value) in
    if re_match DATE_PATTERN val_str then Result2 true "OK"
    else
      mkValidationResult false
        ("Ugyldig datoformat: '" ++ val_str ++ "' (forventet: DD.MM.YYYY)")
        "error".

Definition validate_rev_beskrivelse (value : PyValue) : ValidationResult :=
  if none_or_blank value then Result3 false "Revisjonsbeskrivelse mangler" "error"
  else Result2 true "OK".

(** The local function [has_value] of [validate_dimensions]. *)
Definition has_value (val : PyValue) : bool :=
  if is_None val then false
  else
    let val_str := str_strip (py_str val) in
    bool_decide (val_str ≠ []) && bool_decide (val_str ≠ "0")
      && bool_decide (val_str ≠ "0.0").

Definition validate_dimensions (properties : gmap str PyValue) : ValidationResult :=
  let bredde := dict_get properties "A4_Utsp_DimBredde" in
  let hoyde := dict_get properties "A4_Utsp_DimHøyde" in
  let dybde := dict_get properties "A4_Utsp_DimDybde" in
  let diameter := dict_get properties "A4_Utsp_DimDiameter" in
  let has_bredde := has_value bredde in
  let has_hoyde := has_value hoyde in
  let has_diameter := has_value diameter in
  if has_bredde && has_hoyde
  then Result2 true "Rektangulær: Bredde og Høyde angitt"
  else if has_diameter then Result2 true "Rund: Diameter angitt"
  else if has_bredde && negb has_hoyde
  then Result3 false "Bredde angitt men Høyde mangler" "error"
  else if has_hoyde && negb has_bredde
  then Result3 false "Høyde angitt men Bredde mangler" "error"
  else
    Result3 false "Dimensjoner mangler (enten Bredde+Høyde eller Diameter)" "error".

(** The dict of validators; an entry that cannot raise is lifted with [Ok],
    and the entry of [validate_id] is the call without an expected prefix. *)
Definition PROPERTY_VALIDATORS : gmap str (PyValue -> result ValidationResult) :=
  list_to_map
    [ ("A4_Utsp_Kategori" : str, fun v => Ok (validate_kategori v));
      ("A4_Utsp_ID" : str, fun v => Ok (validate_id v None));
      ("A4_Utsp_Utsparingstype" : str, fun v => Ok (validate_utsparingstype v));
      ("A4_Utsp_Tetting" : str, fun v => Ok (validate_tetting v));
      ("A4_Utsp_Funksjon" : str, fun v => Ok (validate_funksjon v));
      ("A4_Utsp_Fase" : str, fun v => Ok (validate_fase v));
      ("A4_Utsp_Status" : str, fun v => Ok (validate_status v));
      ("A4_Utsp_Rev" : str, validate_rev);
      ("A4_Utsp_RevDato" : str, fun v => Ok (validate_rev_dato v));
      ("A4_Utsp_RevBeskrivelse" : str, fun v => Ok (validate_rev_beskrivelse v)) ].

End rules.
End validation_rules.

(** * The element extractor and validator

    [get_element_properties] and [validate_element] have the same text in
    [src/validate_utsparinger.py] and in [app.py]; they differ in the
    validators their module binds.  They are embedded once, over the
    validators, and instantiated in each module. *)
Module element_validation.
Section element_validator.
Context {rt : PyRuntime}.
Context (PROPERTY_VALIDATORS : gmap str (PyValue -> result ValidationResult)).
Context (validate_id : PyValue -> option str -> ValidationResult).
Context (validate_dimensions : gmap str PyValue -> ValidationResult).

(** [any(prop.Name.startswith("A4_Utsp_") for prop in ... if hasattr(prop, 'Name'))] *)
Definition has_misplaced_property (props : list IfcProperty) : bool :=
  existsb
    (fun prop =>
       match prop_Name prop with
       | Some prop_name => str_startswith "A4_Utsp_" prop_name
       | None => false
       end)
    props.

(** The rendering of a property-set name in an f-string. *)
Definition format_name (pset_name : option str) : str :=
  match pset_name with
  | Some n => n
  | None => "None"
  end.

(** One turn of the inner loop over [prop_def.HasProperties]. *)
Definition extract_property (properties : gmap str PyValue) (prop : IfcProperty)
  : gmap str PyValue :=
  match prop_Name prop with
  | None => properties
  | Some prop_name =>
      if str_startswith "A4_Utsp_" prop_name
         || str_in prop_name validation_rules.ALL_PROPERTIES
      then
        let value :=
          match NominalValue prop with
          | Some wrappedValue => wrappedValue
          | None => PyNone
          end in
        <[prop_name := value]> properties
      else properties
  end.

(** One turn of the loop over [element.IsDefinedBy]; the state is
    [(pset_name_found, properties, all_pset_names)]. *)
Definition extract_definition
    (st : option str * gmap str PyValue * list (option str))
    (definition : IfcRelDefines)
  : option str * gmap str PyValue * list (option str) :=
  match definition with
  | IfcRelDefinesByProperties (IfcPropertySet pset_name props) =>
      let '(pset_name_found, properties, all_pset_names) := st in
      let pset_name_found :=
        if bool_decide (pset_name = Some validation_rules.REQUIRED_PSET)
        then Some validation_rules.REQUIRED_PSET
        else if has_misplaced_property props
        then
          match pset_name_found with
          | None => Some (format_name pset_name ++ " (feil plassering)")
          | Some _ => pset_name_found
          end
        else pset_name_found in
      (pset_name_found, foldl extract_property properties props,
       all_pset_names ++ [pset_name])
  | _ => st
  end.

Definition get_element_properties (element : IfcElement)
  : option str * gmap str PyValue * list (option str) :=
  match IsDefinedBy element with
  | [] => (None, ∅, [])
  | definitions => foldl extract_definition (None, ∅, []) definitions
  end.

(** A loop whose body can raise. *)
Fixpoint result_foldl {A B : Type} (f : A -> B -> result A) (a : A) (l : list B)
  : result A :=
  match l with
  | [] => Ok a
  | b :: l' => f a b ≫= fun a' => result_foldl f a' l'
  end.

(** One turn of the loop over [REQUIRED_PROPERTIES]; the state is
    [(property_validations, error_count, warning_count)]. *)
Definition validate_required
    (properties : gmap str PyValue) (expected_prefix : option str)
    (st : gmap str ValidationResult * Z * Z) (prop_name : str)
  : result (gmap str ValidationResult * Z * Z) :=
  let '(property_validations, error_count, warning_count) := st in
  let value := dict_get properties prop_name in
  (match PROPERTY_VALIDATORS !! prop_name with
   | Some validator =>
       if bool_decide (prop_name = "A4_Utsp_ID")
       then Ok (validate_id value expected_prefix)
       else validator value
   | None =>
       if none_or_blank value then Ok (Result3 false "Mangler verdi" "error")
       else Ok (Result2 true "OK")
   end) ≫= fun result =>
  let property_validations := <[prop_name := result]> property_validations in
  if negb (is_valid result)
  then
    if bool_decide (severity result = "error")
    then Ok (property_validations, (error_count + 1)%Z, warning_count)
    else if bool_decide (severity result = "warning")
    then Ok (property_validations, error_count, (warning_count + 1)%Z)
    else Ok (property_validations, error_count, warning_count)
  else if bool_decide (severity result = "warning")
  then Ok (property_validations, error_count, (warning_count + 1)%Z)
  else Ok (property_validations, error_count, warning_count).

(** One turn of the loop over [OPTIONAL_PROPERTIES]. *)
Definition validate_optional
    (properties : gmap str PyValue)
    (st : gmap str ValidationResult * Z * Z) (prop_name : str)
  : result (gmap str ValidationResult * Z * Z) :=
  let '(property_validations, error_count, warning_count) := st in
  match properties !! prop_name with
  | Some value =>
      match PROPERTY_VALIDATORS !! prop_name with
      | Some validator =>
          validator value ≫= fun result =>
          let property_validations := <[prop_name := result]> property_validations in
          if bool_decide (severity result = "warning")
          then Ok (property_validations, error_count, (warning_count + 1)%Z)
          else Ok (property_validations, error_count, warning_count)
      | None => Ok st
      end
  | None => Ok st
  end.

Definition validate_element (element : IfcElement) (expected_prefix : option str)
  : result ElementValidation :=
  let guid := GlobalId element in
  let element_name : str :=
    match Name element with
    | Some (c :: n) => c :: n
    | _ => "(uten navn)"
    end in
  let element_type := is_a element in
  let object_type := ObjectType element in
  let '(pset_name_found, properties, all_psets) := get_element_properties element in
  let has_pset :=
    bool_decide (pset_name_found = Some validation_rules.REQUIRED_PSET) in
  match pset_name_found with
  | None =>
      Ok (mkElementValidation guid element_name element_type object_type
            false None all_psets ∅ ∅ None "Mangler pset" 1 0)
  | Some found =>
      result_foldl (validate_required properties expected_prefix) (∅, 0%Z, 0%Z)
        validation_rules.REQUIRED_PROPERTIES ≫= fun st1 =>
      result_foldl (validate_optional properties) st1
        validation_rules.OPTIONAL_PROPERTIES ≫= fun st2 =>
      let '(property_validations, error_count, warning_count) := st2 in
      let dim_result := validate_dimensions properties in
      let error_count :=
        if negb (is_valid dim_result) then (error_count + 1)%Z else error_count in
      let warning_count :=
        if bool_decide (found ≠ [])
           && bool_decide (found ≠ validation_rules.REQUIRED_PSET)
        then (warning_count + 1)%Z else warning_count in
      let overall_status : str :=
        if (0 <? error_count)%Z then "Feil"
        else if (0 <? warning_count)%Z then "Advarsel"
        else "OK" in
      Ok (mkElementValidation guid element_name element_type object_type
            has_pset pset_name_found all_psets properties property_validations
            (Some dim_result) overall_status error_count warning_count)
  end.

End element_validator.

(** The body of [calculate_summary]. *)
Definition count_if (p : ElementValidation -> bool) (elements : list ElementValidation)
  : Z :=
  Z.of_nat (length (filter (fun e => p e = true) elements)).

Definition sum_of (f : ElementValidation -> Z) (elements : list ElementValidation)
  : Z :=
  foldr Z.add 0%Z (map f elements).

Definition summary_of (elements : list ElementValidation) : Summary :=
  {| s_total := Z.of_nat (length elements);
     s_ok := count_if (fun e => bool_decide (overall_status e = "OK")) elements;
     s_feil := count_if (fun e => bool_decide (overall_status e = "Feil")) elements;
     s_advarsel :=
       count_if (fun e => bool_decide (overall_status e = "Advarsel")) elements;
     s_mangler_pset :=
       count_if (fun e => bool_decide (overall_status e = "Mangler pset")) elements;
     s_has_pset := count_if has_pset elements;
     s_total_errors := sum_of error_count elements;
     s_total_warnings := sum_of warning_count elements |}.

End element_validation.

(** * Files and the model-loading library

    The file system maps a path to the content of the file there.  A
    computation that reads or writes files is a function of the file system
    that returns a value or raises, together with the file system it leaves
    behind. *)
Abbreviation bytes := (list Byte.byte).
Abbreviation filesystem := (gmap str (list Byte.byte)).

Definition IO (A : Type) : Type := filesystem -> result A * filesystem.

#[global] Instance io_ret : MRet IO := fun _ a fs => (Ok a, fs).
#[global] Instance io_bind : MBind IO :=
  fun _ _ k m fs =>
    match m fs with
    | (Ok a, fs') => k a fs'
    | (Raise e, fs') => (Raise e, fs')
    end.

Definition io_lift {A : Type} (r : result A) : IO A := fun fs => (r, fs).

(** The external collaborators: ifcopenshell (reading a model from the
    content of a file, adding the validation entities to it, serialising
    it) and tempfile's choice of a name. *)
Class Host : Type := {
  ifc_parse : bytes -> result IfcFile;
  ifc_annotate : IfcFile -> list ElementValidation -> result IfcFile;
  ifc_serialize : IfcFile -> result bytes;
  tmp_name : filesystem -> str -> str;
}.

Section host.
Context {host : Host}.

(** [with tempfile.NamedTemporaryFile(suffix=..., delete=False) as tmp:
    tmp.write(content); tmp_path = tmp.name] *)
Definition NamedTemporaryFile (suffix : str) (content : bytes) : IO str :=
  fun fs =>
    let tmp_path := tmp_name fs suffix in
    (Ok tmp_path, <[tmp_path := content]> fs).

(** [ifcopenshell.open(path)] *)
Definition ifcopenshell_open (path : str) : IO IfcFile :=
  fun fs =>
    match fs !! path with
    | Some content => (ifc_parse content, fs)
    | None => (Raise OSError, fs)
    end.

(** [model.write(path)] *)
Definition model_write (model : IfcFile) (path : str) : IO unit :=
  fun fs =>
    match ifc_serialize model with
    | Ok content => (Ok tt, <[path := content]> fs)
    | Raise e => (Raise e, fs)
    end.

(** [with open(path, 'rb') as f: f.read()] *)
Definition read_file (path : str) : IO bytes :=
  fun fs =>
    match fs !! path with
    | Some content => (Ok content, fs)
    | None => (Raise OSError, fs)
    end.

(** [Path(path).unlink()] *)
Definition unlink (path : str) : IO unit :=
  fun fs =>
    match fs !! path with
    | Some _ => (Ok tt, delete path fs)
    | None => (Raise OSError, fs)
    end.

End host.

(** A loop that appends the result of a call that can raise. *)
Fixpoint result_map {A B : Type} (f : A -> result B) (l : list A) : result (list B) :=
  match l with
  | [] => Ok []
  | a :: l' => f a ≫= fun b => result_map f l' ≫= fun bs => Ok (b :: bs)
  end.

(** * src/validate_utsparinger.py *)
Module validate_utsparinger.

Record FileValidation : Type := mkFileValidation {
  filename : str;
  filepath : str;
  total_elements : Z;
  elements : list ElementValidation;
  summary : option Summary;
}.

(** [calculate_summary] replaces the summary of the record. *)
Definition calculate_summary (self : FileValidation) : FileValidation :=
  mkFileValidation (filename self) (filepath self) (total_elements self)
    (elements self) (Some (element_validation.summary_of (elements self))).

Section tool.
Context {rt : PyRuntime} {host : Host}.

Definition extract_file_prefix (filename : str) : option str :=
  let name := path_stem filename in
  let parts := str_split 95 name in
  if (2 <=? length parts)%nat
  then find (fun part => str_in part [ "RIV" : str; "RIE" : str; "RIVA" : str ]) parts
  else None.

Definition get_element_properties (element : IfcElement)
  : option str * gmap str PyValue * list (option str) :=
  element_validation.get_element_properties element.

Definition validate_element (element : IfcElement) (expected_prefix : option str)
  : result ElementValidation :=
  element_validation.validate_element
    validation_rules.PROPERTY_VALIDATORS validation_rules.validate_id
    validation_rules.validate_dimensions element expected_prefix.

(** The progress lines printed to standard output are not part of the
    embedding. *)
Definition validate_ifc_file (filepath : str) : IO FileValidation :=
  ifcopenshell_open filepath ≫= fun model =>
  let expected_prefix := extract_file_prefix (path_name filepath) in
  let elements := by_type model "IfcBuildingElementProxy" in
  io_lift (result_map (fun element => validate_element element expected_prefix)
             elements) ≫= fun validated_elements =>
  let file_validation :=
    mkFileValidation (path_name filepath) (path_str filepath)
      (Z.of_nat (length elements)) validated_elements None in
  mret (calculate_summary file_validation).

End tool.
End validate_utsparinger.

(** * app.py

    The validation rules are repeated inline in the app; the constants and
    patterns have the values of [validation_rules], the validators their own
    messages, and [validate_id] its own outcome for a prefix mismatch. *)
Module app.

Record FileValidation : Type := mkFileValidation {
  filename : str;
  total_elements : Z;
  elements : list ElementValidation;
  summary : option Summary;
}.

Definition calculate_summary (self : FileValidation) : FileValidation :=
  mkFileValidation (filename self) (total_elements self) (elements self)
    (Some (element_validation.summary_of (elements self))).

Section app_defs.
Context {rt : PyRuntime} {host : Host}.

Definition REQUIRED_PSET : str := "A4_Utsp".

Definition REQUIRED_PROPERTIES : list str :=
  [ "A4_Utsp_Kategori" : str; "A4_Utsp_ID" : str; "A4_Utsp_Utsparingstype" : str;
    "A4_Utsp_Tetting" : str; "A4_Utsp_Fase" : str; "A4_Utsp_Status" : str;
    "A4_Utsp_Rev" : str; "A4_Utsp_RevDato" : str; "A4_Utsp_RevBeskrivelse" : str ].

Definition DIMENSION_PROPERTIES : list str :=
  [ "A4_Utsp_DimBredde" : str; "A4_Utsp_DimHøyde" : str;
    "A4_Utsp_DimDybde" : str; "A4_Utsp_DimDiameter" : str ].

Definition OPTIONAL_PROPERTIES : list str := [ "A4_Utsp_Funksjon" : str ].

Definition ALL_PROPERTIES : list str :=
  REQUIRED_PROPERTIES ++ DIMENSION_PROPERTIES ++ OPTIONAL_PROPERTIES.

Definition VALID_KATEGORI : list str := [ "ProvisionForVoid" : str ].
Definition VALID_TETTING_STR : list str := [ "Ja" : str; "Nei" : str ].
Definition VALID_FASE : list str := [ "Fase 1" : str; "Fase 2" : str ].
Definition VALID_STATUS : list str :=
  [ "Godkjent" : str; "Ikke godkjent" : str; "Behandles av RIB" : str ].
Definition VALID_FUNKSJON : list str :=
  [ "Bæring" : str; "Vanntetting" : str; "Brann" : str; "Lyd" : str ].

Definition ID_PATTERN : regex := validation_rules.ID_PATTERN.
Definition DATE_PATTERN : regex := validation_rules.DATE_PATTERN.
Definition REV_PATTERN : regex := validation_rules.REV_PATTERN.

Definition validate_kategori (value : PyValue) : ValidationResult :=
  if none_or_blank value then Result3 false "Kategori mangler" "error"
  else if str_in (py_str value) VALID_KATEGORI then Result2 true "OK"
  else
    mkValidationResult false ("Ugyldig kategori: '" ++ py_str value ++ "'") "error".

Definition validate_id (value : PyValue) (expected_prefix : option str)
  : ValidationResult :=
  if none_or_blank value then Result3 false "ID mangler" "error"
  else
    let val_str := str_strip (py_str value) in
    if negb (re_match ID_PATTERN val_str)
    then mkValidationResult false ("Ugyldig ID-format: '" ++ val_str ++ "'") "error"
    else
      match expected_prefix with
      | Some (c :: e) =>
          let expected := c :: e in
          let prefix := default [] (str_split 95 val_str !! 0%nat) in
          if bool_decide (prefix ≠ expected)
          then
            mkValidationResult true
              ("ID-prefiks '" ++ prefix ++ "' != '" ++ expected ++ "'") "warning"
          else Result2 true "OK"
      | _ => Result2 true "OK"
      end.

Definition validate_utsparingstype (value : PyValue) : ValidationResult :=
  if none_or_blank value then Result3 false "Utsparingstype mangler" "error"
  else
    let val_str := str_strip (py_str value) in
    if str_in val_str [ "Utsparing" : str; "Hulltaking" : str ] then Result2 true "OK"
    else if bool_decide (val_str = "Innstøpningsgods")
    then Result3 true "Innstøpningsgods - skal normalt ikke være i utsparings-IFC"
           "warning"
    else
      mkValidationResult false ("Ugyldig utsparingstype: '" ++ val_str ++ "'")
        "error".

Definition validate_tetting (value : PyValue) : ValidationResult :=
  match value with
  | PyNone => Result3 false "Tetting mangler" "error"
  | PyBool _ => Result2 true "OK"
  | _ =>
      let val_str := str_strip (py_str value) in
      if bool_decide (val_str = []) then Result3 false "Tetting mangler" "error"
      else if str_in val_str VALID_TETTING_STR then Result2 true "OK"
      else
        mkValidationResult false
          ("Ugyldig tetting-verdi: '" ++ py_str value ++ "'") "error"
  end.

Definition validate_funksjon (value : PyValue) : ValidationResult :=
  if none_or_blank value
  then Result3 true "Funksjon ikke angitt (valgfritt)" "info"
  else
    let val_str := str_strip (py_str value) in
    let values := map str_strip (str_split 44 val_str) in
    let invalid :=
      filter (fun v => bool_decide (v ≠ []) && negb (str_in v VALID_FUNKSJON))
        values in
    match invalid with
    | _ :: _ =>
        mkValidationResult true ("Ukjent funksjon: " ++ str_join ", " invalid)
          "warning"
    | [] => Result2 true "OK"
    end.

Definition validate_fase (value : PyValue) : ValidationResult :=
  if none_or_blank value then Result3 false "Fase mangler" "error"
  else if str_in (str_strip (py_str value)) VALID_FASE then Result2 true "OK"
  else mkValidationResult false ("Ugyldig fase: '" ++ py_str value ++ "'") "error".

Definition validate_status (value : PyValue) : ValidationResult :=
  if none_or_blank value then Result3 false "Status mangler" "error"
  else if str_in (str_strip (py_str value)) VALID_STATUS then Result2 true "OK"
  else mkValidationResult false ("Ugyldig status: '" ++ py_str value ++ "'") "error".

Definition validate_rev (value : PyValue) : result ValidationResult :=
  if is_None value then Ok (Result3 false "Revisjon mangler" "error")
  else
    let val_str := str_strip (py_str value) in
    if bool_decide (val_str = []) then Ok (Result3 false "Revisjon mangler" "error")
    else if re_match REV_PATTERN val_str then Ok (Result2 true "OK")
    else
      let invalid :=
        mkValidationResult false
          ("Ugyldig revisjonsnummer: '" ++ py_str value ++ "'") "error" in
      match py_float value ≫= py_int with
      | Ok n => if (0 <=? n)%Z then Ok (Result2 true "OK") else Ok invalid
      | Raise ValueError | Raise TypeError => Ok invalid
      | Raise e => Raise e
      end.

Definition validate_rev_dato (value : PyValue) : ValidationResult :=
  if none_or_blank value then Result3 false "Revisjonsdato mangler" "error"
  else if re_match DATE_PATTERN (str_strip (py_str value)) then Result2 true "OK"
  else
    mkValidationResult false
      ("Ugyldig datoformat: '" ++ py_str value ++ "' (forventet: DD.MM.YYYY)")
      "error".

Definition validate_rev_beskrivelse (value : PyValue) : ValidationResult :=
  if none_or_blank value then Result3 false "Revisjonsbeskrivelse mangler" "error"
  else Result2 true "OK".

Definition has_value (val : PyValue) : bool :=
  if is_None val then false
  else
    let val_str := str_strip (py_str val) in
    bool_decide (val_str ≠ []) && bool_decide (val_str ≠ "0")
      && bool_decide (val_str ≠ "0.0").

Definition validate_dimensions (properties : gmap str PyValue) : ValidationResult :=
  let bredde := dict_get properties "A4_Utsp_DimBredde" in
  let hoyde := dict_get properties "A4_Utsp_DimHøyde" in
  let diameter := dict_get properties "A4_Utsp_DimDiameter" in
  if has_value bredde && has_value hoyde
  then Result2 true "Rektangulær: Bredde og Høyde angitt"
  else if has_value diameter then Result2 true "Rund: Diameter angitt"
  else if has_value bredde && negb (has_value hoyde)
  then Result3 false "Bredde angitt men Høyde mangler" "error"
  else if has_value hoyde && negb (has_value bredde)
  then Result3 false "Høyde angitt men Bredde mangler" "error"
  else
    Result3 false "Dimensjoner mangler (enten Bredde+Høyde eller Diameter)" "error".

Definition PROPERTY_VALIDATORS : gmap str (PyValue -> result ValidationResult) :=
  list_to_map
    [ ("A4_Utsp_Kategori" : str, fun v => Ok (validate_kategori v));
      ("A4_Utsp_ID" : str, fun v => Ok (validate_id v None));
      ("A4_Utsp_Utsparingstype" : str, fun v => Ok (validate_utsparingstype v));
      ("A4_Utsp_Tetting" : str, fun v => Ok (validate_tetting v));
      ("A4_Utsp_Funksjon" : str, fun v => Ok (validate_funksjon v));
      ("A4_Utsp_Fase" : str, fun v => Ok (validate_fase v));
      ("A4_Utsp_Status" : str, fun v => Ok (validate_status v));
      ("A4_Utsp_Rev" : str, validate_rev);
      ("A4_Utsp_RevDato" : str, fun v => Ok (validate_rev_dato v));
      ("A4_Utsp_RevBeskrivelse" : str, fun v => Ok (validate_rev_beskrivelse v)) ].

Definition extract_file_prefix (filename : str) : option str :=
  let name := path_stem filename in
  let parts := str_split 95 name in
  find (fun part => str_in part [ "RIV" : str; "RIE" : str; "RIVA" : str ]) parts.

Definition get_element_properties (element : IfcElement)
  : option str * gmap str PyValue * list (option str) :=
  element_validation.get_element_properties element.

Definition validate_element (element : IfcElement) (expected_prefix : option str)
  : result ElementValidation :=
  element_validation.validate_element
    PROPERTY_VALIDATORS validate_id validate_dimensions element expected_prefix.

Definition validate_ifc_file (file_content : bytes) (filename : str)
  : IO FileValidation :=
  NamedTemporaryFile ".ifc" file_content ≫= fun tmp_path =>
  ifcopenshell_open tmp_path ≫= fun model =>
  let expected_prefix := extract_file_prefix filename in
  let elements := by_type model "IfcBuildingElementProxy" in
  io_lift (result_map (fun element => validate_element element expected_prefix)
             elements) ≫= fun validated_elements =>
  let file_validation :=
    calculate_summary
      (mkFileValidation filename (Z.of_nat (length elements)) validated_elements
         None) in
  unlink tmp_path ≫= fun _ =>
  mret file_validation.

(** The creation of the colour styles, of one NOSKI_Validering property set
    per validated element and of the styled items (all calls of the model
    library, which may raise) is [ifc_annotate]. *)
Definition create_validated_ifc
    (file_content : bytes) (filename : str) (validation : FileValidation)
  : IO bytes :=
  NamedTemporaryFile ".ifc" file_content ≫= fun tmp_path =>
  ifcopenshell_open tmp_path ≫= fun model =>
  io_lift (ifc_annotate model (elements validation)) ≫= fun model =>
  let output_path := str_replace ".ifc" "_validert.ifc" tmp_path in
  model_write model output_path ≫= fun _ =>
  read_file output_path ≫= fun result =>
  unlink tmp_path ≫= fun _ =>
  unlink output_path ≫= fun _ =>
  mret result.

End app_defs.
End app.

(** * A concrete runtime and model for the closed examples

    The examples below use ASCII strings and integers only, on which
    the abstract parts of the runtime are not consulted, except for the
    float literals read by [validate_rev]: for those the example runtime
    parses an optionally signed run of ASCII digits and the literal inf. *)
Module example.

Fixpoint digits_value (acc : Z) (s : str) : option Z :=
  match s with
  | [] => Some acc
  | c :: s' =>
      if ((48 <=? c) && (c <=? 57))%N
      then digits_value (10 * acc + Z.of_N (c - 48)) s'
      else None
  end.

Definition integer_literal (s : str) : option spec_float :=
  match s with
  | [] => None
  | [45%N] => None
  | 45%N :: s' => (fun z => float_of_Z (- z)) <$> digits_value 0 s'
  | _ => float_of_Z <$> digits_value 0 s
  end.

Definition float_literal (s : str) : option spec_float :=
  if bool_decide (s = "inf") then Some (S754_infinity false)
  else integer_literal s.

Definition basename (p : str) : str := default [] (last (str_split 47 p)).

Definition drop_suffix (name : str) : str :=
  match rev (str_split 46 name) with
  | _ :: (_ :: _) as front => str_join "." (rev front)
  | _ => name
  end.

Definition runtime : PyRuntime :=
  {| unicode_decimal := fun _ => false;
     float_repr := fun _ => "nan" : str;
     float_of_str := float_literal;
     path_name := basename;
     path_stem := fun p => drop_suffix (basename p);
     path_str := fun p => p |}.

Definition property (name : string) (v : PyValue) : IfcProperty :=
  mkIfcProperty (Some (name : str)) (Some v).

Definition complete_properties : list IfcProperty :=
  [ property "A4_Utsp_Kategori" (PyStr "ProvisionForVoid");
    property "A4_Utsp_ID" (PyStr "RIV_Hull-1");
    property "A4_Utsp_Utsparingstype" (PyStr "Utsparing");
    property "A4_Utsp_Tetting" (PyStr "Ja");
    property "A4_Utsp_Fase" (PyStr "Fase 1");
    property "A4_Utsp_Status" (PyStr "Godkjent");
    property "A4_Utsp_Rev" (PyInt 0);
    property "A4_Utsp_RevDato" (PyStr "01.01.2024");
    property "A4_Utsp_RevBeskrivelse" (PyStr "Initial");
    property "A4_Utsp_DimBredde" (PyInt 200);
    property "A4_Utsp_DimHøyde" (PyInt 300) ].

Definition proxy (id : string) (rels : list IfcRelDefines) : IfcElement :=
  mkIfcElement (id : str) (Some ("Utsparing" : str)) "IfcBuildingElementProxy"
    None rels.

(** Element A of the end-to-end scenario: every property valid, in the
    property set A4_Utsp. *)
Definition element_A : IfcElement :=
  proxy "A"
    [ IfcRelDefinesByProperties
        (IfcPropertySet (Some ("A4_Utsp" : str)) complete_properties) ].

(** Element B of the scenario: no property set at all. *)
Definition element_B : IfcElement := proxy "B" [].

(** The properties of element A in a property set of another name. *)
Definition element_C : IfcElement :=
  proxy "C"
    [ IfcRelDefinesByProperties
        (IfcPropertySet (Some ("Pset_Egen" : str)) complete_properties) ].

(** A misplaced set first, the set A4_Utsp after it. *)
Definition element_D : IfcElement :=
  proxy "D"
    [ IfcRelDefinesByProperties
        (IfcPropertySet (Some ("Pset_Egen" : str))
           [ property "A4_Utsp_Fase" (PyStr "Fase 2") ]);
      IfcRelDefinesOther;
      IfcRelDefinesByProperties
        (IfcPropertySet (Some ("A4_Utsp" : str)) complete_properties) ].

Definition model : IfcFile :=
  mkIfcFile
    (fun t =>
       if bool_decide (t = "IfcBuildingElementProxy")
       then [ element_A; element_B; element_C; element_D ]
       else []).

(** A host on which an empty file is not a model and every other content
    is read as [model]; annotation changes nothing and the model is written
    as one byte. *)
Definition host : Host :=
  {| ifc_parse := fun content =>
       match content with
       | [] => Raise IfcError
       | _ => Ok model
       end;
     ifc_annotate := fun m _ => Ok m;
     ifc_serialize := fun _ => Ok [ Byte.x00 ];
     tmp_name := fun _ suffix => ("/tmp/tmpa4utsp" : str) ++ suffix |}.

(** What a call returned, for the closed examples. *)
Definition returned {A : Type} (d : A) (r : result A) : A :=
  match r with
  | Ok a => a
  | Raise _ => d
  end.

Definition no_outcome : ElementValidation :=
  mkElementValidation [] [] [] None false None [] ∅ ∅ None [] 0 0.

(** The outcome of the command-line validator on an element, without an
    expected prefix. *)
Definition validated (e : IfcElement) : ElementValidation :=
  returned no_outcome (@validate_utsparinger.validate_element runtime e None).

(** An upload of a one-byte file to the app, on an empty file system. *)
Definition upload : result app.FileValidation * filesystem :=
  @app.validate_ifc_file runtime host [ Byte.x01 ] "A4_RIV_Utsparinger.ifc" ∅.

Definition no_file : app.FileValidation := app.mkFileValidation [] 0 [] None.

(** Width and height given as numbers, nothing else. *)
Definition rectangular : gmap str PyValue :=
  <[("A4_Utsp_DimBredde" : str) := PyInt 200]>
    (<[("A4_Utsp_DimHøyde" : str) := PyInt 300]> ∅).

End example.

(** * The vocabulary of the specification *)
Section vocabulary.
Context {rt : PyRuntime}.

(** A string composed only of digits. *)
Definition all_decimal (s : str) : Prop := s <> [] /\ forallb isdecimal s = true.

(** A value that parses as a number truncating to a non-negative integer. *)
Definition truncates_to_nonneg (v : PyValue) : Prop :=
  exists f n, py_float v = Ok f /\ py_int f = Ok n /\ (0 <= n)%Z.

(** A validator call that returns a passed outcome. *)
Definition accepted (r : result ValidationResult) : Prop :=
  exists o, r = Ok o /\ is_valid o = true.

(** A validator call that returns a failed outcome of severity error. *)
Definition rejected_with_error (r : result ValidationResult) : Prop :=
  exists o, r = Ok o /\ is_valid o = false /\ severity o = "error".

(** The two runs of an identifier LETTERS_Hull-DIGITS: two to four
    upper-case letters, and one or more digits. *)
Definition id_shape (letters digits : str) : Prop :=
  (2 <= length letters <= 4)%nat /\ forallb is_upper_AZ letters = true /\
  digits <> [] /\ forallb isdecimal digits = true.

(** A dimension that has a value: present, not empty after trimming, and not
    literally 0 or 0.0. *)
Definition HasValue (o : option PyValue) : Prop :=
  exists v, o = Some v /\ v <> PyNone /\ str_strip (py_str v) <> [] /\
            str_strip (py_str v) <> "0" /\ str_strip (py_str v) <> "0.0".

(** The first-match decision table of the dimension check, on the flags
    width, height and diameter. *)
Definition dimension_decision (width height diameter : bool) : ValidationResult :=
  if width && height then Result2 true "Rektangulær: Bredde og Høyde angitt"
  else if diameter then Result2 true "Rund: Diameter angitt"
  else if width && negb height
  then Result3 false "Bredde angitt men Høyde mangler" "error"
  else if height && negb width
  then Result3 false "Høyde angitt men Bredde mangler" "error"
  else
    Result3 false "Dimensjoner mangler (enten Bredde+Høyde eller Diameter)" "error".

(** The trimmed comma-separated tokens of a text that are not empty and not
    one of the four known functions. *)
Definition unknown_funksjon (s : str) : list str :=
  filter (fun t => t <> [] /\ t ∉ validation_rules.VALID_FUNKSJON)
    (map str_strip (str_split 44 s)).

End vocabulary.

(** The four overall statuses. *)
Definition statuses : list str :=
  [ "OK" : str; "Feil" : str; "Advarsel" : str; "Mangler pset" : str ].

(** The property sets an element is defined by, in the order of its
    associations: name and properties of each. *)
Definition property_sets (e : IfcElement) : list (option str * list IfcProperty) :=
  omap
    (fun d =>
       match d with
       | IfcRelDefinesByProperties (IfcPropertySet n ps) => Some (n, ps)
       | _ => None
       end)
    (IsDefinedBy e).

(** A fuzzy match: a set holding a property whose name starts with A4_Utsp_. *)
Definition fuzzy (pset : option str * list IfcProperty) : bool :=
  element_validation.has_misplaced_property pset.2.

(** The annotation of a set found in the wrong place. *)
Definition annotated (pset : option str * list IfcProperty) : str :=
  element_validation.format_name pset.1 ++ " (feil plassering)".

(** The property set the extractor locates on an element. *)
Definition located_pset (e : IfcElement) : option str :=
  (element_validation.get_element_properties e).1.1.

(** Two string constants differ: their code points are computed and
    compared. *)
Ltac distinct_strings :=
  let H := fresh "Hstr" in intros H; vm_compute in H; discriminate H.

(** * Further vocabulary: tallies, outcomes and verdicts *)

(** What an outcome adds to the error count and to the warning count of
    its element. *)
Definition error_tally (res : ValidationResult) : Z :=
  if negb (is_valid res) && bool_decide (severity res = "error") then 1%Z else 0%Z.

Definition warning_tally (res : ValidationResult) : Z :=
  if bool_decide (severity res = "warning") then 1%Z else 0%Z.

(** An outcome that counts neither as an error nor as a warning. *)
Definition clean (res : ValidationResult) : Prop :=
  is_valid res = true /\ severity res <> "warning".

(** A failed outcome is tagged error or warning. *)
Definition tagged (res : ValidationResult) : Prop :=
  is_valid res = false -> severity res = "error" \/ severity res = "warning".

(** A property whose name starts with A4_Utsp_. *)
Definition prefixed (prop : IfcProperty) : Prop :=
  exists rest : str, prop_Name prop = Some ("A4_Utsp_" ++ rest).

(** A property set that holds a property whose name starts with A4_Utsp_,
    whatever the set is called. *)
Definition holds_prefixed (pset : option str * list IfcProperty) : Prop :=
  exists prop, prop ∈ pset.2 /\ prefixed prop.

(** The name recorded for a set found in the wrong place: the name of the
    set as an f-string renders it, and the annotation. *)
Definition wrong_place_name (pset_name : option str) : str :=
  match pset_name with
  | Some n => n ++ " (feil plassering)"
  | None => "None (feil plassering)"
  end.

(** The underscore, at which a file stem is split. *)
Definition underscore : N := 95%N.


(** A failed outcome that counts as an error. *)
Definition failed_error (res : ValidationResult) : Prop :=
  is_valid res = false /\ severity res = "error".

(** The fields of a result that decide how an element is reported. *)
Definition verdict (r : ElementValidation)
  : str * Z * Z * bool * option str * option (bool * str) :=
  (overall_status r, error_count r, warning_count r, has_pset r, pset_name_found r,
   (fun d => (is_valid d, severity d)) <$> dimension_validation r).

Definition result_fmap {A B : Type} (f : A -> B) (r : result A) : result B :=
  match r with
  | Ok a => Ok (f a)
  | Raise e => Raise e
  end.

(** The map of outcomes after recording one outcome per name, in order. *)
Fixpoint record_all (ks : list str) (rs : list ValidationResult)
    (pv : gmap str ValidationResult) : gmap str ValidationResult :=
  match ks, rs with
  | k :: ks', res :: rs' => record_all ks' rs' (<[k := res]> pv)
  | _, _ => pv
  end.

Section outcome_vocabulary.
Context {rt : PyRuntime}.
Context (PROPERTY_VALIDATORS : gmap str (PyValue -> result ValidationResult)).
Context (validate_id : PyValue -> option str -> ValidationResult).

(** The outcome the loop over the required properties computes for one
    property name. *)
Definition required_outcome
    (properties : gmap str PyValue) (expected_prefix : option str) (prop_name : str)
  : result ValidationResult :=
  let value := dict_get properties prop_name in
  match PROPERTY_VALIDATORS !! prop_name with
  | Some validator =>
      if bool_decide (prop_name = "A4_Utsp_ID")
      then Ok (validate_id value expected_prefix)
      else validator value
  | None =>
      if none_or_blank value then Ok (Result3 false "Mangler verdi" "error")
      else Ok (Result2 true "OK")
  end.

(** The outcome the loop over the optional properties computes for one
    property name: none when the property was not extracted. *)
Definition optional_outcome (properties : gmap str PyValue) (prop_name : str)
  : result (option ValidationResult) :=
  match properties !! prop_name with
  | Some value =>
      match PROPERTY_VALIDATORS !! prop_name with
      | Some validator => result_fmap Some (validator value)
      | None => Ok None
      end
  | None => Ok None
  end.

End outcome_vocabulary.

(** The status for an error count and a warning count. *)
Definition status_of_counts (error_count warning_count : Z) : str :=
  if (0 <? error_count)%Z then "Feil"
  else if (0 <? warning_count)%Z then "Advarsel"
  else "OK".

(** The sum of a tally over a list of outcomes. *)
Definition tally_sum (tally : ValidationResult -> Z) (rs : list ValidationResult) : Z :=
  foldr Z.add 0%Z (map tally rs).

(** The name an element is reported under. *)
Definition display_name (e : IfcElement) : str :=
  match Name e with
  | Some (c :: n) => c :: n
  | _ => "(uten navn)"
  end.

(** The result of the element validator on an element with a located
    property set, from the outcomes of its required properties, the
    outcome of the optional one and the outcome of the dimension check. *)
Definition assembled
    (e : IfcElement) (found : str) (rs : list ValidationResult)
    (o : option ValidationResult) (dim_result : ValidationResult)
  : ElementValidation :=
  let properties := (element_validation.get_element_properties e).1.2 in
  let recorded := record_all validation_rules.REQUIRED_PROPERTIES rs ∅ in
  let errors :=
    (tally_sum error_tally rs + (if is_valid dim_result then 0 else 1))%Z in
  let warnings :=
    (tally_sum warning_tally rs + from_option warning_tally 0 o
     + (if bool_decide (found = validation_rules.REQUIRED_PSET) then 0 else 1))%Z in
  mkElementValidation (GlobalId e) (display_name e) (is_a e) (ObjectType e)
    (bool_decide (found = validation_rules.REQUIRED_PSET)) (Some found)
    (element_validation.get_element_properties e).2 properties
    (match o with
     | Some res => <[("A4_Utsp_Funksjon" : str) := res]> recorded
     | None => recorded
     end)
    (Some dim_result) (status_of_counts errors warnings) errors warnings.

(** All properties of the property sets of an element, in order. *)
Definition all_properties (e : IfcElement) : list IfcProperty :=
  concat (property_sets e).*2.

(** The value the extractor stores for a property. *)
Definition stored_value (prop : IfcProperty) : PyValue :=
  match NominalValue prop with
  | Some wrappedValue => wrappedValue
  | None => PyNone
  end.

(** A property that is extracted under the name [k]. *)
Definition carries (k : str) (prop : IfcProperty) : bool :=
  bool_decide (prop_Name prop = Some k) && str_startswith "A4_Utsp_" k.

(** The three runs of digits of a date text DD.MM.YYYY. *)
Definition date_shape {rt : PyRuntime} (d m y : str) : Prop :=
  length d = 2%nat /\ length m = 2%nat /\ length y = 4%nat /\
  forallb isdecimal (d ++ m ++ y) = true.

(** Status and counts of an element that fit together. *)
Definition element_consistent (r : ElementValidation) : Prop :=
  (overall_status r = "OK" /\ error_count r = 0%Z /\ warning_count r = 0%Z) \/
  (overall_status r = "Advarsel" /\ error_count r = 0%Z /\
   (1 <= warning_count r <= 4)%Z) \/
  (overall_status r = "Feil" /\ (1 <= error_count r <= 10)%Z /\
   (0 <= warning_count r <= 4)%Z) \/
  (overall_status r = "Mangler pset" /\ error_count r = 1%Z /\
   warning_count r = 0%Z /\ has_pset r = false).

(** The summary of a file whose elements are consistent. *)
Definition summary_consistent (s : Summary) : Prop :=
  (s_has_pset s + s_mangler_pset s <= s_total s)%Z /\
  (s_feil s + s_mangler_pset s <= s_total_errors s
   <= 10 * s_feil s + s_mangler_pset s)%Z /\
  (s_advarsel s <= s_total_warnings s <= 4 * (s_feil s + s_advarsel s))%Z /\
  (s_ok s = s_total s <-> s_total_errors s = 0%Z /\ s_total_warnings s = 0%Z).

(** The discipline codes looked for in a file name. *)
Definition discipline_codes : list str := [ "RIV" : str; "RIE" : str; "RIVA" : str ].

Section tables.
Context {rt : PyRuntime}.

(** The nine outcomes of the command-line validators on the extracted
    properties, in the order of REQUIRED_PROPERTIES, given the outcome of
    the revision validator. *)
Definition tool_outcomes
    (properties : gmap str PyValue) (expected_prefix : option str)
    (rev : ValidationResult) : list ValidationResult :=
  [ validation_rules.validate_kategori (dict_get properties "A4_Utsp_Kategori");
    validation_rules.validate_id (dict_get properties "A4_Utsp_ID") expected_prefix;
    validation_rules.validate_utsparingstype
      (dict_get properties "A4_Utsp_Utsparingstype");
    validation_rules.validate_tetting (dict_get properties "A4_Utsp_Tetting");
    validation_rules.validate_fase (dict_get properties "A4_Utsp_Fase");
    validation_rules.validate_status (dict_get properties "A4_Utsp_Status");
    rev;
    validation_rules.validate_rev_dato (dict_get properties "A4_Utsp_RevDato");
    validation_rules.validate_rev_beskrivelse
      (dict_get properties "A4_Utsp_RevBeskrivelse") ].

(** The same for the validators of the app. *)
Definition app_outcomes
    (properties : gmap str PyValue) (expected_prefix : option str)
    (rev : ValidationResult) : list ValidationResult :=
  [ app.validate_kategori (dict_get properties "A4_Utsp_Kategori");
    app.validate_id (dict_get properties "A4_Utsp_ID") expected_prefix;
    app.validate_utsparingstype (dict_get properties "A4_Utsp_Utsparingstype");
    app.validate_tetting (dict_get properties "A4_Utsp_Tetting");
    app.validate_fase (dict_get properties "A4_Utsp_Fase");
    app.validate_status (dict_get properties "A4_Utsp_Status");
    rev;
    app.validate_rev_dato (dict_get properties "A4_Utsp_RevDato");
    app.validate_rev_beskrivelse (dict_get properties "A4_Utsp_RevBeskrivelse") ].

End tables.
(** * Further elements for the closed instances *)
Module scenario.

(** The set A4_Utsp without any property: every required property and the
    dimensions are missing. *)
Definition empty_set : IfcElement :=
  example.proxy "E" [ IfcRelDefinesByProperties (IfcPropertySet (Some ("A4_Utsp" : str)) []) ].

(** Valid properties in a set of another name, with an identifier of
    another discipline, the opening type Innstøpningsgods and an unknown
    function. *)
Definition warned : IfcElement :=
  example.proxy "F"
    [ IfcRelDefinesByProperties
        (IfcPropertySet (Some ("Pset_Egen" : str))
           (example.complete_properties
            ++ [ example.property "A4_Utsp_Utsparingstype" (PyStr "Innstøpningsgods");
                 example.property "A4_Utsp_Funksjon" (PyStr "Tak") ])) ].


(** A set without a name and without any A4_Utsp_ property. *)
Definition nameless_set : IfcElement :=
  example.proxy "H"
    [ IfcRelDefinesByProperties
        (IfcPropertySet None [ example.property "Bredde" (PyInt 200) ]) ].

(** The outcome of the command-line validator with an expected prefix. *)
Definition validated_for (prefix : string) (e : IfcElement) : ElementValidation :=
  example.returned example.no_outcome
    (@validate_utsparinger.validate_element example.runtime e (Some (prefix : str))).

End scenario.
(** * app.py, continued: the messages of an element and the tile of a file *)

(** [sub in s] *)
Fixpoint str_contains (sub s : str) : bool :=
  str_startswith sub s
  || match s with
     | [] => false
     | _ :: s' => str_contains sub s'
     end.

Module app_report.
Section report.
Context {rt : PyRuntime}.

(** [ev.property_validations.items()].  A dict keeps the order of
    insertion, and the element validator inserts the required names in the
    order of REQUIRED_PROPERTIES and the optional names after them. *)
Definition items (property_validations : gmap str ValidationResult)
  : list (str * ValidationResult) :=
  omap (fun prop_name => pair prop_name <$> property_validations !! prop_name)
    (app.REQUIRED_PROPERTIES ++ app.OPTIONAL_PROPERTIES).

(** One turn of the loop of [get_error_messages]; the state is
    [(error_messages, warning_messages)]. *)
Definition collect_message
    (st : list str * list str) (item : str * ValidationResult)
  : list str * list str :=
  let '(error_messages, warning_messages) := st in
  let '(prop_name, result) := item in
  let short_name := str_replace "A4_Utsp_" [] prop_name in
  let line := short_name ++ ": " ++ message result in
  if negb (is_valid result)
  then
    if bool_decide (severity result = "error")
    then (error_messages ++ [line], warning_messages)
    else if bool_decide (severity result = "warning")
    then (error_messages, warning_messages ++ [line])
    else st
  else if bool_decide (severity result = "warning")
  then (error_messages, warning_messages ++ [line])
  else st.

(** [', '.join(ev.all_psets)]: an item that is None raises TypeError. *)
Definition join_names (sep : str) (names : list (option str)) : result str :=
  if forallb (fun n => bool_decide (n <> None)) names
  then Ok (str_join sep (omap id names))
  else Raise TypeError.

(** The two lists of [get_error_messages] before they are joined. *)
Definition messages (ev : ElementValidation) : result (list str * list str) :=
  let '(error_messages, warning_messages) :=
    foldl collect_message ([], []) (items (property_validations ev)) in
  let error_messages :=
    match dimension_validation ev with
    | Some dimension_validation =>
        if negb (is_valid dimension_validation)
        then error_messages ++ ["Dimensjoner: " ++ message dimension_validation]
        else error_messages
    | None => error_messages
    end in
  if negb (has_pset ev) && bool_decide (pset_name_found ev = None)
  then
    match all_psets ev with
    | _ :: _ =>
        join_names ", " (all_psets ev) ≫= fun names =>
        Ok (error_messages ++ ["Mangler A4_Utsp. Har: " ++ names], warning_messages)
    | [] =>
        Ok (error_messages ++ [utf8 "Mangler A4_Utsp. Sjekk GUID i IFC"],
            warning_messages)
    end
  else
    match pset_name_found ev with
    | Some (c :: n) =>
        if bool_decide (c :: n <> "A4_Utsp")
        then
          Ok (error_messages,
              warning_messages ++ ["Egenskaper i feil pset: " ++ c :: n])
        else Ok (error_messages, warning_messages)
    | _ => Ok (error_messages, warning_messages)
    end.

Definition get_error_messages (ev : ElementValidation) : result str :=
  messages ev ≫= fun '(error_messages, warning_messages) =>
  let all_msgs :=
    map (fun m => "FEIL: " ++ m) error_messages
    ++ map (fun m => "ADVARSEL: " ++ m) warning_messages in
  match all_msgs with
  | [] => Ok (utf8 "-")
  | _ => Ok (str_join "; " all_msgs)
  end.

(** The texts [create_validated_ifc] (and [add_validation_pset_to_ifc] of
    the command-line tool, in the same words) writes for an element. *)
Definition val_status (ev : ElementValidation) : str :=
  if bool_decide (overall_status ev = "OK") then "Godkjent"
  else if bool_decide (overall_status ev = "Advarsel") then "Godkjent med advarsler"
  else if bool_decide (overall_status ev = "Mangler pset") then "Mangler A4_Utsp"
  else "Ikke godkjent".

Definition pset_status (ev : ElementValidation) : str :=
  if has_pset ev then "OK"
  else
    match pset_name_found ev with
    | Some (c :: n) => "Feil plassering: " ++ c :: n
    | _ => "Mangler"
    end.

Definition dim_status (ev : ElementValidation) : str :=
  match dimension_validation ev with
  | Some dimension_validation => message dimension_validation
  | None => "Ikke validert"
  end.

(** [e.pset_name_found and "(feil plassering)" in e.pset_name_found] *)
Definition wrong_place (e : ElementValidation) : bool :=
  match pset_name_found e with
  | Some (c :: n) => str_contains "(feil plassering)" (c :: n)
  | _ => false
  end.

(** The function [get_file_pset_status] of the page: class, text and
    subtitle of the tile of a file. *)
Definition get_file_pset_status (fv : app.FileValidation) : str * str * option str :=
  let has_correct := existsb has_pset (app.elements fv) in
  let has_wrong := existsb wrong_place (app.elements fv) in
  if has_correct then ("ok" : str, "A4_Utsp" : str, None)
  else if has_wrong
  then
    match find wrong_place (app.elements fv) with
    | Some e =>
        ("warning" : str,
         str_replace " (feil plassering)" [] (default [] (pset_name_found e)),
         Some ("Feil pset-navn" : str))
    | None => ("warning" : str, "Ukjent" : str, Some ("Feil pset-navn" : str))
    end
  else ("error" : str, "Ikke funnet" : str, None).

End report.
End app_report.

(** * Facts about the runtime primitives *)

Section regex_facts.

Lemma lang_eps_inv (s : str) : lang Eps s -> s = [].
Proof. inversion 1; reflexivity. Qed.

Lemma lang_sym_inv (p : N -> bool) (s : str) :
  lang (Sym p) s -> exists c, s = [c] /\ p c = true.
Proof. inversion 1; subst; eauto. Qed.

Lemma lang_cat_inv (r1 r2 : regex) (s : str) :
  lang (Cat r1 r2) s -> exists s1 s2, s = s1 ++ s2 /\ lang r1 s1 /\ lang r2 s2.
Proof. inversion 1; subst; eauto. Qed.

Lemma lang_alt_inv (r1 r2 : regex) (s : str) :
  lang (Alt r1 r2) s -> lang r1 s \/ lang r2 s.
Proof. inversion 1; subst; auto. Qed.

Lemma lang_star_cons_inv (r : regex) (c : N) (s : str) :
  lang (Star r) (c :: s) ->
  exists s1 s2, s = s1 ++ s2 /\ lang r (c :: s1) /\ lang (Star r) s2.
Proof.
  intros H. remember (Star r) as q eqn:Hq. remember (c :: s) as w eqn:Hw.
  revert Hq Hw. induction H as [| | | | | |r' s1 s2 H1 _ H2 IH2]; try discriminate.
  intros Hq Hw. injection Hq as ->.
  destruct s1 as [|c1 s1'].
  - simpl in Hw. apply IH2; [reflexivity | assumption].
  - simpl in Hw. injection Hw as Hc Hs. subst. exists s1', s2. auto.
Qed.

Lemma nullable_lang (r : regex) : nullable r = true <-> lang r [].
Proof.
  induction r as [| |p|r1 IH1 r2 IH2|r1 IH1 r2 IH2|r IH]; simpl.
  - split; [discriminate | inversion 1].
  - split; [constructor | reflexivity].
  - split; [discriminate | inversion 1].
  - rewrite andb_true_iff, IH1, IH2. split.
    + intros [H1 H2]. apply (lang_cat _ _ [] []); assumption.
    + intros H. apply lang_cat_inv in H as (s1 & s2 & Heq & H1 & H2).
      symmetry in Heq. apply app_eq_nil in Heq as [-> ->]. split; assumption.
  - rewrite orb_true_iff, IH1, IH2. split.
    + intros [H|H]; [apply lang_alt_l | apply lang_alt_r]; assumption.
    + apply lang_alt_inv.
  - split; [constructor | reflexivity].
Qed.

Lemma deriv_lang (r : regex) (c : N) (s : str) :
  lang (deriv c r) s <-> lang r (c :: s).
Proof.
  revert s. induction r as [| |p|r1 IH1 r2 IH2|r1 IH1 r2 IH2|r IH]; intros s; simpl.
  - split; inversion 1.
  - split; inversion 1.
  - destruct (p c) eqn:Hp; split; intros H.
    + apply lang_eps_inv in H as ->. constructor; assumption.
    + apply lang_sym_inv in H as (c' & Heq & _). simplify_eq. constructor.
    + inversion H.
    + apply lang_sym_inv in H as (c' & Heq & Hc). simplify_eq. congruence.
  - assert (Hcat : lang (Cat (deriv c r1) r2) s -> lang (Cat r1 r2) (c :: s)).
    { intros H. apply lang_cat_inv in H as (s1 & s2 & -> & H1 & H2).
      apply IH1 in H1. apply (lang_cat _ _ (c :: s1) s2); assumption. }
    assert (Hinv : lang (Cat r1 r2) (c :: s) ->
                   lang (Cat (deriv c r1) r2) s \/ (lang r1 [] /\ lang r2 (c :: s))).
    { intros H. apply lang_cat_inv in H as (s1 & s2 & Heq & H1 & H2).
      destruct s1 as [|c1 s1'].
      - simpl in Heq. subst. right. split; assumption.
      - simpl in Heq. injection Heq as Hc Hs. subst. left.
        apply lang_cat; [apply IH1 |]; assumption. }
    destruct (nullable r1) eqn:Hn; split; intros H.
    + apply lang_alt_inv in H as [H|H]; [auto |].
      apply (lang_cat _ _ [] (c :: s)); [apply nullable_lang | apply IH2]; assumption.
    + apply Hinv in H as [H|[_ H]]; [apply lang_alt_l | apply lang_alt_r, IH2]; assumption.
    + auto.
    + apply Hinv in H as [H|[H _]]; [assumption |].
      apply nullable_lang in H. congruence.
  - split; intros H; apply lang_alt_inv in H as [H|H].
    + apply lang_alt_l, IH1; assumption.
    + apply lang_alt_r, IH2; assumption.
    + apply lang_alt_l, IH1; assumption.
    + apply lang_alt_r, IH2; assumption.
  - split; intros H.
    + apply lang_cat_inv in H as (s1 & s2 & -> & H1 & H2).
      apply (lang_star_cons _ (c :: s1) s2); [apply IH |]; assumption.
    + apply lang_star_cons_inv in H as (s1 & s2 & -> & H1 & H2).
      apply lang_cat; [apply IH |]; assumption.
Qed.

Lemma matches_lang (r : regex) (s : str) : matches r s = true <-> lang r s.
Proof.
  revert r. induction s as [|c s IH]; intros r; simpl.
  - apply nullable_lang.
  - rewrite IH. apply deriv_lang.
Qed.

(** The words of the pattern combinators. *)

Lemma lang_lit (w s : str) : lang (lit w) s <-> s = w.
Proof.
  revert s. induction w as [|c w IH]; intros s; simpl.
  - split; [apply lang_eps_inv | intros ->; constructor].
  - split.
    + intros H. apply lang_cat_inv in H as (s1 & s2 & -> & H1 & H2).
      apply lang_sym_inv in H1 as (c' & -> & Hc). apply N.eqb_eq in Hc as ->.
      apply IH in H2 as ->. reflexivity.
    + intros ->. apply (lang_cat _ _ [c] w).
      * constructor. apply N.eqb_refl.
      * apply IH. reflexivity.
Qed.

Lemma lang_star_sym (p : N -> bool) (s : str) :
  lang (Star (Sym p)) s <-> forallb p s = true.
Proof.
  induction s as [|c s IH]; simpl.
  - split; [reflexivity | constructor].
  - rewrite andb_true_iff, <- IH. split.
    + intros H. apply lang_star_cons_inv in H as (s1 & s2 & -> & H1 & H2).
      apply lang_sym_inv in H1 as (c' & Heq & Hc). simplify_eq. auto.
    + intros [Hc H]. apply (lang_star_cons _ [c] s); [constructor |]; assumption.
Qed.

Lemma lang_plus_sym (p : N -> bool) (s : str) :
  lang (plus (Sym p)) s <-> s <> [] /\ forallb p s = true.
Proof.
  unfold plus. split.
  - intros H. apply lang_cat_inv in H as (s1 & s2 & -> & H1 & H2).
    apply lang_sym_inv in H1 as (c & -> & Hc). apply lang_star_sym in H2.
    simpl. rewrite Hc, H2. split; [discriminate | reflexivity].
  - intros [Hne H]. destruct s as [|c s]; [congruence |].
    simpl in H. apply andb_true_iff in H as [Hc H].
    apply (lang_cat _ _ [c] s); [constructor | apply lang_star_sym]; assumption.
Qed.

Lemma lang_times_sym (n : nat) (p : N -> bool) (s : str) :
  lang (times n (Sym p)) s <-> length s = n /\ forallb p s = true.
Proof.
  revert s. induction n as [|n IH]; intros s; simpl.
  - split.
    + intros H. apply lang_eps_inv in H as ->. auto.
    + intros [H _]. destruct s; [constructor | discriminate].
  - split.
    + intros H. apply lang_cat_inv in H as (s1 & s2 & -> & H1 & H2).
      apply lang_sym_inv in H1 as (c & -> & Hc). apply IH in H2 as [<- H2].
      simpl. rewrite Hc, H2. auto.
    + intros [Hl H]. destruct s as [|c s]; [discriminate |].
      simpl in *. apply andb_true_iff in H as [Hc H].
      apply (lang_cat _ _ [c] s); [constructor; assumption |].
      apply IH. split; [lia | assumption].
Qed.

Lemma lang_upto_sym (n : nat) (p : N -> bool) (s : str) :
  lang (upto n (Sym p)) s <-> length s <= n /\ forallb p s = true.
Proof.
  revert s. induction n as [|n IH]; intros s; simpl.
  - split.
    + intros H. apply lang_eps_inv in H as ->. auto.
    + intros [H _]. destruct s; [constructor | simpl in H; lia].
  - split.
    + intros H. apply lang_alt_inv in H as [H|H].
      * apply lang_eps_inv in H as ->. simpl. split; [lia | reflexivity].
      * apply lang_cat_inv in H as (s1 & s2 & -> & H1 & H2).
        apply lang_sym_inv in H1 as (c & -> & Hc). apply IH in H2 as [Hl H2].
        simpl. rewrite Hc, H2. split; [lia | reflexivity].
    + intros [Hl H]. destruct s as [|c s]; [apply lang_alt_l; constructor |].
      simpl in *. apply andb_true_iff in H as [Hc H].
      apply lang_alt_r, (lang_cat _ _ [c] s); [constructor; assumption |].
      apply IH. split; [lia | assumption].
Qed.

Lemma lang_anchored (r : regex) (s : str) :
  lang (anchored r) s <-> lang r s \/ exists w, s = w ++ [10%N] /\ lang r w.
Proof.
  unfold anchored. split.
  - intros H. apply lang_cat_inv in H as (s1 & s2 & -> & H1 & H2).
    apply lang_alt_inv in H2 as [H2|H2].
    + apply lang_eps_inv in H2 as ->. rewrite app_nil_r. auto.
    + apply lang_sym_inv in H2 as (c & -> & Hc). apply N.eqb_eq in Hc as <-. eauto.
  - intros [H|(w & -> & H)].
    + rewrite <- (app_nil_r s). apply lang_cat; [assumption |].
      apply lang_alt_l. constructor.
    + apply lang_cat; [assumption |]. apply lang_alt_r. constructor. reflexivity.
Qed.

End regex_facts.

Section string_facts.

Lemma str_lstrip_head (s t : str) (c : N) :
  str_lstrip s = c :: t -> isspace c = false.
Proof.
  induction s as [|a s IH]; simpl; [discriminate |].
  destruct (isspace a) eqn:Ha; [assumption |].
  intros Heq. injection Heq as <- _. assumption.
Qed.

(** A stripped string does not end with white space. *)
Lemma str_strip_last (s t : str) (c : N) :
  str_strip s = t ++ [c] -> isspace c = false.
Proof.
  unfold str_strip, str_rstrip. intros H.
  apply (f_equal (@rev N)) in H. rewrite rev_involutive, rev_app_distr in H.
  simpl in H. eapply str_lstrip_head, H.
Qed.

(** A stripped string does not start with white space. *)
Lemma str_lstrip_idem (s : str) : str_lstrip (str_lstrip s) = str_lstrip s.
Proof.
  induction s as [|a s IH]; simpl; [reflexivity |].
  destruct (isspace a) eqn:Ha; [assumption |]. simpl. rewrite Ha. reflexivity.
Qed.

(** Stripping leaves a string alone that neither starts nor ends with
    white space. *)
Lemma str_lstrip_id (c : N) (s : str) :
  isspace c = false -> str_lstrip (c :: s) = c :: s.
Proof. intros H. simpl. rewrite H. reflexivity. Qed.

Lemma str_strip_id (c d : N) (s : str) :
  isspace c = false -> isspace d = false ->
  str_strip (c :: s ++ [d]) = c :: s ++ [d].
Proof.
  intros Hc Hd. unfold str_strip, str_rstrip. rewrite str_lstrip_id by assumption.
  assert (Hrev : rev (c :: s ++ [d]) = d :: rev (c :: s)).
  { change (c :: s ++ [d]) with ((c :: s) ++ [d]). apply rev_app_distr. }
  rewrite Hrev, str_lstrip_id by assumption.
  rewrite <- Hrev. apply rev_involutive.
Qed.

(** The first field of a split is the text before the first separator. *)
Lemma str_split_first (sep : N) (w rest : str) :
  forallb (fun c => negb (c =? sep)%N) w = true ->
  default [] (str_split sep (w ++ sep :: rest) !! 0%nat) = w.
Proof.
  induction w as [|c w IH]; simpl.
  - intros _. rewrite N.eqb_refl. reflexivity.
  - intros H. apply andb_true_iff in H as [Hc H].
    apply negb_true_iff in Hc. rewrite Hc. specialize (IH H).
    destruct (str_split sep (w ++ sep :: rest)) as [|x xs]; simpl in *.
    + subst. reflexivity.
    + subst. reflexivity.
Qed.

Lemma str_split_nonempty (sep : N) (s : str) : str_split sep s <> [].
Proof.
  induction s as [|c s IH]; simpl; [discriminate |].
  destruct (c =? sep)%N; [discriminate |].
  destruct (str_split sep s); discriminate.
Qed.

End string_facts.

(** * The revision validator *)
Section rev_facts.
Context {rt : PyRuntime}.

Lemma REV_PATTERN_stripped (x : str) :
  re_match validation_rules.REV_PATTERN (str_strip x) = true
  <-> all_decimal (str_strip x).
Proof.
  unfold re_match, validation_rules.REV_PATTERN, all_decimal.
  rewrite matches_lang, lang_anchored, lang_plus_sym. split; [| auto].
  intros [H|(w & Hw & _)]; [exact H |].
  apply str_strip_last in Hw. discriminate.
Qed.

Lemma bind_float_int (v : PyValue) (n : Z) :
  py_float v ≫= py_int = Ok n <-> exists f, py_float v = Ok f /\ py_int f = Ok n.
Proof.
  unfold mbind, result_bind. destruct (py_float v) as [f|e].
  - split; [eauto |]. intros (f' & [= <-] & H). exact H.
  - split; [discriminate |]. intros (f' & [=] & _).
Qed.

Lemma validate_rev_accepted (v : PyValue) :
  accepted (validation_rules.validate_rev v) <->
  v <> PyNone /\ str_strip (py_str v) <> [] /\
  (all_decimal (str_strip (py_str v)) \/ truncates_to_nonneg v).
Proof.
  unfold validation_rules.validate_rev, accepted.
  destruct (is_None v) eqn:Hnone.
  { destruct v; try discriminate. split.
    - intros (o & [= <-] & Hv). discriminate.
    - intros [H _]. congruence. }
  assert (Hv : v <> PyNone) by (intros ->; discriminate).
  case_bool_decide as Hblank.
  { split.
    - intros (o & [= <-] & Ho). discriminate.
    - intros (_ & H & _). congruence. }
  destruct (re_match _ _) eqn:Hre.
  { apply REV_PATTERN_stripped in Hre. split; [auto |].
    intros _. eexists. split; reflexivity. }
  assert (Hnd : ~ all_decimal (str_strip (py_str v))).
  { intros H. apply REV_PATTERN_stripped in H. congruence. }
  destruct (py_float v ≫= py_int) as [n|e] eqn:Hn.
  - apply bind_float_int in Hn as (f & Hf & Hi).
    destruct (0 <=? n)%Z eqn:Hle.
    + apply Z.leb_le in Hle. split.
      * intros _. repeat split; try assumption. right. exists f, n. auto.
      * intros _. eexists. split; reflexivity.
    + apply Z.leb_gt in Hle. split.
      * intros (o & [= <-] & Ho). discriminate.
      * intros (_ & _ & [H|(f' & n' & Hf' & Hi' & Hn')]); [tauto |].
        rewrite Hf in Hf'. injection Hf' as <-. rewrite Hi in Hi'.
        injection Hi' as <-. lia.
  - assert (Hno : ~ truncates_to_nonneg v).
    { intros (f & n & Hf & Hi & _).
      assert (py_float v ≫= py_int = Ok n) by (apply bind_float_int; eauto).
      congruence. }
    split.
    + intros (o & Ho & Hval). destruct e; simplify_eq; discriminate.
    + intros (_ & _ & [H|H]); tauto.
Qed.

(** The [try] block does not catch the [OverflowError] of [int] on an
    infinite float: the validator raises instead of returning an outcome. *)
Lemma validate_rev_raises_on_infinity (v : PyValue) (s : bool) :
  is_None v = false -> str_strip (py_str v) <> [] ->
  re_match validation_rules.REV_PATTERN (str_strip (py_str v)) = false ->
  py_float v = Ok (S754_infinity s) ->
  validation_rules.validate_rev v = Raise OverflowError.
Proof.
  intros Hn Hb Hre Hf. unfold validation_rules.validate_rev.
  rewrite Hn, bool_decide_eq_false_2, Hre, Hf by assumption. reflexivity.
Qed.

End rev_facts.

(** * The ID validator *)
Section id_facts.
Context {rt : PyRuntime}.

Lemma ID_PATTERN_stripped (x : str) :
  re_match validation_rules.ID_PATTERN (str_strip x) = true
  <-> exists L D, str_strip x = L ++ "_Hull-" ++ D /\ id_shape L D.
Proof.
  unfold re_match, validation_rules.ID_PATTERN, id_shape.
  rewrite matches_lang, lang_anchored.
  assert (Hbody : forall s,
    lang (Cat (Cat (times 2 (Sym is_upper_AZ)) (upto 2 (Sym is_upper_AZ)))
              (Cat (lit "_Hull-") (plus (Sym isdecimal)))) s
    <-> exists L D, s = L ++ "_Hull-" ++ D /\
          (2 <= length L <= 4)%nat /\ forallb is_upper_AZ L = true /\
          D <> [] /\ forallb isdecimal D = true).
  { intros s. split.
    - intros H. apply lang_cat_inv in H as (s12 & s3 & -> & H12 & H3).
      apply lang_cat_inv in H12 as (s1 & s2 & -> & H1 & H2).
      apply lang_cat_inv in H3 as (l & d & -> & Hl & Hd).
      apply lang_times_sym in H1 as [Hl1 Hu1]. apply lang_upto_sym in H2 as [Hl2 Hu2].
      apply lang_lit in Hl as ->. apply lang_plus_sym in Hd as [Hne Hd].
      exists (s1 ++ s2), d. rewrite length_app, forallb_app, Hu1, Hu2.
      repeat split; try assumption; lia.
    - intros (L & D & -> & [Hlo Hhi] & Hu & Hne & Hd).
      rewrite <- (take_drop 2 L) in Hu |- *.
      rewrite forallb_app in Hu. apply andb_true_iff in Hu as [Hu1 Hu2].
      apply lang_cat; [apply lang_cat |].
      + apply lang_times_sym. rewrite length_take. split; [lia | assumption].
      + apply lang_upto_sym. rewrite length_drop. split; [lia | assumption].
      + apply lang_cat; [apply lang_lit; reflexivity |].
        apply lang_plus_sym. auto. }
  rewrite Hbody. split; [| auto].
  intros [H|(w & Hw & _)]; [exact H |].
  apply str_strip_last in Hw. discriminate.
Qed.

(** The text before the first underscore of an identifier is its run of
    letters. *)
Lemma id_letter_prefix (L D : str) :
  forallb is_upper_AZ L = true ->
  default [] (str_split 95 (L ++ "_Hull-" ++ D) !! 0%nat) = L.
Proof.
  intros Hu. change (utf8 "_Hull-" ++ D) with (95%N :: utf8 "Hull-" ++ D).
  apply str_split_first. rewrite forallb_forall in Hu |- *.
  intros c Hc. specialize (Hu c Hc). unfold is_upper_AZ in Hu.
  apply andb_true_iff in Hu as [_ Hu]. apply N.leb_le in Hu.
  apply negb_true_iff, N.eqb_neq. lia.
Qed.

Lemma id_shape_present (v : PyValue) (L D : str) :
  str_strip (py_str v) = L ++ "_Hull-" ++ D -> none_or_blank v = false.
Proof.
  intros Heq. unfold none_or_blank. apply orb_false_iff. split.
  - destruct v; try reflexivity. exfalso.
    assert (Hin : In 95%N (str_strip (py_str PyNone))).
    { rewrite Heq. apply in_or_app. right. left. reflexivity. }
    vm_compute in Hin. intuition discriminate.
  - apply bool_decide_eq_false. rewrite Heq. intros H.
    apply app_eq_nil in H as [_ H]. discriminate.
Qed.

(** In the app a prefix mismatch on a well-formed identifier is a passed
    outcome of severity warning. *)
Lemma app_validate_id_prefix_mismatch (v : PyValue) (L D expected : str) :
  str_strip (py_str v) = L ++ "_Hull-" ++ D -> id_shape L D ->
  expected <> [] -> expected <> L ->
  app.validate_id v (Some expected)
  = mkValidationResult true
      ("ID-prefiks '" ++ L ++ "' != '" ++ expected ++ "'") "warning".
Proof.
  intros Heq Hshape Hne Hdiff. unfold app.validate_id.
  rewrite (id_shape_present v L D Heq).
  assert (Hre : re_match app.ID_PATTERN (str_strip (py_str v)) = true).
  { apply ID_PATTERN_stripped. eauto. }
  rewrite Hre. simpl negb. cbv iota.
  destruct expected as [|c e]; [congruence |].
  rewrite Heq, id_letter_prefix by apply Hshape.
  rewrite bool_decide_eq_true_2 by congruence. reflexivity.
Qed.

End id_facts.

(** * The element extractor *)
Section extractor_facts.

Import element_validation.

Lemma get_element_properties_foldl (e : IfcElement) :
  get_element_properties e = foldl extract_definition (None, ∅, []) (IsDefinedBy e).
Proof. unfold get_element_properties. destruct (IsDefinedBy e); reflexivity. Qed.

Lemma property_sets_cons (d : IfcRelDefines) (ds : list IfcRelDefines) (e e' : IfcElement) :
  IsDefinedBy e = d :: ds -> IsDefinedBy e' = ds ->
  property_sets e
  = match d with
    | IfcRelDefinesByProperties (IfcPropertySet n ps) => (n, ps) :: property_sets e'
    | _ => property_sets e'
    end.
Proof.
  unfold property_sets. intros -> ->. simpl.
  destruct d as [[n ps|]|]; reflexivity.
Qed.

(** The loop of the extractor, from any state: names are appended in order,
    the exact name wins wherever it stands, and without it the location
    already found, or else the first fuzzy match, stays. *)
Lemma extract_definitions_spec (defs : list IfcRelDefines) :
  forall (found : option str) (props : gmap str PyValue) (names : list (option str)),
    let r := foldl extract_definition (found, props, names) defs in
    let psets := property_sets (mkIfcElement [] None [] None defs) in
    r.2 = names ++ psets.*1 /\
    (Some validation_rules.REQUIRED_PSET ∈ psets.*1 ->
     r.1.1 = Some validation_rules.REQUIRED_PSET) /\
    (Some validation_rules.REQUIRED_PSET ∉ psets.*1 ->
     r.1.1 = match found with
             | Some x => Some x
             | None => annotated <$> find fuzzy psets
             end).
Proof.
  induction defs as [|d defs IH]; intros found props names.
  - simpl. rewrite app_nil_r. split; [reflexivity |]. split.
    + intros H. inversion H.
    + intros _. destruct found; reflexivity.
  - cbv zeta.
    rewrite (property_sets_cons d defs _ (mkIfcElement [] None [] None defs))
      by reflexivity.
    destruct d as [[n ps|]|]; simpl foldl; try apply IH.
    match goal with
    | |- context [foldl extract_definition (?f, ?p, ?l) defs] =>
        specialize (IH f p l); cbv zeta in IH; destruct IH as (IHn & IHin & IHout)
    end.
    set (psets := property_sets (mkIfcElement [] None [] None defs)) in *.
    split; [| split].
    + rewrite IHn, <- app_assoc. reflexivity.
    + intros Hin. simpl in Hin.
      destruct (decide (Some validation_rules.REQUIRED_PSET ∈ psets.*1)) as [Hr|Hr];
        [auto |].
      rewrite IHout by assumption.
      apply elem_of_cons in Hin as [Hin|Hin]; [| contradiction].
      rewrite bool_decide_eq_true_2 by congruence. reflexivity.
    + intros Hout. simpl in Hout. apply not_elem_of_cons in Hout as [Hne Hout].
      rewrite IHout by assumption.
      rewrite bool_decide_eq_false_2 by congruence.
      simpl find. change (fuzzy (n, ps)) with (has_misplaced_property ps).
      destruct (has_misplaced_property ps), found; reflexivity.
Qed.

Lemma located_pset_spec (e : IfcElement) :
  (get_element_properties e).2 = (property_sets e).*1 /\
  (Some validation_rules.REQUIRED_PSET ∈ (property_sets e).*1 ->
   located_pset e = Some validation_rules.REQUIRED_PSET) /\
  (Some validation_rules.REQUIRED_PSET ∉ (property_sets e).*1 ->
   located_pset e = annotated <$> find fuzzy (property_sets e)).
Proof.
  unfold located_pset. rewrite get_element_properties_foldl.
  exact (extract_definitions_spec (IsDefinedBy e) None ∅ []).
Qed.

(** An annotated name is neither empty nor the required name. *)
Lemma annotated_not_required (pset : option str * list IfcProperty) :
  annotated pset <> [] /\ annotated pset <> validation_rules.REQUIRED_PSET.
Proof.
  assert (Hsuffix : length (utf8 " (feil plassering)") = 18%nat) by reflexivity.
  assert (Hreq : length validation_rules.REQUIRED_PSET = 7%nat) by reflexivity.
  unfold annotated. split; intros H; apply (f_equal length) in H;
    rewrite length_app, Hsuffix in H; [simpl in H | rewrite Hreq in H]; lia.
Qed.

(** What the extractor locates is the required name or an annotated one. *)
Lemma located_pset_cases (e : IfcElement) (x : str) :
  located_pset e = Some x ->
  x = validation_rules.REQUIRED_PSET \/
  ((Some validation_rules.REQUIRED_PSET ∉ (property_sets e).*1) /\
   exists pset, find fuzzy (property_sets e) = Some pset /\ x = annotated pset).
Proof.
  intros Hx. destruct (located_pset_spec e) as (_ & Hin & Hout).
  destruct (decide (Some validation_rules.REQUIRED_PSET ∈ (property_sets e).*1))
    as [Hr|Hr].
  - left. rewrite (Hin Hr) in Hx. congruence.
  - right. split; [assumption |]. rewrite (Hout Hr) in Hx.
    destruct (find fuzzy (property_sets e)) as [pset|]; [| discriminate].
    exists pset. split; [reflexivity |]. simpl in Hx. congruence.
Qed.

(** The extractor locates nothing exactly when no set has the required name
    and no set is a fuzzy match. *)
Lemma located_pset_None (e : IfcElement) :
  located_pset e = None <->
  (Some validation_rules.REQUIRED_PSET ∉ (property_sets e).*1) /\
  find fuzzy (property_sets e) = None.
Proof.
  destruct (located_pset_spec e) as (_ & Hin & Hout). split.
  - intros Hnone.
    destruct (decide (Some validation_rules.REQUIRED_PSET ∈ (property_sets e).*1))
      as [Hr|Hr].
    + rewrite (Hin Hr) in Hnone. discriminate.
    + split; [exact Hr |]. rewrite (Hout Hr) in Hnone.
      destruct (find fuzzy (property_sets e)); [discriminate | reflexivity].
  - intros [Hr Hf]. rewrite (Hout Hr), Hf. reflexivity.
Qed.

(** The constants repeated in the app are those of the rules module. *)
Lemma app_constants_agree :
  app.REQUIRED_PSET = validation_rules.REQUIRED_PSET /\
  app.REQUIRED_PROPERTIES = validation_rules.REQUIRED_PROPERTIES /\
  app.OPTIONAL_PROPERTIES = validation_rules.OPTIONAL_PROPERTIES /\
  app.ALL_PROPERTIES = validation_rules.ALL_PROPERTIES.
Proof. repeat split. Qed.

End extractor_facts.

(** * The element validator, for any table of validators *)
Section validator_facts.
Context {rt : PyRuntime}.
Context (PV : gmap str (PyValue -> result ValidationResult)).
Context (vid : PyValue -> option str -> ValidationResult).
Context (vdim : gmap str PyValue -> ValidationResult).

Import element_validation.

Lemma result_bind_Ok {A B : Type} (m : result A) (k : A -> result B) (b : B) :
  m ≫= k = Ok b -> exists a, m = Ok a /\ k a = Ok b.
Proof. destruct m as [a|e]; simpl; [eauto | discriminate]. Qed.

(** A turn of the loop over the required properties records an outcome for
    the property and lowers no count. *)
Lemma validate_required_step
    (props : gmap str PyValue) (p : option str) (k : str)
    (pv pv' : gmap str ValidationResult) (ec wc ec' wc' : Z) :
  validate_required PV vid props p (pv, ec, wc) k = Ok (pv', ec', wc') ->
  (ec <= ec')%Z /\ (wc <= wc')%Z /\ exists res, pv' = <[k := res]> pv.
Proof.
  unfold validate_required. intros H.
  apply result_bind_Ok in H as (res & _ & H).
  repeat (case_match; try discriminate); simplify_eq;
    (split; [lia | split; [lia | eauto]]).
Qed.

Lemma validate_required_loop
    (props : gmap str PyValue) (p : option str) (ks : list str) :
  forall (pv pv' : gmap str ValidationResult) (ec wc ec' wc' : Z),
    result_foldl (validate_required PV vid props p) (pv, ec, wc) ks
    = Ok (pv', ec', wc') ->
    (ec <= ec')%Z /\ (wc <= wc')%Z /\
    forall k, k ∈ ks \/ is_Some (pv !! k) -> is_Some (pv' !! k).
Proof.
  induction ks as [|k0 ks IH]; intros pv pv' ec wc ec' wc' H; simpl in H.
  - simplify_eq. split; [lia | split; [lia |]].
    intros k [Hk|Hk]; [inversion Hk | assumption].
  - apply result_bind_Ok in H as ([[pv1 ec1] wc1] & H1 & H2).
    apply validate_required_step in H1 as (He & Hw & res & ->).
    apply IH in H2 as (He' & Hw' & Hdom).
    split; [lia | split; [lia |]].
    intros k Hk. apply Hdom.
    destruct (decide (k = k0)) as [->|Hne].
    + right. rewrite lookup_insert_eq. eauto.
    + destruct Hk as [Hk|Hk].
      * apply elem_of_cons in Hk as [Hk|Hk]; [contradiction | auto].
      * right. rewrite lookup_insert_ne by congruence. assumption.
Qed.

Lemma validate_optional_step
    (props : gmap str PyValue) (k : str)
    (pv pv' : gmap str ValidationResult) (ec wc ec' wc' : Z) :
  validate_optional PV props (pv, ec, wc) k = Ok (pv', ec', wc') ->
  ec' = ec /\ (wc <= wc')%Z /\ forall j, is_Some (pv !! j) -> is_Some (pv' !! j).
Proof.
  unfold validate_optional. intros H.
  destruct (props !! k) as [v|]; [| simplify_eq; repeat split; [lia | auto]].
  destruct (PV !! k) as [validator|]; [| simplify_eq; repeat split; [lia | auto]].
  apply result_bind_Ok in H as (res & _ & H).
  assert (Hdom : forall j, is_Some (pv !! j) -> is_Some (<[k := res]> pv !! j)).
  { intros j Hj. destruct (decide (k = j)) as [->|Hne].
    - rewrite lookup_insert_eq. eauto.
    - rewrite lookup_insert_ne by assumption. assumption. }
  case_bool_decide; simplify_eq; repeat split; try lia; assumption.
Qed.

Lemma validate_optional_loop (props : gmap str PyValue) (ks : list str) :
  forall (pv pv' : gmap str ValidationResult) (ec wc ec' wc' : Z),
    result_foldl (validate_optional PV props) (pv, ec, wc) ks = Ok (pv', ec', wc') ->
    ec' = ec /\ (wc <= wc')%Z /\ forall j, is_Some (pv !! j) -> is_Some (pv' !! j).
Proof.
  induction ks as [|k0 ks IH]; intros pv pv' ec wc ec' wc' H; simpl in H.
  - simplify_eq. repeat split; [lia | auto].
  - apply result_bind_Ok in H as ([[pv1 ec1] wc1] & H1 & H2).
    apply validate_optional_step in H1 as (-> & Hw & Hdom).
    apply IH in H2 as (-> & Hw' & Hdom').
    repeat split; [lia | auto].
Qed.

(** An ID outcome of severity warning adds one warning and no error,
    whether or not it passed. *)
Lemma validate_required_ID_warning
    (props : gmap str PyValue) (p : option str)
    (pv : gmap str ValidationResult) (ec wc : Z) :
  is_Some (PV !! (utf8 "A4_Utsp_ID")) ->
  severity (vid (dict_get props "A4_Utsp_ID") p) = "warning" ->
  validate_required PV vid props p (pv, ec, wc) "A4_Utsp_ID"
  = Ok (<[utf8 "A4_Utsp_ID" := vid (dict_get props "A4_Utsp_ID") p]> pv,
        ec, (wc + 1)%Z).
Proof.
  intros [validator Hv] Hsev. unfold validate_required.
  rewrite Hv, bool_decide_eq_true_2 by reflexivity.
  unfold mbind, result_bind. rewrite Hsev.
  rewrite (bool_decide_eq_false_2 (utf8 "warning" = utf8 "error"))
    by distinct_strings.
  rewrite (bool_decide_eq_true_2 (utf8 "warning" = utf8 "warning")) by reflexivity.
  destruct (is_valid _); reflexivity.
Qed.

Lemma validate_element_missing (e : IfcElement) (p : option str) :
  located_pset e = None ->
  validate_element PV vid vdim e p
  = Ok (mkElementValidation (GlobalId e)
          (match Name e with Some (c :: n) => c :: n | _ => "(uten navn)" end)
          (is_a e) (ObjectType e) false None (get_element_properties e).2
          ∅ ∅ None "Mangler pset" 1 0).
Proof.
  unfold located_pset, validate_element.
  destruct (get_element_properties e) as [[found props] names]. simpl.
  intros ->. reflexivity.
Qed.

Lemma validate_element_located
    (e : IfcElement) (p : option str) (found : str) (r : ElementValidation) :
  located_pset e = Some found ->
  validate_element PV vid vdim e p = Ok r ->
  has_pset r = bool_decide (found = validation_rules.REQUIRED_PSET) /\
  pset_name_found r = Some found /\
  all_psets r = (get_element_properties e).2 /\
  properties_found r = (get_element_properties e).1.2 /\
  dimension_validation r = Some (vdim (get_element_properties e).1.2) /\
  overall_status r
  = (if (0 <? error_count r)%Z then "Feil" : str
     else if (0 <? warning_count r)%Z then "Advarsel" : str else "OK" : str) /\
  (0 <= error_count r)%Z /\ (0 <= warning_count r)%Z /\
  (found <> validation_rules.REQUIRED_PSET -> (1 <= warning_count r)%Z) /\
  (forall k, k ∈ validation_rules.REQUIRED_PROPERTIES ->
             is_Some (property_validations r !! k)).
Proof.
  intros Hloc Hr.
  assert (Hfound : found <> []).
  { destruct (located_pset_cases e found Hloc) as [->|(_ & pset & _ & ->)].
    - discriminate.
    - apply annotated_not_required. }
  unfold located_pset, validate_element in *.
  destruct (get_element_properties e) as [[found' props] names]. simpl in Hloc.
  subst found'.
  apply result_bind_Ok in Hr as ([[pv1 ec1] wc1] & H1 & Hr).
  apply result_bind_Ok in Hr as ([[pv2 ec2] wc2] & H2 & Hr).
  apply validate_required_loop in H1 as (He1 & Hw1 & Hdom1).
  apply validate_optional_loop in H2 as (-> & Hw2 & Hdom2).
  injection Hr as <-. simpl.
  rewrite (bool_decide_eq_true_2 (found <> [])) by assumption. simpl andb.
  split.
  { apply bool_decide_ext. split; congruence. }
  repeat split; try reflexivity.
  - destruct (is_valid _); simpl; lia.
  - case_bool_decide; lia.
  - intros Hne. rewrite bool_decide_eq_true_2 by assumption. lia.
  - intros k Hk. apply Hdom2, Hdom1. auto.
Qed.

End validator_facts.
(** * Fuzzy matches, in the words of the specification *)
Section fuzzy_facts.

Import element_validation.

Lemma str_startswith_prefix (pre s : str) :
  str_startswith pre s = true <-> exists rest, s = pre ++ rest.
Proof.
  revert s. induction pre as [|a pre IH]; intros s; simpl.
  - split; [intros _; exists s; reflexivity | reflexivity].
  - destruct s as [|b s]; [split; [discriminate | intros [rest H]; discriminate H] |].
    rewrite andb_true_iff, N.eqb_eq, IH. split.
    + intros [-> [rest ->]]. exists rest. reflexivity.
    + intros [rest H]. injection H as -> ->. split; [reflexivity | eauto].
Qed.

(** The test of the extractor holds exactly of the sets that hold a
    property whose name starts with A4_Utsp_. *)
Lemma fuzzy_holds_prefixed (pset : option str * list IfcProperty) :
  fuzzy pset = true <-> holds_prefixed pset.
Proof.
  unfold fuzzy, has_misplaced_property, holds_prefixed, prefixed.
  rewrite existsb_exists. split.
  - intros (prop & Hin & Hp). exists prop. split; [apply list_elem_of_In, Hin |].
    destruct (prop_Name prop) as [n|]; [| discriminate Hp].
    apply str_startswith_prefix in Hp as [rest ->]. exists rest. reflexivity.
  - intros (prop & Hin & rest & Hn). exists prop.
    split; [apply list_elem_of_In, Hin |]. rewrite Hn.
    apply str_startswith_prefix. exists rest. reflexivity.
Qed.

Lemma find_first {A : Type} (f : A -> bool) (before after : list A) (x : A) :
  Forall (fun y => f y = false) before -> f x = true ->
  find f (before ++ x :: after) = Some x.
Proof.
  intros Hb Hx. induction Hb as [|y before Hy _ IH]; simpl.
  - rewrite Hx. reflexivity.
  - rewrite Hy. exact IH.
Qed.

Lemma find_nothing {A : Type} (f : A -> bool) (l : list A) :
  Forall (fun y => f y = false) l -> find f l = None.
Proof.
  intros H. induction H as [|y l Hy _ IH]; simpl; [reflexivity |].
  rewrite Hy. exact IH.
Qed.

Lemma not_fuzzy (psets : list (option str * list IfcProperty)) :
  Forall (fun pset => ~ holds_prefixed pset) psets ->
  Forall (fun pset => fuzzy pset = false) psets.
Proof.
  intros H. eapply Forall_impl; [exact H |]. intros pset Hno.
  destruct (fuzzy pset) eqn:Hf; [| reflexivity].
  exfalso. apply Hno, fuzzy_holds_prefixed, Hf.
Qed.

Lemma annotated_wrong_place_name (pset : option str * list IfcProperty) :
  annotated pset = wrong_place_name pset.1.
Proof.
  unfold annotated, wrong_place_name, format_name.
  destruct pset.1; [reflexivity |]. vm_compute. reflexivity.
Qed.

End fuzzy_facts.

(** * Properties of the element validator *)
Section element_properties.
Context {rt : PyRuntime}.

Import element_validation.

Lemma status_values_distinct :
  (utf8 "Feil" <> utf8 "Mangler pset") /\ (utf8 "Advarsel" <> utf8 "Mangler pset") /\
  (utf8 "OK" <> utf8 "Mangler pset") /\ (utf8 "Feil" <> utf8 "Advarsel") /\
  (utf8 "Feil" <> utf8 "OK") /\ (utf8 "Advarsel" <> utf8 "OK").
Proof. repeat split; distinct_strings. Qed.

(** The status of a result is decided by the located property set and the
    two counts, whatever the validators. *)
Lemma overall_status_generic
    (PV : gmap str (PyValue -> result ValidationResult))
    (vid : PyValue -> option str -> ValidationResult)
    (vdim : gmap str PyValue -> ValidationResult)
    (e : IfcElement) (p : option str) (r : ElementValidation) :
  validate_element PV vid vdim e p = Ok r ->
  (overall_status r = "Mangler pset" <-> located_pset e = None) /\
  (located_pset e <> None ->
   (overall_status r = "Feil" <-> (0 < error_count r)%Z) /\
   (~ (0 < error_count r)%Z ->
    (overall_status r = "Advarsel" <-> (0 < warning_count r)%Z)) /\
   (~ (0 < error_count r)%Z -> ~ (0 < warning_count r)%Z ->
    overall_status r = "OK")).
Proof.
  intros Hr. destruct status_values_distinct as (H1 & H2 & H3 & H4 & H5 & H6).
  destruct (located_pset e) as [found|] eqn:Hloc.
  - destruct (validate_element_located PV vid vdim e p found r Hloc Hr)
      as (_ & _ & _ & _ & _ & Hst & _).
    rewrite Hst. clear Hst.
    destruct (0 <? error_count r)%Z eqn:He;
      [apply Z.ltb_lt in He | apply Z.ltb_ge in He];
      (destruct (0 <? warning_count r)%Z eqn:Hw;
       [apply Z.ltb_lt in Hw | apply Z.ltb_ge in Hw]);
      (split; [split; [intros H; congruence | discriminate] |]);
      intros _; repeat split; intros; try congruence; try lia.
  - rewrite (validate_element_missing PV vid vdim e p Hloc) in Hr.
    injection Hr as <-. simpl. split; [tauto | congruence].
Qed.

(** C1. For every validated element, of the command-line tool and of the
    app, the overall status is "Mangler pset" if and only if the extractor
    located no property set at all; otherwise it is "Feil" if and only if
    the error count is positive, else "Advarsel" if and only if the warning
    count is positive, else "OK". *)
Theorem overall_status_invariant
    (e : IfcElement) (p : option str) (r : ElementValidation) :
  validate_utsparinger.validate_element e p = Ok r \/
  app.validate_element e p = Ok r ->
  (overall_status r = "Mangler pset" <-> located_pset e = None) /\
  (located_pset e <> None ->
   (overall_status r = "Feil" <-> (0 < error_count r)%Z) /\
   (~ (0 < error_count r)%Z ->
    (overall_status r = "Advarsel" <-> (0 < warning_count r)%Z)) /\
   (~ (0 < error_count r)%Z -> ~ (0 < warning_count r)%Z ->
    overall_status r = "OK")).
Proof.
  intros [Hr|Hr]; eapply overall_status_generic; exact Hr.
Qed.

(** C3. When the extractor locates no property set on an element, the
    element validator returns at once: status "Mangler pset", one error, no
    warning, an empty map of property outcomes and no dimension outcome.
    No validator is run: the result is the same for every table of
    validators and every dimension check, also ones that raise. *)
Theorem missing_pset_returns_immediately (e : IfcElement) (p : option str) :
  located_pset e = None ->
  exists r,
    validate_utsparinger.validate_element e p = Ok r /\
    overall_status r = "Mangler pset" /\
    error_count r = 1%Z /\ warning_count r = 0%Z /\
    property_validations r = ∅ /\ dimension_validation r = None /\
    properties_found r = ∅ /\ has_pset r = false /\ pset_name_found r = None /\
    forall PV vid vdim, validate_element PV vid vdim e p = Ok r.
Proof.
  intros Hloc. unfold validate_utsparinger.validate_element. eexists. split.
  - apply validate_element_missing. exact Hloc.
  - repeat (split; [reflexivity |]).
    intros PV vid vdim. apply validate_element_missing. exact Hloc.
Qed.

(** C6. The extractor collects the names of all property sets of the
    element, in order.  When a set has the exact name A4_Utsp, that name is
    the located property set, wherever the set stands among the
    associations and whatever the other sets hold.  When no set has the
    exact name, the located set is the first set that holds a property
    whose name starts with A4_Utsp_, under its own name annotated
    "(feil plassering)"; and no set is located when no set holds such a
    property. *)
Theorem exact_name_wins_over_fuzzy (e : IfcElement) :
  let r := validate_utsparinger.get_element_properties e in
  r.2 = (property_sets e).*1 /\
  (Some ("A4_Utsp" : str) ∈ (property_sets e).*1 -> r.1.1 = Some ("A4_Utsp" : str)) /\
  (forall before after ps,
     IsDefinedBy e
     = before
         ++ IfcRelDefinesByProperties (IfcPropertySet (Some ("A4_Utsp" : str)) ps)
         :: after ->
     r.1.1 = Some ("A4_Utsp" : str)) /\
  (Some ("A4_Utsp" : str) ∉ (property_sets e).*1 ->
   (forall before pset after,
      property_sets e = before ++ pset :: after ->
      Forall (fun earlier => ~ holds_prefixed earlier) before ->
      holds_prefixed pset ->
      r.1.1 = Some (wrong_place_name pset.1)) /\
   (Forall (fun pset => ~ holds_prefixed pset) (property_sets e) -> r.1.1 = None)).
Proof.
  cbv zeta. unfold validate_utsparinger.get_element_properties.
  destruct (located_pset_spec e) as (Hn & Hin & Hout). unfold located_pset in *.
  change validation_rules.REQUIRED_PSET with (utf8 "A4_Utsp") in *.
  split; [exact Hn |]. split; [exact Hin |]. split.
  - intros before after ps Heq. apply Hin.
    unfold property_sets. rewrite Heq, omap_app, fmap_app. simpl.
    apply elem_of_app. right. left.
  - intros Hno. rewrite (Hout Hno). split.
    + intros before pset after Heq Hbefore Hpset.
      rewrite Heq, (find_first fuzzy before after pset).
      * simpl. rewrite annotated_wrong_place_name. reflexivity.
      * apply not_fuzzy. exact Hbefore.
      * apply fuzzy_holds_prefixed. exact Hpset.
    + intros Hnone. rewrite (find_nothing fuzzy) by (apply not_fuzzy; exact Hnone).
      reflexivity.
Qed.

(** C10. The flag [has_pset] of a validated element is true if and only if
    the located property-set name is exactly A4_Utsp.  An element whose
    A4_Utsp_ properties stand only in a set of another name has the flag
    false and does not count in the has_pset count of a summary, and yet it
    is validated in full: every required property has an outcome, the
    dimension check has one, and the status is one of OK, Advarsel and Feil,
    not "Mangler pset". *)
Theorem has_pset_iff_exact_name
    (e : IfcElement) (p : option str) (r : ElementValidation) :
  validate_utsparinger.validate_element e p = Ok r ->
  (has_pset r = true <-> pset_name_found r = Some validation_rules.REQUIRED_PSET) /\
  ((Some validation_rules.REQUIRED_PSET ∉ (property_sets e).*1) ->
   (exists pset, pset ∈ property_sets e /\ fuzzy pset = true) ->
   has_pset r = false /\
   (forall before after,
      s_has_pset (summary_of (before ++ r :: after))
      = s_has_pset (summary_of (before ++ after))) /\
   overall_status r ∈ [ "OK" : str; "Advarsel" : str; "Feil" : str ] /\
   overall_status r <> "Mangler pset" /\
   (forall k, k ∈ validation_rules.REQUIRED_PROPERTIES ->
              is_Some (property_validations r !! k)) /\
   is_Some (dimension_validation r)).
Proof.
  intros Hr. unfold validate_utsparinger.validate_element in Hr.
  destruct status_values_distinct as (H1 & H2 & H3 & _).
  destruct (located_pset e) as [found|] eqn:Hloc.
  - destruct (validate_element_located _ _ _ e p found r Hloc Hr)
      as (Hhas & Hname & _ & _ & Hdim & Hst & _ & _ & _ & Hdom).
    split.
    { rewrite Hhas, Hname, bool_decide_eq_true. split; congruence. }
    intros Hout _.
    assert (Hfound : found <> validation_rules.REQUIRED_PSET).
    { destruct (located_pset_cases e found Hloc) as [->|(_ & pset & _ & ->)].
      - destruct (located_pset_spec e) as (_ & _ & Hspec).
        rewrite (Hspec Hout) in Hloc.
        destruct (find fuzzy (property_sets e)) as [pset|]; [| discriminate].
        injection Hloc as Heq. intros _.
        apply (proj2 (annotated_not_required pset)). exact Heq.
      - apply annotated_not_required. }
    assert (Hfalse : has_pset r = false).
    { rewrite Hhas. apply bool_decide_eq_false. exact Hfound. }
    split; [exact Hfalse |]. split.
    { intros before after. unfold summary_of, count_if. simpl.
      rewrite !filter_app, filter_cons_False by (rewrite Hfalse; discriminate).
      reflexivity. }
    split.
    { rewrite Hst. destruct (0 <? error_count r)%Z; [| destruct (0 <? warning_count r)%Z].
      - do 2 right. left.
      - right. left.
      - left. }
    split.
    { rewrite Hst.
      destruct (0 <? error_count r)%Z; [| destruct (0 <? warning_count r)%Z];
        assumption. }
    split; [exact Hdom |]. rewrite Hdim. eauto.
  - rewrite (validate_element_missing _ _ _ e p Hloc) in Hr. injection Hr as <-.
    simpl. split; [split; discriminate |].
    intros Hout (pset & Hin & Hfz). exfalso.
    destruct (located_pset_spec e) as (_ & _ & Hspec).
    rewrite (Hspec Hout) in Hloc.
    destruct (find fuzzy (property_sets e)) as [x|] eqn:Hfind; [discriminate |].
    apply list_elem_of_In in Hin.
    pose proof (find_none _ _ Hfind pset Hin) as Hno. congruence.
Qed.

End element_properties.

(** * Properties of the property validators and the dimension check *)
Section validator_properties.
Context {rt : PyRuntime}.

Lemma has_value_spec (m : gmap str PyValue) (k : str) :
  validation_rules.has_value (dict_get m k) = true <-> HasValue (m !! k).
Proof.
  unfold validation_rules.has_value, dict_get, HasValue.
  destruct (m !! k) as [v|]; simpl.
  - destruct (is_None v) eqn:Hn.
    + destruct v; try discriminate. split; [discriminate |].
      intros (v & [= <-] & H & _). congruence.
    + rewrite !andb_true_iff, !bool_decide_eq_true. split.
      * intros [[H1 H2] H3]. exists v. repeat split; try assumption.
        intros ->. discriminate.
      * intros (v' & [= <-] & _ & H1 & H2 & H3). auto.
  - split; [discriminate |]. intros (v & [=] & _).
Qed.

Lemma dimension_keys_distinct :
  (utf8 "A4_Utsp_DimDybde" <> utf8 "A4_Utsp_DimBredde") /\
  (utf8 "A4_Utsp_DimDybde" <> utf8 "A4_Utsp_DimHøyde") /\
  (utf8 "A4_Utsp_DimDybde" <> utf8 "A4_Utsp_DimDiameter").
Proof. repeat split; distinct_strings. Qed.

(** The decision of [validate_dimensions] on its three flags. *)
Lemma validate_dimensions_flags (properties : gmap str PyValue) :
  validation_rules.validate_dimensions properties
  = dimension_decision
      (validation_rules.has_value (dict_get properties "A4_Utsp_DimBredde"))
      (validation_rules.has_value (dict_get properties "A4_Utsp_DimHøyde"))
      (validation_rules.has_value (dict_get properties "A4_Utsp_DimDiameter")).
Proof. reflexivity. Qed.

(** C4. The dimension check decides by the first rule that applies, over
    "has a value": width and height present is the rectangular pass; else a
    diameter is the round pass; else width without height fails with the
    height-missing error, height without width with the width-missing
    error, and nothing at all with the generic error.  The depth changes
    nothing: setting it to any value or removing it leaves the result. *)
Theorem validate_dimensions_first_match (properties : gmap str PyValue) :
  let width := HasValue (properties !! ("A4_Utsp_DimBredde" : str)) in
  let height := HasValue (properties !! ("A4_Utsp_DimHøyde" : str)) in
  let diameter := HasValue (properties !! ("A4_Utsp_DimDiameter" : str)) in
  let outcome := validation_rules.validate_dimensions properties in
  (width /\ height ->
   outcome = Result2 true "Rektangulær: Bredde og Høyde angitt") /\
  (~ (width /\ height) /\ diameter ->
   outcome = Result2 true "Rund: Diameter angitt") /\
  (width /\ ~ height /\ ~ diameter ->
   outcome = Result3 false "Bredde angitt men Høyde mangler" "error") /\
  (height /\ ~ width /\ ~ diameter ->
   outcome = Result3 false "Høyde angitt men Bredde mangler" "error") /\
  (~ width /\ ~ height /\ ~ diameter ->
   outcome
   = Result3 false "Dimensjoner mangler (enten Bredde+Høyde eller Diameter)"
       "error") /\
  (forall depth,
     validation_rules.validate_dimensions
       (<[("A4_Utsp_DimDybde" : str) := depth]> properties) = outcome) /\
  validation_rules.validate_dimensions
    (delete ("A4_Utsp_DimDybde" : str) properties) = outcome.
Proof.
  cbv zeta.
  destruct dimension_keys_distinct as (K1 & K2 & K3).
  assert (Hdepth : forall m' : gmap str PyValue,
    (forall k : str, utf8 "A4_Utsp_DimDybde" <> k -> m' !! k = properties !! k) ->
    validation_rules.validate_dimensions m'
    = validation_rules.validate_dimensions properties).
  { intros m' Hm. unfold validation_rules.validate_dimensions, dict_get.
    rewrite !Hm by assumption. reflexivity. }
  pose proof (has_value_spec properties "A4_Utsp_DimBredde") as Hw.
  pose proof (has_value_spec properties "A4_Utsp_DimHøyde") as Hh.
  pose proof (has_value_spec properties "A4_Utsp_DimDiameter") as Hd.
  pose proof (validate_dimensions_flags properties) as Hout.
  split_and!.
  6: { intros depth. apply Hdepth. intros k Hk. apply lookup_insert_ne. exact Hk. }
  6: { apply Hdepth. intros k Hk. apply lookup_delete_ne. exact Hk. }
  all: intros Hc; rewrite Hout; rewrite <- ?Hw, <- ?Hh, <- ?Hd in Hc; clear Hw Hh Hd Hout;
    destruct (validation_rules.has_value (dict_get properties "A4_Utsp_DimBredde")),
      (validation_rules.has_value (dict_get properties "A4_Utsp_DimHøyde")),
      (validation_rules.has_value (dict_get properties "A4_Utsp_DimDiameter"));
    first [ exfalso; clear -Hc; intuition discriminate | reflexivity ].
Qed.



Lemma funksjon_filter (values : list str) :
  filter (fun v => bool_decide (v <> []) && negb (str_in v validation_rules.VALID_FUNKSJON))
    values
  = filter (fun t => t <> [] /\ t ∉ validation_rules.VALID_FUNKSJON) values.
Proof.
  apply list_filter_iff. intros t. unfold str_in.
  rewrite andb_True, bool_decide_spec, negb_True, bool_decide_spec. reflexivity.
Qed.

(** C8. The Funksjon validator always returns a passed outcome, in the
    command-line tool and in the app alike: of severity info when the value
    is absent or empty, of severity warning with the unknown tokens listed
    when a trimmed comma-separated token is neither empty nor one of Bæring,
    Vanntetting, Brann and Lyd, and the outcome OK otherwise. *)
Theorem validate_funksjon_never_fails (value : PyValue) :
  let outcome := validation_rules.validate_funksjon value in
  let unknown := unknown_funksjon (str_strip (py_str value)) in
  app.validate_funksjon value = outcome /\
  is_valid outcome = true /\
  (value = PyNone \/ str_strip (py_str value) = [] ->
   outcome = Result3 true "Funksjon ikke angitt (valgfritt)" "info") /\
  (value <> PyNone -> str_strip (py_str value) <> [] -> unknown <> [] ->
   outcome
   = mkValidationResult true ("Ukjent funksjon: " ++ str_join ", " unknown)
       "warning") /\
  (value <> PyNone -> str_strip (py_str value) <> [] -> unknown = [] ->
   outcome = Result2 true "OK").
Proof.
  cbv zeta. split; [reflexivity |].
  unfold validation_rules.validate_funksjon, unknown_funksjon.
  rewrite funksjon_filter.
  set (unknown := filter _ _).
  unfold none_or_blank.
  destruct (is_None value) eqn:Hnone.
  { destruct value; try discriminate. simpl orb. cbv iota.
    split; [reflexivity |]. split; [reflexivity |]. split; intros; congruence. }
  assert (Hv : value <> PyNone) by (intros ->; discriminate).
  simpl orb. case_bool_decide as Hblank.
  { split; [reflexivity |]. split; [reflexivity |]. split; intros; congruence. }
  destruct unknown as [|t ts] eqn:Hu.
  - split; [reflexivity |]. split; [| split; [congruence | reflexivity]].
    intros [H|H]; congruence.
  - split; [reflexivity |]. split; [| split; [reflexivity | discriminate]].
    intros [H|H]; congruence.
Qed.

End validator_properties.

(** * Properties of the revision and ID validators *)
Section rev_id_properties.
Context {rt : PyRuntime}.

Lemma validate_rev_blank (v : PyValue) :
  v = PyNone \/ str_strip (py_str v) = [] ->
  validation_rules.validate_rev v = Ok (Result3 false "Revisjon mangler" "error").
Proof.
  unfold validation_rules.validate_rev. intros [->|H]; [reflexivity |].
  destruct (is_None v); [reflexivity |].
  rewrite bool_decide_eq_true_2 by assumption. reflexivity.
Qed.

(** The numeric fallback on a value that is no run of digits and truncates
    to a negative integer. *)
Lemma validate_rev_negative (v : PyValue) (n : Z) :
  is_None v = false -> str_strip (py_str v) <> [] ->
  re_match validation_rules.REV_PATTERN (str_strip (py_str v)) = false ->
  py_float v ≫= py_int = Ok n -> (n < 0)%Z ->
  rejected_with_error (validation_rules.validate_rev v).
Proof.
  intros Hn Hb Hre Hf Hneg. unfold validation_rules.validate_rev.
  rewrite Hn, bool_decide_eq_false_2, Hre, Hf by assumption.
  apply Z.leb_gt in Hneg. rewrite Hneg.
  eexists. split; [reflexivity |]. split; reflexivity.
Qed.

(** C7. The revision validator accepts a value if and only if it is not
    absent, not empty after trimming, and either its trimmed text consists
    only of digits or the value parses as a number that truncates to a
    non-negative integer.  The string "-1" (and the integer -1) is no match
    of the digit pattern, truncates to -1 on the numeric path, and is
    rejected with an error; absent or empty input is rejected with an
    error.  The parsing of float literals is the runtime's: the theorem
    asks of it that the literal "-1" parses to the float -1.0. *)
Theorem validate_rev_accepts_exactly :
  float_of_str "-1" = Some (float_of_Z (-1)) ->
  (forall v,
     accepted (validation_rules.validate_rev v) <->
     v <> PyNone /\ str_strip (py_str v) <> [] /\
     (all_decimal (str_strip (py_str v)) \/ truncates_to_nonneg v)) /\
  re_match validation_rules.REV_PATTERN "-1" = false /\
  py_float (PyStr "-1") ≫= py_int = Ok (-1)%Z /\
  rejected_with_error (validation_rules.validate_rev (PyStr "-1")) /\
  rejected_with_error (validation_rules.validate_rev (PyInt (-1))) /\
  (forall v, v = PyNone \/ str_strip (py_str v) = [] ->
             rejected_with_error (validation_rules.validate_rev v)).
Proof.
  intros Hparse.
  assert (Hre : re_match validation_rules.REV_PATTERN "-1" = false)
    by (vm_compute; reflexivity).
  assert (Hnum : py_float (PyStr "-1") ≫= py_int = Ok (-1)%Z).
  { unfold py_float. rewrite Hparse. reflexivity. }
  split; [exact validate_rev_accepted |]. split; [exact Hre |].
  split; [exact Hnum |]. split; [| split].
  - apply (validate_rev_negative (PyStr "-1") (-1));
      try assumption; try reflexivity.
    distinct_strings.
  - apply (validate_rev_negative (PyInt (-1)) (-1)); try reflexivity.
    distinct_strings.
  - intros v Hv. rewrite (validate_rev_blank v Hv).
    eexists. split; [reflexivity |]. split; reflexivity.
Qed.

Lemma cli_validate_id_prefix_mismatch (v : PyValue) (L D expected : str) :
  str_strip (py_str v) = L ++ "_Hull-" ++ D -> id_shape L D ->
  expected <> [] -> expected <> L ->
  validation_rules.validate_id v (Some expected)
  = mkValidationResult false
      ("ID-prefiks '" ++ L ++ "' matcher ikke forventet '" ++ expected ++ "'")
      "warning".
Proof.
  intros Heq Hshape Hne Hdiff. unfold validation_rules.validate_id.
  rewrite (id_shape_present v L D Heq).
  assert (Hre : re_match validation_rules.ID_PATTERN (str_strip (py_str v)) = true).
  { apply ID_PATTERN_stripped. eauto. }
  rewrite Hre. simpl negb. cbv iota.
  destruct expected as [|c e]; [congruence |].
  rewrite Heq, id_letter_prefix by apply Hshape.
  rewrite bool_decide_eq_true_2 by congruence. reflexivity.
Qed.

(** C2 (what the code does).  For a value whose trimmed text is two to four
    upper-case letters, "_Hull-" and one or more digits, and a non-empty
    expected prefix other than the letters, the validator of the
    command-line tool returns severity warning with passed = false, where
    the validator of the app returns severity warning with passed = true.
    (By [validate_required_ID_warning] the element validator counts either
    as one warning and no error.) *)
Theorem validate_id_prefix_mismatch_outcomes (v : PyValue) (L D expected : str) :
  str_strip (py_str v) = L ++ "_Hull-" ++ D -> id_shape L D ->
  expected <> [] -> expected <> L ->
  let cli := validation_rules.validate_id v (Some expected) in
  let web := app.validate_id v (Some expected) in
  is_valid cli = false /\ severity cli = "warning" /\
  is_valid web = true /\ severity web = "warning".
Proof.
  intros Heq Hshape Hne Hdiff. cbv zeta.
  rewrite (cli_validate_id_prefix_mismatch v L D expected) by assumption.
  rewrite (app_validate_id_prefix_mismatch v L D expected) by assumption.
  repeat split.
Qed.

End rev_id_properties.

(** * Properties of a file validation run *)
Section file_properties.
Context {rt : PyRuntime} {host : Host}.

Import element_validation.

Lemma io_bind_Ok {A B : Type} (m : IO A) (k : A -> IO B)
    (fs fs' : filesystem) (b : B) :
  (m ≫= k) fs = (Ok b, fs') ->
  exists a fs1, m fs = (Ok a, fs1) /\ k a fs1 = (Ok b, fs').
Proof.
  unfold mbind, io_bind. destruct (m fs) as [[a|e] fs1]; [eauto | discriminate].
Qed.

Lemma result_map_Ok {A B : Type} (f : A -> result B) (l : list A) (rs : list B) :
  result_map f l = Ok rs ->
  length rs = length l /\ Forall (fun r => exists a, f a = Ok r) rs.
Proof.
  revert rs. induction l as [|a l IH]; intros rs H; simpl in H.
  - injection H as <-. split; [reflexivity | constructor].
  - apply result_bind_Ok in H as (b & Hb & H).
    apply result_bind_Ok in H as (bs & Hbs & H). injection H as <-.
    apply IH in Hbs as [Hlen Hall]. split; [simpl; lia |].
    constructor; [eauto | assumption].
Qed.

(** The status of every result of the element validator is one of four. *)
Lemma overall_status_four
    (PV : gmap str (PyValue -> result ValidationResult))
    (vid : PyValue -> option str -> ValidationResult)
    (vdim : gmap str PyValue -> ValidationResult)
    (e : IfcElement) (p : option str) (r : ElementValidation) :
  validate_element PV vid vdim e p = Ok r ->
  overall_status r ∈ statuses.
Proof.
  intros Hr. unfold statuses.
  destruct (located_pset e) as [found|] eqn:Hloc.
  - destruct (validate_element_located PV vid vdim e p found r Hloc Hr)
      as (_ & _ & _ & _ & _ & -> & _).
    destruct (0 <? error_count r)%Z; [| destruct (0 <? warning_count r)%Z].
    + right. left.
    + do 2 right. left.
    + left.
  - rewrite (validate_element_missing PV vid vdim e p Hloc) in Hr.
    injection Hr as <-. do 3 right. left.
Qed.

Lemma count_if_cons (p : ElementValidation -> bool) (x : ElementValidation)
    (l : list ElementValidation) :
  count_if p (x :: l) = ((if p x then 1 else 0) + count_if p l)%Z.
Proof.
  unfold count_if. destruct (p x) eqn:Hp.
  - rewrite filter_cons_True by exact Hp. simpl length. lia.
  - rewrite filter_cons_False by congruence. lia.
Qed.

(** The four status counts of a summary add up to its total when every
    status is one of the four. *)
Lemma summary_partition (l : list ElementValidation) :
  Forall (fun r => overall_status r ∈ statuses) l ->
  let s := summary_of l in
  (s_ok s + s_feil s + s_advarsel s + s_mangler_pset s = s_total s)%Z /\
  s_total s = Z.of_nat (length l).
Proof.
  cbv zeta. unfold summary_of. simpl. split; [| reflexivity].
  induction H as [|x l Hx _ IH]; [reflexivity |].
  rewrite !count_if_cons. simpl length. rewrite Nat2Z.inj_succ, <- IH.
  destruct status_values_distinct as (H1 & H2 & H3 & H4 & H5 & H6).
  unfold statuses in Hx.
  repeat (apply elem_of_cons in Hx as [Hx|Hx]); [| | | | inversion Hx];
    rewrite Hx;
    repeat (first [ rewrite bool_decide_eq_true_2 by reflexivity
                  | rewrite bool_decide_eq_false_2 by congruence ]);
    lia.
Qed.

(** C5. In every file validation run that returns, of the command-line tool
    and of the app, every element has one of the four statuses, and the
    counts ok, feil, advarsel and mangler_pset of the summary add up to
    total, the number of elements. *)
Theorem summary_counts_partition :
  (forall filepath fs fv fs',
     validate_utsparinger.validate_ifc_file filepath fs = (Ok fv, fs') ->
     Forall (fun r => overall_status r ∈ statuses)
       (validate_utsparinger.elements fv) /\
     exists s,
       validate_utsparinger.summary fv = Some s /\
       (s_ok s + s_feil s + s_advarsel s + s_mangler_pset s = s_total s)%Z /\
       s_total s = Z.of_nat (length (validate_utsparinger.elements fv))) /\
  (forall content filename fs fv fs',
     app.validate_ifc_file content filename fs = (Ok fv, fs') ->
     Forall (fun r => overall_status r ∈ statuses) (app.elements fv) /\
     exists s,
       app.summary fv = Some s /\
       (s_ok s + s_feil s + s_advarsel s + s_mangler_pset s = s_total s)%Z /\
       s_total s = Z.of_nat (length (app.elements fv))).
Proof.
  split.
  - intros filepath fs fv fs' H. unfold validate_utsparinger.validate_ifc_file in H.
    apply io_bind_Ok in H as (model & fs1 & _ & H).
    apply io_bind_Ok in H as (validated & fs2 & Hmap & H).
    injection H as <- _. unfold io_lift in Hmap. injection Hmap as Hmap _.
    apply result_map_Ok in Hmap as [_ Hall]. simpl.
    assert (Hst : Forall (fun r => overall_status r ∈ statuses) validated).
    { eapply Forall_impl; [exact Hall |]. intros r (a & Ha).
      eapply overall_status_four. exact Ha. }
    split; [exact Hst |]. eexists. split; [reflexivity |].
    apply summary_partition. exact Hst.
  - intros content filename fs fv fs' H. unfold app.validate_ifc_file in H.
    apply io_bind_Ok in H as (tmp_path & fs1 & _ & H).
    apply io_bind_Ok in H as (model & fs2 & _ & H).
    apply io_bind_Ok in H as (validated & fs3 & Hmap & H).
    apply io_bind_Ok in H as (u & fs4 & _ & H).
    injection H as <- _. unfold io_lift in Hmap. injection Hmap as Hmap _.
    apply result_map_Ok in Hmap as [_ Hall]. simpl.
    assert (Hst : Forall (fun r => overall_status r ∈ statuses) validated).
    { eapply Forall_impl; [exact Hall |]. intros r (a & Ha).
      eapply overall_status_four. exact Ha. }
    split; [exact Hst |]. eexists. split; [reflexivity |].
    apply summary_partition. exact Hst.
Qed.

End file_properties.

(** * The temporary copy of an uploaded file *)
Section temp_file_properties.
Context {rt : PyRuntime} {host : Host}.

(** On the path without an exception the copy is removed. *)
Lemma validate_ifc_file_removes_copy
    (content : bytes) (filename : str) (fs fs' : filesystem)
    (fv : app.FileValidation) :
  app.validate_ifc_file content filename fs = (Ok fv, fs') ->
  fs' = delete (tmp_name fs ".ifc") (<[tmp_name fs ".ifc" := content]> fs) /\
  fs' !! tmp_name fs ".ifc" = None.
Proof.
  unfold app.validate_ifc_file, NamedTemporaryFile, ifcopenshell_open, io_lift,
    unlink, mbind, io_bind, mret, io_ret.
  rewrite lookup_insert_eq.
  destruct (ifc_parse content) as [model|e]; [| discriminate].
  destruct (result_map _ _) as [validated|e]; [| discriminate].
  rewrite lookup_insert_eq. intros [= _ <-].
  split; [reflexivity | apply lookup_delete_eq].
Qed.

(** An exception of an element validator leaves the copy behind as well. *)
Lemma validate_ifc_file_keeps_copy_when_validation_raises
    (content : bytes) (filename : str) (fs : filesystem) (model : IfcFile) (e : exn) :
  ifc_parse content = Ok model ->
  result_map
    (fun element =>
       app.validate_element element (app.extract_file_prefix filename))
    (by_type model "IfcBuildingElementProxy") = Raise e ->
  app.validate_ifc_file content filename fs
  = (Raise e, <[tmp_name fs ".ifc" := content]> fs).
Proof.
  intros Hparse Hmap.
  unfold app.validate_ifc_file, NamedTemporaryFile, ifcopenshell_open, io_lift,
    mbind, io_bind.
  rewrite lookup_insert_eq, Hparse, Hmap. reflexivity.
Qed.

(** An exception while the export adds its entities or writes the model
    leaves the copy behind. *)
Lemma create_validated_ifc_keeps_copy_when_export_raises
    (content : bytes) (filename : str) (validation : app.FileValidation)
    (fs : filesystem) (model : IfcFile) (e : exn) :
  ifc_parse content = Ok model ->
  ifc_annotate model (app.elements validation) = Raise e \/
  (exists model',
     ifc_annotate model (app.elements validation) = Ok model' /\
     ifc_serialize model' = Raise e) ->
  app.create_validated_ifc content filename validation fs
  = (Raise e, <[tmp_name fs ".ifc" := content]> fs).
Proof.
  intros Hparse Hexport.
  unfold app.create_validated_ifc, NamedTemporaryFile, ifcopenshell_open, io_lift,
    model_write, mbind, io_bind.
  rewrite lookup_insert_eq, Hparse.
  destruct Hexport as [->|(model' & -> & ->)]; reflexivity.
Qed.

(** C9 (what the code does).  When the model library raises on the decoded
    copy, [validate_ifc_file] and [create_validated_ifc] leave with that
    exception and the copy is still in the file system: the call of
    [unlink] stands after the load, on the path without an exception
    only. *)
Theorem temp_copy_left_behind_on_load_failure
    (content : bytes) (filename : str) (validation : app.FileValidation)
    (fs : filesystem) (e : exn) :
  ifc_parse content = Raise e ->
  let tmp_path := tmp_name fs ".ifc" in
  let left_behind := <[tmp_path := content]> fs in
  app.validate_ifc_file content filename fs = (Raise e, left_behind) /\
  app.create_validated_ifc content filename validation fs = (Raise e, left_behind) /\
  left_behind !! tmp_path = Some content.
Proof.
  intros Hparse. cbv zeta.
  unfold app.validate_ifc_file, app.create_validated_ifc, NamedTemporaryFile,
    ifcopenshell_open, mbind, io_bind.
  rewrite lookup_insert_eq, Hparse.
  split; [reflexivity |]. split; reflexivity.
Qed.

End temp_file_properties.

(** * Closed instances of the theorems *)

(** Element C, whose properties stand in a set of another name, is
    validated and its status is not "Mangler pset". *)
Lemma overall_status_invariant_witness :
  overall_status (example.validated example.element_C) = "Mangler pset"
  <-> located_pset example.element_C = None.
Proof.
  assert (H : @validate_utsparinger.validate_element example.runtime
                example.element_C None
              = Ok (example.validated example.element_C))
    by (vm_compute; reflexivity).
  exact (proj1 (@overall_status_invariant example.runtime example.element_C None
                  (example.validated example.element_C) (or_introl H))).
Defined.

(** Element B of the end-to-end scenario, without property sets. *)
Lemma missing_pset_returns_immediately_witness :
  exists r,
    @validate_utsparinger.validate_element example.runtime example.element_B None
    = Ok r /\
    overall_status r = "Mangler pset" /\ error_count r = 1%Z.
Proof.
  assert (H : located_pset example.element_B = None) by (vm_compute; reflexivity).
  destruct (@missing_pset_returns_immediately example.runtime example.element_B
              None H) as (r & H1 & H2 & H3 & _).
  exists r. split; [exact H1 |]. split; [exact H2 | exact H3].
Defined.

(** Element D: a set that holds A4_Utsp_Fase first, the set A4_Utsp after
    it, and the set A4_Utsp is located.  Element C: the properties stand
    in the set Pset_Egen only, which is located with the annotation. *)
Lemma exact_name_wins_over_fuzzy_witness :
  (validate_utsparinger.get_element_properties example.element_D).1.1
  = Some ("A4_Utsp" : str) /\
  (validate_utsparinger.get_element_properties example.element_C).1.1
  = Some ("Pset_Egen (feil plassering)" : str).
Proof.
  split.
  - destruct (exact_name_wins_over_fuzzy example.element_D) as (_ & _ & H & _).
    eapply (H [_; _] []). reflexivity.
  - destruct (exact_name_wins_over_fuzzy example.element_C) as (_ & _ & _ & H).
    assert (Hno : Some ("A4_Utsp" : str) ∉ (property_sets example.element_C).*1).
    { intros Hin. vm_compute in Hin.
      apply elem_of_cons in Hin as [Hin|Hin]; [discriminate Hin | inversion Hin]. }
    destruct (H Hno) as [Hfirst _].
    rewrite (Hfirst [] (Some ("Pset_Egen" : str), example.complete_properties) []).
    + vm_compute. reflexivity.
    + reflexivity.
    + constructor.
    + exists (example.property "A4_Utsp_Kategori" (PyStr "ProvisionForVoid")).
      split; [left |]. exists (utf8 "Kategori"). vm_compute. reflexivity.
Defined.

(** Element C has the flag false. *)
Lemma has_pset_iff_exact_name_witness :
  has_pset (example.validated example.element_C) = false.
Proof.
  assert (H : @validate_utsparinger.validate_element example.runtime
                example.element_C None
              = Ok (example.validated example.element_C))
    by (vm_compute; reflexivity).
  destruct (@has_pset_iff_exact_name example.runtime example.element_C None
              (example.validated example.element_C) H) as [_ Hmis].
  apply Hmis.
  - intros Hin. vm_compute in Hin.
    apply elem_of_cons in Hin as [Hin|Hin]; [discriminate Hin | inversion Hin].
  - eexists. split; [left | vm_compute; reflexivity].
Defined.

(** Width 200 and height 300. *)
Lemma validate_dimensions_first_match_witness :
  @validation_rules.validate_dimensions example.runtime example.rectangular
  = Result2 true "Rektangulær: Bredde og Høyde angitt".
Proof.
  destruct (@validate_dimensions_first_match example.runtime example.rectangular)
    as (Hrect & _).
  apply Hrect.
  split; eexists; (split; [vm_compute; reflexivity |]);
    (split; [discriminate |]);
    repeat split; distinct_strings.
Defined.

(** The upload of the example model: four elements, one of each status
    but Feil, and OK twice. *)
Lemma summary_counts_partition_witness :
  exists s,
    app.summary (example.returned example.no_file example.upload.1) = Some s /\
    (s_ok s + s_feil s + s_advarsel s + s_mangler_pset s = s_total s)%Z /\
    s_total s = 4%Z.
Proof.
  assert (H : @app.validate_ifc_file example.runtime example.host
                [ Byte.x01 ] "A4_RIV_Utsparinger.ifc" ∅
              = (Ok (example.returned example.no_file example.upload.1),
                 example.upload.2))
    by (vm_compute; reflexivity).
  destruct (proj2 (@summary_counts_partition example.runtime example.host)
              _ _ _ _ _ H) as (_ & s & Hs & Hsum & Htot).
  exists s. split; [exact Hs |]. split; [exact Hsum |].
  rewrite Htot. vm_compute. reflexivity.
Defined.

(** The example runtime reads the literal -1, and the string is rejected. *)
Lemma validate_rev_accepts_exactly_witness :
  rejected_with_error (@validation_rules.validate_rev example.runtime (PyStr "-1")).
Proof.
  assert (H : @float_of_str example.runtime "-1" = Some (float_of_Z (-1)))
    by (vm_compute; reflexivity).
  destruct (@validate_rev_accepts_exactly example.runtime H)
    as (_ & _ & _ & Hrej & _).
  exact Hrej.
Defined.

(** One unknown token between two known ones. *)
Lemma validate_funksjon_never_fails_witness :
  @validation_rules.validate_funksjon example.runtime (PyStr "Bæring, Tak ,Lyd")
  = mkValidationResult true "Ukjent funksjon: Tak" "warning".
Proof.
  destruct (@validate_funksjon_never_fails example.runtime (PyStr "Bæring, Tak ,Lyd"))
    as (_ & _ & _ & H & _).
  rewrite H.
  - vm_compute. reflexivity.
  - discriminate.
  - distinct_strings.
  - distinct_strings.
Defined.

(** The identifier RIV_Hull-12 in a file whose expected prefix is RIE. *)
Lemma validate_id_prefix_mismatch_outcomes_witness :
  is_valid (@validation_rules.validate_id example.runtime (PyStr "RIV_Hull-12")
              (Some ("RIE" : str))) = false /\
  is_valid (@app.validate_id example.runtime (PyStr "RIV_Hull-12")
              (Some ("RIE" : str))) = true.
Proof.
  destruct (@validate_id_prefix_mismatch_outcomes example.runtime
              (PyStr "RIV_Hull-12") "RIV" "12" "RIE")
    as (H1 & _ & H3 & _).
  - vm_compute. reflexivity.
  - unfold id_shape. split; [vm_compute; lia |].
    split; [vm_compute; reflexivity |].
    split; [discriminate | vm_compute; reflexivity].
  - discriminate.
  - distinct_strings.
  - split; assumption.
Defined.

(** An empty upload, which the example host does not read as a model: the
    copy written for it stays in the file system. *)
Lemma temp_copy_left_behind_on_load_failure_witness :
  (@app.validate_ifc_file example.runtime example.host [] "tom.ifc" ∅).2
    !! ("/tmp/tmpa4utsp.ifc" : str)
  = Some [].
Proof.
  assert (H : @ifc_parse example.host [] = Raise IfcError) by reflexivity.
  destruct (@temp_copy_left_behind_on_load_failure example.runtime example.host
              [] "tom.ifc" example.no_file ∅ IfcError H) as (H1 & _ & H3).
  rewrite H1. exact H3.
Defined.

(** The text inf as a revision: the validator raises, and so does the
    element validator on an element that carries it. *)
Example validate_rev_raises_on_inf :
  @validation_rules.validate_rev example.runtime (PyStr "inf") = Raise OverflowError.
Proof.
  apply (@validate_rev_raises_on_infinity example.runtime (PyStr "inf") false);
    try reflexivity.
  distinct_strings.
Qed.

(** * The tallies of the element validator *)
Section tally_facts.
Context {rt : PyRuntime}.
Context (PV : gmap str (PyValue -> result ValidationResult)).
Context (vid : PyValue -> option str -> ValidationResult).
Context (vdim : gmap str PyValue -> ValidationResult).

Import element_validation.

Lemma error_warning_distinct : utf8 "error" <> utf8 "warning".
Proof. distinct_strings. Qed.

Lemma tally_bounds (res : ValidationResult) :
  (0 <= error_tally res)%Z /\ (0 <= warning_tally res)%Z /\
  (error_tally res + warning_tally res <= 1)%Z.
Proof.
  unfold error_tally, warning_tally.
  destruct (is_valid res); simpl; repeat case_bool_decide; try lia.
  exfalso. apply error_warning_distinct. congruence.
Qed.

(** A turn of the loop over the required properties, by its outcome. *)
Lemma validate_required_tally
    (props : gmap str PyValue) (p : option str) (k : str)
    (pv : gmap str ValidationResult) (ec wc : Z) :
  validate_required PV vid props p (pv, ec, wc) k
  = required_outcome PV vid props p k ≫= fun res =>
    Ok (<[k := res]> pv, (ec + error_tally res)%Z, (wc + warning_tally res)%Z).
Proof.
  unfold validate_required, required_outcome.
  match goal with
  | |- ?m ≫= _ = ?m ≫= _ => destruct m as [res|e]; [| reflexivity]
  end.
  unfold mbind, result_bind, error_tally, warning_tally.
  destruct (is_valid res); simpl; repeat case_bool_decide;
    try (exfalso; apply error_warning_distinct; congruence);
    rewrite ?Z.add_0_r; reflexivity.
Qed.

Lemma result_bind_ok {A B : Type} (a : A) (f : A -> result B) : Ok a ≫= f = f a.
Proof. reflexivity. Qed.

Lemma result_bind_raise {A B : Type} (e : exn) (f : A -> result B) :
  Raise e ≫= f = Raise e.
Proof. reflexivity. Qed.

(** The maps and counts after the loop over a list of required names. *)
Lemma validate_required_loop_tally
    (props : gmap str PyValue) (p : option str) (ks : list str) :
  forall (pv : gmap str ValidationResult) (ec wc : Z),
    result_foldl (validate_required PV vid props p) (pv, ec, wc) ks
    = result_map (required_outcome PV vid props p) ks ≫= fun rs =>
      Ok (record_all ks rs pv,
          (ec + tally_sum error_tally rs)%Z,
          (wc + tally_sum warning_tally rs)%Z).
Proof.
  induction ks as [|k ks IH]; intros pv ec wc; cbn [result_foldl result_map].
  - rewrite result_bind_ok. unfold tally_sum. cbn [map foldr record_all].
    rewrite !Z.add_0_r. reflexivity.
  - rewrite validate_required_tally.
    destruct (required_outcome PV vid props p k) as [res|e];
      [| rewrite !result_bind_raise; reflexivity].
    rewrite !result_bind_ok, IH.
    destruct (result_map (required_outcome PV vid props p) ks) as [rs|e];
      [| rewrite !result_bind_raise; reflexivity].
    rewrite !result_bind_ok. unfold tally_sum. cbn [map foldr record_all].
    rewrite !Z.add_assoc. reflexivity.
Qed.

End tally_facts.

(** * The two copies of the validation rules *)
Section copies.
Context {rt : PyRuntime}.

(** Passed flag and severity of an outcome. *)
Ltac outcome_cases :=
  unfold Result2, Result3;
  repeat match goal with
         | |- context [if ?b then _ else _] => destruct b
         | |- context [match ?x with _ => _ end] => destruct x
         end;
  cbn [is_valid severity]; try reflexivity.

Lemma validate_kategori_copies (v : PyValue) :
  is_valid (validation_rules.validate_kategori v) = is_valid (app.validate_kategori v)
  /\ severity (validation_rules.validate_kategori v) = severity (app.validate_kategori v).
Proof.
  unfold validation_rules.validate_kategori, app.validate_kategori,
    app.VALID_KATEGORI, validation_rules.VALID_KATEGORI.
  split; outcome_cases.
Qed.

Lemma validate_utsparingstype_copies (v : PyValue) :
  is_valid (validation_rules.validate_utsparingstype v)
  = is_valid (app.validate_utsparingstype v)
  /\ severity (validation_rules.validate_utsparingstype v)
     = severity (app.validate_utsparingstype v).
Proof.
  unfold validation_rules.validate_utsparingstype, app.validate_utsparingstype,
    validation_rules.VALID_UTSPARINGSTYPE_PREFERRED.
  cbv zeta. split; outcome_cases.
Qed.

Lemma validate_tetting_copies (v : PyValue) :
  is_valid (validation_rules.validate_tetting v) = is_valid (app.validate_tetting v)
  /\ severity (validation_rules.validate_tetting v) = severity (app.validate_tetting v).
Proof.
  unfold validation_rules.validate_tetting, app.validate_tetting,
    app.VALID_TETTING_STR, validation_rules.VALID_TETTING_STR.
  cbv zeta. destruct v; split; outcome_cases.
Qed.

Lemma validate_fase_copies (v : PyValue) :
  is_valid (validation_rules.validate_fase v) = is_valid (app.validate_fase v)
  /\ severity (validation_rules.validate_fase v) = severity (app.validate_fase v).
Proof.
  unfold validation_rules.validate_fase, app.validate_fase,
    app.VALID_FASE, validation_rules.VALID_FASE.
  cbv zeta. split; outcome_cases.
Qed.

Lemma validate_status_copies (v : PyValue) :
  is_valid (validation_rules.validate_status v) = is_valid (app.validate_status v)
  /\ severity (validation_rules.validate_status v) = severity (app.validate_status v).
Proof.
  unfold validation_rules.validate_status, app.validate_status,
    app.VALID_STATUS, validation_rules.VALID_STATUS.
  cbv zeta. split; outcome_cases.
Qed.

Lemma validate_rev_dato_copies (v : PyValue) :
  is_valid (validation_rules.validate_rev_dato v) = is_valid (app.validate_rev_dato v)
  /\ severity (validation_rules.validate_rev_dato v) = severity (app.validate_rev_dato v).
Proof.
  unfold validation_rules.validate_rev_dato, app.validate_rev_dato, app.DATE_PATTERN.
  cbv zeta. split; outcome_cases.
Qed.

Lemma validate_rev_copies (v : PyValue) :
  result_fmap (fun res => (is_valid res, severity res)) (validation_rules.validate_rev v)
  = result_fmap (fun res => (is_valid res, severity res)) (app.validate_rev v).
Proof.
  unfold validation_rules.validate_rev, app.validate_rev, app.REV_PATTERN.
  cbv zeta. unfold Result2, Result3.
  destruct (is_None v); [reflexivity |].
  case_bool_decide; [reflexivity |].
  destruct (re_match _ _); [reflexivity |].
  destruct (py_float v ≫= py_int) as [n|e].
  - destruct (0 <=? n)%Z; reflexivity.
  - destruct e; reflexivity.
Qed.

(** The ID validators agree on the severity and on what the outcome adds to
    the counts; they differ in the passed flag of a prefix mismatch. *)
Lemma validate_id_copies (v : PyValue) (p : option str) :
  severity (validation_rules.validate_id v p) = severity (app.validate_id v p) /\
  error_tally (validation_rules.validate_id v p) = error_tally (app.validate_id v p) /\
  warning_tally (validation_rules.validate_id v p)
  = warning_tally (app.validate_id v p).
Proof.
  unfold validation_rules.validate_id, app.validate_id, app.ID_PATTERN.
  cbv zeta. unfold Result2, Result3, error_tally, warning_tally.
  destruct (none_or_blank v); [repeat split |].
  destruct (negb _); [repeat split |].
  destruct p as [[|c e]|]; [repeat split | | repeat split].
  case_bool_decide; cbn [is_valid severity]; [| repeat split].
  rewrite (bool_decide_eq_false_2 (utf8 "warning" = utf8 "error"))
    by distinct_strings.
  rewrite andb_false_r. repeat split.
Qed.

End copies.

(** * The result of the element validator, assembled *)
Section assembly.
Context {rt : PyRuntime}.
Context (PV : gmap str (PyValue -> result ValidationResult)).
Context (vid : PyValue -> option str -> ValidationResult).
Context (vdim : gmap str PyValue -> ValidationResult).

Import element_validation.

Lemma validate_optional_tally
    (props : gmap str PyValue) (k : str)
    (pv : gmap str ValidationResult) (ec wc : Z) :
  validate_optional PV props (pv, ec, wc) k
  = optional_outcome PV props k ≫= fun o =>
    Ok (match o with Some res => <[k := res]> pv | None => pv end,
        ec, (wc + from_option warning_tally 0 o)%Z).
Proof.
  unfold validate_optional, optional_outcome.
  destruct (props !! k) as [v|];
    [| rewrite result_bind_ok; simpl; rewrite Z.add_0_r; reflexivity].
  destruct (PV !! k) as [validator|];
    [| rewrite result_bind_ok; simpl; rewrite Z.add_0_r; reflexivity].
  destruct (validator v) as [res|e]; [| reflexivity].
  unfold result_fmap. rewrite !result_bind_ok. simpl from_option.
  unfold warning_tally. case_bool_decide; rewrite ?Z.add_0_r; reflexivity.
Qed.

(** The element validator on an element with a located property set: it
    raises what the first raising validator raises, and otherwise returns
    the result assembled from the outcomes. *)
Lemma validate_element_assembled (e : IfcElement) (p : option str) (found : str) :
  located_pset e = Some found ->
  validate_element PV vid vdim e p
  = result_map (required_outcome PV vid (get_element_properties e).1.2 p)
      validation_rules.REQUIRED_PROPERTIES ≫= fun rs =>
    optional_outcome PV (get_element_properties e).1.2 "A4_Utsp_Funksjon" ≫= fun o =>
    Ok (assembled e found rs o (vdim (get_element_properties e).1.2)).
Proof.
  intros Hloc.
  assert (Hfound : found <> []).
  { destruct (located_pset_cases e found Hloc) as [->|(_ & pset & _ & ->)].
    - discriminate.
    - apply annotated_not_required. }
  unfold located_pset, validate_element, assembled, display_name in *.
  destruct (get_element_properties e) as [[found' props] names].
  cbn [fst snd] in *. subst found'.
  rewrite validate_required_loop_tally.
  destruct (result_map _ _) as [rs|x]; [| reflexivity].
  rewrite !result_bind_ok.
  unfold validation_rules.OPTIONAL_PROPERTIES. cbn [result_foldl].
  rewrite validate_optional_tally.
  destruct (optional_outcome PV props _) as [o|x]; [| reflexivity].
  rewrite !result_bind_ok. cbv zeta.
  rewrite (bool_decide_eq_true_2 (found <> [])) by assumption.
  cbn [andb]. rewrite !Z.add_0_l.
  assert (Hdec : bool_decide (Some found = Some validation_rules.REQUIRED_PSET)
                 = bool_decide (found = validation_rules.REQUIRED_PSET)).
  { apply bool_decide_ext. split; congruence. }
  rewrite Hdec.
  assert (Hne : bool_decide (found ≠ validation_rules.REQUIRED_PSET)
                = negb (bool_decide (found = validation_rules.REQUIRED_PSET))).
  { rewrite <- bool_decide_not. reflexivity. }
  rewrite Hne. unfold status_of_counts.
  destruct (is_valid (vdim props)),
    (bool_decide (found = validation_rules.REQUIRED_PSET));
    cbn [negb]; rewrite ?Z.add_0_r; reflexivity.
Qed.

End assembly.

(** * The outcomes of the two validator tables *)
Section table_facts.
Context {rt : PyRuntime}.

Import element_validation.

Lemma tool_required_outcomes (props : gmap str PyValue) (p : option str) :
  result_map
    (required_outcome validation_rules.PROPERTY_VALIDATORS validation_rules.validate_id
       props p)
    validation_rules.REQUIRED_PROPERTIES
  = validation_rules.validate_rev (dict_get props "A4_Utsp_Rev") ≫= fun rev =>
    Ok (tool_outcomes props p rev).
Proof.
  unfold validation_rules.REQUIRED_PROPERTIES, tool_outcomes. cbn [result_map].
  change (required_outcome validation_rules.PROPERTY_VALIDATORS
            validation_rules.validate_id props p (utf8 "A4_Utsp_Rev"))
    with (validation_rules.validate_rev (dict_get props "A4_Utsp_Rev")).
  destruct (validation_rules.validate_rev _) as [rev|x]; reflexivity.
Qed.

Lemma app_required_outcomes (props : gmap str PyValue) (p : option str) :
  result_map (required_outcome app.PROPERTY_VALIDATORS app.validate_id props p)
    validation_rules.REQUIRED_PROPERTIES
  = app.validate_rev (dict_get props "A4_Utsp_Rev") ≫= fun rev =>
    Ok (app_outcomes props p rev).
Proof.
  unfold validation_rules.REQUIRED_PROPERTIES, app_outcomes. cbn [result_map].
  change (required_outcome app.PROPERTY_VALIDATORS app.validate_id props p
            (utf8 "A4_Utsp_Rev"))
    with (app.validate_rev (dict_get props "A4_Utsp_Rev")).
  destruct (app.validate_rev _) as [rev|x]; reflexivity.
Qed.

Lemma tool_optional_outcome (props : gmap str PyValue) :
  optional_outcome validation_rules.PROPERTY_VALIDATORS props "A4_Utsp_Funksjon"
  = Ok (validation_rules.validate_funksjon <$> props !! (utf8 "A4_Utsp_Funksjon")).
Proof.
  unfold optional_outcome.
  destruct (props !! utf8 "A4_Utsp_Funksjon"); reflexivity.
Qed.

Lemma app_optional_outcome (props : gmap str PyValue) :
  optional_outcome app.PROPERTY_VALIDATORS props "A4_Utsp_Funksjon"
  = Ok (validation_rules.validate_funksjon <$> props !! (utf8 "A4_Utsp_Funksjon")).
Proof.
  unfold optional_outcome.
  destruct (props !! utf8 "A4_Utsp_Funksjon"); reflexivity.
Qed.

End table_facts.

(** * The command-line tool and the app on one element *)
Section agreement.
Context {rt : PyRuntime}.

Import element_validation.

Lemma tally_ext (a b : ValidationResult) :
  is_valid a = is_valid b -> severity a = severity b ->
  error_tally a = error_tally b /\ warning_tally a = warning_tally b.
Proof. unfold error_tally, warning_tally. intros -> ->. split; reflexivity. Qed.

Lemma validate_dimensions_copies (props : gmap str PyValue) :
  app.validate_dimensions props = validation_rules.validate_dimensions props.
Proof. reflexivity. Qed.

Lemma outcomes_tallies (props : gmap str PyValue) (p : option str)
    (a b : ValidationResult) :
  is_valid a = is_valid b -> severity a = severity b ->
  tally_sum error_tally (tool_outcomes props p a)
  = tally_sum error_tally (app_outcomes props p b) /\
  tally_sum warning_tally (tool_outcomes props p a)
  = tally_sum warning_tally (app_outcomes props p b).
Proof.
  intros Hv Hs. unfold tally_sum, tool_outcomes, app_outcomes. cbn [map foldr].
  destruct (tally_ext a b Hv Hs) as [-> ->].
  destruct (validate_id_copies (dict_get props "A4_Utsp_ID") p) as (_ & -> & ->).
  pose proof (validate_kategori_copies (dict_get props "A4_Utsp_Kategori")) as [H1 H2].
  destruct (tally_ext _ _ H1 H2) as [-> ->]. clear H1 H2.
  pose proof (validate_utsparingstype_copies
                (dict_get props "A4_Utsp_Utsparingstype")) as [H1 H2].
  destruct (tally_ext _ _ H1 H2) as [-> ->]. clear H1 H2.
  pose proof (validate_tetting_copies (dict_get props "A4_Utsp_Tetting")) as [H1 H2].
  destruct (tally_ext _ _ H1 H2) as [-> ->]. clear H1 H2.
  pose proof (validate_fase_copies (dict_get props "A4_Utsp_Fase")) as [H1 H2].
  destruct (tally_ext _ _ H1 H2) as [-> ->]. clear H1 H2.
  pose proof (validate_status_copies (dict_get props "A4_Utsp_Status")) as [H1 H2].
  destruct (tally_ext _ _ H1 H2) as [-> ->]. clear H1 H2.
  pose proof (validate_rev_dato_copies (dict_get props "A4_Utsp_RevDato")) as [H1 H2].
  destruct (tally_ext _ _ H1 H2) as [-> ->]. clear H1 H2.
  split; reflexivity.
Qed.

(** X1. The command-line tool and the app report every element alike: for
    every element and expected prefix the two element validators raise the
    same exception or return results with the same status, error count,
    warning count, has_pset flag, located set, dimension verdict, extracted
    properties and list of set names.  (The messages differ, and so does
    the passed flag of an ID prefix mismatch.) *)
Theorem tool_and_app_agree (e : IfcElement) (p : option str) :
  result_fmap (fun r => (verdict r, properties_found r, all_psets r))
    (validate_utsparinger.validate_element e p)
  = result_fmap (fun r => (verdict r, properties_found r, all_psets r))
      (app.validate_element e p).
Proof.
  unfold validate_utsparinger.validate_element, app.validate_element.
  destruct (located_pset e) as [found|] eqn:Hloc.
  - rewrite !(validate_element_assembled _ _ _ e p found Hloc).
    rewrite tool_required_outcomes, app_required_outcomes.
    rewrite tool_optional_outcome, app_optional_outcome.
    pose proof (validate_rev_copies
                  (dict_get (get_element_properties e).1.2 "A4_Utsp_Rev")) as Hrev.
    destruct (validation_rules.validate_rev _) as [a|x],
      (app.validate_rev _) as [b|y]; try discriminate Hrev.
    + injection Hrev as Hv Hs. rewrite !result_bind_ok.
      destruct (outcomes_tallies (get_element_properties e).1.2 p a b Hv Hs)
        as [He Hw].
      unfold result_fmap, verdict, assembled. cbn [overall_status error_count
        warning_count has_pset pset_name_found dimension_validation
        properties_found all_psets].
      rewrite He, Hw. reflexivity.
    + injection Hrev as <-. reflexivity.
  - rewrite !(validate_element_missing _ _ _ e p Hloc). reflexivity.
Qed.

End agreement.

(** * When the element validator raises *)
Section raising.
Context {rt : PyRuntime}.

Import element_validation.




End raising.

(** * The recorded outcomes and the counts *)
Section recorded.
Context {rt : PyRuntime}.

Import element_validation.

Lemma record_all_other (ks : list str) :
  forall (rs : list ValidationResult) (pv : gmap str ValidationResult) (k : str),
    k ∉ ks -> record_all ks rs pv !! k = pv !! k.
Proof.
  induction ks as [|k0 ks IH]; intros rs pv k Hk; [reflexivity |].
  apply not_elem_of_cons in Hk as [Hne Hk].
  destruct rs as [|res rs]; [reflexivity |]. simpl.
  rewrite IH by assumption. apply lookup_insert_ne. congruence.
Qed.

Lemma record_all_lookup (ks : list str) :
  NoDup ks ->
  forall (rs : list ValidationResult) (pv : gmap str ValidationResult)
         (i : nat) (k : str) (res : ValidationResult),
    ks !! i = Some k -> rs !! i = Some res -> record_all ks rs pv !! k = Some res.
Proof.
  induction 1 as [|k0 ks Hnotin Hnd IH]; intros rs pv i k res Hk Hres;
    [discriminate |].
  destruct rs as [|res0 rs]; [destruct i; discriminate |].
  destruct i as [|i]; simpl in *.
  - injection Hk as <-. injection Hres as <-.
    rewrite record_all_other by assumption. apply lookup_insert_eq.
  - eapply IH; eassumption.
Qed.

Lemma record_all_Some (ks : list str) :
  forall (rs : list ValidationResult) (pv : gmap str ValidationResult)
         (k : str) (res : ValidationResult),
    record_all ks rs pv !! k = Some res ->
    pv !! k = Some res \/ exists i, ks !! i = Some k /\ rs !! i = Some res.
Proof.
  induction ks as [|k0 ks IH]; intros rs pv k res H; [left; exact H |].
  destruct rs as [|res0 rs]; [left; exact H |]. simpl in H.
  apply IH in H as [H|(i & Hk & Hr)].
  - destruct (decide (k0 = k)) as [->|Hne].
    + rewrite lookup_insert_eq in H. injection H as <-.
      right. exists 0%nat. split; reflexivity.
    + rewrite lookup_insert_ne in H by assumption. left. exact H.
  - right. exists (S i). split; assumption.
Qed.

Lemma required_properties_NoDup : NoDup validation_rules.REQUIRED_PROPERTIES.
Proof. apply (bool_decide_eq_true_1 (NoDup _)). vm_compute. reflexivity. Qed.

Lemma funksjon_not_required :
  utf8 "A4_Utsp_Funksjon" ∉ validation_rules.REQUIRED_PROPERTIES.
Proof.
  apply (bool_decide_eq_true_1 (_ ∉ _)). vm_compute. reflexivity.
Qed.

Lemma tally_sum_bounds (rs : list ValidationResult) :
  (0 <= tally_sum error_tally rs)%Z /\ (0 <= tally_sum warning_tally rs)%Z /\
  (tally_sum error_tally rs + tally_sum warning_tally rs <= Z.of_nat (length rs))%Z.
Proof.
  unfold tally_sum. induction rs as [|res rs IH]; simpl; [lia |].
  pose proof (tally_bounds res). lia.
Qed.

Lemma tally_sum_zero (tally : ValidationResult -> Z) (rs : list ValidationResult) :
  (forall res, (0 <= tally res)%Z) ->
  tally_sum tally rs = 0%Z <-> Forall (fun res => tally res = 0%Z) rs.
Proof.
  intros Hpos. unfold tally_sum. induction rs as [|res rs IH]; simpl.
  - split; [constructor | reflexivity].
  - assert (0 <= foldr Z.add 0 (map tally rs))%Z.
    { clear IH. induction rs as [|a rs IH]; simpl; [lia |].
      pose proof (Hpos a). lia. }
    pose proof (Hpos res). rewrite Forall_cons, <- IH. lia.
Qed.

End recorded.

(** * Severity tags of the validators *)

Ltac split_cases :=
  unfold Result2, Result3;
  repeat match goal with
         | |- context [if ?b then _ else _] => destruct b
         | |- context [match ?x with _ => _ end] => destruct x
         end;
  cbn [is_valid severity].

(** The goal [tagged _ /\ severity _ <> "warning"], or its first half. *)
Ltac tag_cases :=
  split_cases;
  lazymatch goal with
  | |- _ <> _ => exact error_warning_distinct
  | |- _ =>
      let H := fresh in
      intros H;
      lazymatch type of H with
      | true = false => discriminate H
      | _ =>
          lazymatch goal with
          | |- ?a = ?a \/ _ => left; reflexivity
          | |- _ \/ ?a = ?a => right; reflexivity
          end
      end
  end.

Section tags.
Context {rt : PyRuntime}.

Import element_validation.

Lemma error_warning_distinct_sym : utf8 "warning" <> utf8 "error".
Proof. distinct_strings. Qed.

Lemma no_warning_tally (res : ValidationResult) :
  severity res <> "warning" -> warning_tally res = 0%Z.
Proof.
  intros H. unfold warning_tally. rewrite bool_decide_eq_false_2 by exact H.
  reflexivity.
Qed.

Lemma kategori_tags (v : PyValue) :
  tagged (validation_rules.validate_kategori v) /\
  severity (validation_rules.validate_kategori v) <> "warning".
Proof.
  unfold tagged, validation_rules.validate_kategori. split; tag_cases.
Qed.

Lemma id_tags (v : PyValue) (p : option str) :
  tagged (validation_rules.validate_id v p).
Proof. unfold tagged, validation_rules.validate_id. cbv zeta. tag_cases. Qed.

Lemma utsparingstype_tags (v : PyValue) :
  tagged (validation_rules.validate_utsparingstype v).
Proof.
  unfold tagged, validation_rules.validate_utsparingstype. cbv zeta. tag_cases.
Qed.

Lemma tetting_tags (v : PyValue) :
  tagged (validation_rules.validate_tetting v) /\
  severity (validation_rules.validate_tetting v) <> "warning".
Proof.
  unfold tagged, validation_rules.validate_tetting. cbv zeta.
  split; destruct v; tag_cases.
Qed.

Lemma fase_tags (v : PyValue) :
  tagged (validation_rules.validate_fase v) /\
  severity (validation_rules.validate_fase v) <> "warning".
Proof.
  unfold tagged, validation_rules.validate_fase. cbv zeta. split; tag_cases.
Qed.

Lemma status_tags (v : PyValue) :
  tagged (validation_rules.validate_status v) /\
  severity (validation_rules.validate_status v) <> "warning".
Proof.
  unfold tagged, validation_rules.validate_status. cbv zeta. split; tag_cases.
Qed.

Lemma rev_tags (v : PyValue) (rev : ValidationResult) :
  validation_rules.validate_rev v = Ok rev ->
  tagged rev /\ severity rev <> "warning".
Proof.
  unfold tagged, validation_rules.validate_rev. cbv zeta. unfold Result2, Result3.
  intros H.
  repeat match type of H with
         | context [if ?b then _ else _] => destruct b
         | context [match ?x with _ => _ end] => destruct x
         end;
    try discriminate H; injection H as <-; cbn [is_valid severity];
    (split; [ let H' := fresh in
              intros H';
              lazymatch type of H' with
              | true = false => discriminate H'
              | _ => left; reflexivity
              end
            | exact error_warning_distinct ]).
Qed.

Lemma rev_dato_tags (v : PyValue) :
  tagged (validation_rules.validate_rev_dato v) /\
  severity (validation_rules.validate_rev_dato v) <> "warning".
Proof.
  unfold tagged, validation_rules.validate_rev_dato. cbv zeta. split; tag_cases.
Qed.

Lemma rev_beskrivelse_tags (v : PyValue) :
  tagged (validation_rules.validate_rev_beskrivelse v) /\
  severity (validation_rules.validate_rev_beskrivelse v) <> "warning".
Proof.
  unfold tagged, validation_rules.validate_rev_beskrivelse. split; tag_cases.
Qed.

Lemma funksjon_valid (v : PyValue) :
  is_valid (validation_rules.validate_funksjon v) = true.
Proof.
  unfold validation_rules.validate_funksjon. cbv zeta. unfold Result2, Result3.
  destruct (none_or_blank v); [reflexivity |].
  destruct (filter _ _); reflexivity.
Qed.

Lemma dimensions_tagged (props : gmap str PyValue) :
  tagged (validation_rules.validate_dimensions props).
Proof.
  unfold tagged. rewrite validate_dimensions_flags. unfold dimension_decision.
  tag_cases.
Qed.

(** Every outcome of the table is tagged, and only the ID and the opening
    type can warn. *)
Lemma tool_outcomes_tagged
    (props : gmap str PyValue) (p : option str) (rev : ValidationResult) :
  validation_rules.validate_rev (dict_get props "A4_Utsp_Rev") = Ok rev ->
  Forall tagged (tool_outcomes props p rev) /\
  (tally_sum warning_tally (tool_outcomes props p rev) <= 2)%Z.
Proof.
  intros Hrev. apply rev_tags in Hrev as [Hrt Hrw]. split.
  - unfold tool_outcomes.
    apply Forall_cons; split; [exact (proj1 (kategori_tags _)) |].
    apply Forall_cons; split; [exact (id_tags _ _) |].
    apply Forall_cons; split; [exact (utsparingstype_tags _) |].
    apply Forall_cons; split; [exact (proj1 (tetting_tags _)) |].
    apply Forall_cons; split; [exact (proj1 (fase_tags _)) |].
    apply Forall_cons; split; [exact (proj1 (status_tags _)) |].
    apply Forall_cons; split; [exact Hrt |].
    apply Forall_cons; split; [exact (proj1 (rev_dato_tags _)) |].
    apply Forall_cons; split; [exact (proj1 (rev_beskrivelse_tags _)) |].
    constructor.
  - unfold tally_sum, tool_outcomes. cbn [map foldr].
    rewrite (no_warning_tally _ (proj2 (kategori_tags _))).
    rewrite (no_warning_tally _ (proj2 (tetting_tags _))).
    rewrite (no_warning_tally _ (proj2 (fase_tags _))).
    rewrite (no_warning_tally _ (proj2 (status_tags _))).
    rewrite (no_warning_tally _ Hrw).
    rewrite (no_warning_tally _ (proj2 (rev_dato_tags _))).
    rewrite (no_warning_tally _ (proj2 (rev_beskrivelse_tags _))).
    pose proof (tally_bounds
                  (validation_rules.validate_id (dict_get props "A4_Utsp_ID") p)).
    pose proof (tally_bounds
                  (validation_rules.validate_utsparingstype
                     (dict_get props "A4_Utsp_Utsparingstype"))).
    lia.
Qed.

End tags.

(** * Severity tags of the validators of the app *)
Section app_tags.
Context {rt : PyRuntime}.

Import element_validation.

Lemma app_kategori_tags (v : PyValue) :
  tagged (app.validate_kategori v) /\ severity (app.validate_kategori v) <> "warning".
Proof. unfold tagged, app.validate_kategori. split; tag_cases. Qed.

Lemma app_id_tags (v : PyValue) (p : option str) : tagged (app.validate_id v p).
Proof. unfold tagged, app.validate_id. cbv zeta. tag_cases. Qed.

Lemma app_utsparingstype_tags (v : PyValue) : tagged (app.validate_utsparingstype v).
Proof. unfold tagged, app.validate_utsparingstype. cbv zeta. tag_cases. Qed.

Lemma app_tetting_tags (v : PyValue) :
  tagged (app.validate_tetting v) /\ severity (app.validate_tetting v) <> "warning".
Proof.
  unfold tagged, app.validate_tetting. cbv zeta. split; destruct v; tag_cases.
Qed.

Lemma app_fase_tags (v : PyValue) :
  tagged (app.validate_fase v) /\ severity (app.validate_fase v) <> "warning".
Proof. unfold tagged, app.validate_fase. cbv zeta. split; tag_cases. Qed.

Lemma app_status_tags (v : PyValue) :
  tagged (app.validate_status v) /\ severity (app.validate_status v) <> "warning".
Proof. unfold tagged, app.validate_status. cbv zeta. split; tag_cases. Qed.

Lemma app_rev_tags (v : PyValue) (rev : ValidationResult) :
  app.validate_rev v = Ok rev -> tagged rev /\ severity rev <> "warning".
Proof.
  unfold tagged, app.validate_rev. cbv zeta. unfold Result2, Result3.
  intros H.
  repeat match type of H with
         | context [if ?b then _ else _] => destruct b
         | context [match ?x with _ => _ end] => destruct x
         end;
    try discriminate H; injection H as <-; cbn [is_valid severity];
    (split; [ let H' := fresh in
              intros H';
              lazymatch type of H' with
              | true = false => discriminate H'
              | _ => left; reflexivity
              end
            | exact error_warning_distinct ]).
Qed.

Lemma app_rev_dato_tags (v : PyValue) :
  tagged (app.validate_rev_dato v) /\ severity (app.validate_rev_dato v) <> "warning".
Proof. unfold tagged, app.validate_rev_dato. cbv zeta. split; tag_cases. Qed.

Lemma app_rev_beskrivelse_tags (v : PyValue) :
  tagged (app.validate_rev_beskrivelse v) /\
  severity (app.validate_rev_beskrivelse v) <> "warning".
Proof. unfold tagged, app.validate_rev_beskrivelse. split; tag_cases. Qed.

Lemma app_outcomes_tagged
    (props : gmap str PyValue) (p : option str) (rev : ValidationResult) :
  app.validate_rev (dict_get props "A4_Utsp_Rev") = Ok rev ->
  Forall tagged (app_outcomes props p rev) /\
  (tally_sum warning_tally (app_outcomes props p rev) <= 2)%Z.
Proof.
  intros Hrev. apply app_rev_tags in Hrev as [Hrt Hrw]. split.
  - unfold app_outcomes.
    apply Forall_cons; split; [exact (proj1 (app_kategori_tags _)) |].
    apply Forall_cons; split; [exact (app_id_tags _ _) |].
    apply Forall_cons; split; [exact (app_utsparingstype_tags _) |].
    apply Forall_cons; split; [exact (proj1 (app_tetting_tags _)) |].
    apply Forall_cons; split; [exact (proj1 (app_fase_tags _)) |].
    apply Forall_cons; split; [exact (proj1 (app_status_tags _)) |].
    apply Forall_cons; split; [exact Hrt |].
    apply Forall_cons; split; [exact (proj1 (app_rev_dato_tags _)) |].
    apply Forall_cons; split; [exact (proj1 (app_rev_beskrivelse_tags _)) |].
    constructor.
  - unfold tally_sum, app_outcomes. cbn [map foldr].
    rewrite (no_warning_tally _ (proj2 (app_kategori_tags _))).
    rewrite (no_warning_tally _ (proj2 (app_tetting_tags _))).
    rewrite (no_warning_tally _ (proj2 (app_fase_tags _))).
    rewrite (no_warning_tally _ (proj2 (app_status_tags _))).
    rewrite (no_warning_tally _ Hrw).
    rewrite (no_warning_tally _ (proj2 (app_rev_dato_tags _))).
    rewrite (no_warning_tally _ (proj2 (app_rev_beskrivelse_tags _))).
    pose proof (tally_bounds (app.validate_id (dict_get props "A4_Utsp_ID") p)).
    pose proof (tally_bounds
                  (app.validate_utsparingstype
                     (dict_get props "A4_Utsp_Utsparingstype"))).
    lia.
Qed.

End app_tags.
(** * The results of the two element validators, by their outcomes *)
Section results.
Context {rt : PyRuntime}.

Import element_validation.

Lemma tool_validate_element_result
    (e : IfcElement) (p : option str) (found : str) (r : ElementValidation) :
  located_pset e = Some found ->
  validate_utsparinger.validate_element e p = Ok r ->
  exists rev,
    validation_rules.validate_rev
      (dict_get (get_element_properties e).1.2 "A4_Utsp_Rev") = Ok rev /\
    r = assembled e found (tool_outcomes (get_element_properties e).1.2 p rev)
          (validation_rules.validate_funksjon
             <$> (get_element_properties e).1.2 !! (utf8 "A4_Utsp_Funksjon"))
          (validation_rules.validate_dimensions (get_element_properties e).1.2).
Proof.
  intros Hloc. unfold validate_utsparinger.validate_element.
  rewrite (validate_element_assembled _ _ _ e p found Hloc).
  rewrite tool_required_outcomes, tool_optional_outcome.
  destruct (validation_rules.validate_rev _) as [rev|x];
    [| rewrite result_bind_raise; discriminate].
  rewrite !result_bind_ok. intros Hr. injection Hr as <-.
  exists rev. split; reflexivity.
Qed.

Lemma app_validate_element_result
    (e : IfcElement) (p : option str) (found : str) (r : ElementValidation) :
  located_pset e = Some found ->
  app.validate_element e p = Ok r ->
  exists rev,
    app.validate_rev (dict_get (get_element_properties e).1.2 "A4_Utsp_Rev") = Ok rev /\
    r = assembled e found (app_outcomes (get_element_properties e).1.2 p rev)
          (validation_rules.validate_funksjon
             <$> (get_element_properties e).1.2 !! (utf8 "A4_Utsp_Funksjon"))
          (app.validate_dimensions (get_element_properties e).1.2).
Proof.
  intros Hloc. unfold app.validate_element.
  rewrite (validate_element_assembled _ _ _ e p found Hloc).
  rewrite app_required_outcomes, app_optional_outcome.
  destruct (app.validate_rev _) as [rev|x];
    [| rewrite result_bind_raise; discriminate].
  rewrite !result_bind_ok. intros Hr. injection Hr as <-.
  exists rev. split; reflexivity.
Qed.

End results.
(** * The two shapes of a validated element *)
Section shapes.
Context {rt : PyRuntime}.

Import element_validation.

(** A result of either element validator is the early return for an
    element without located property set, or is assembled from nine
    tagged outcomes of which at most two warn. *)
Lemma validated_element_shape (e : IfcElement) (p : option str) (r : ElementValidation) :
  validate_utsparinger.validate_element e p = Ok r \/ app.validate_element e p = Ok r ->
  (exists found rs dim_result,
     located_pset e = Some found /\
     length rs = length validation_rules.REQUIRED_PROPERTIES /\
     Forall tagged rs /\ (tally_sum warning_tally rs <= 2)%Z /\
     r = assembled e found rs
           (validation_rules.validate_funksjon
              <$> (get_element_properties e).1.2 !! (utf8 "A4_Utsp_Funksjon"))
           dim_result) \/
  (located_pset e = None /\
   r = mkElementValidation (GlobalId e) (display_name e) (is_a e) (ObjectType e)
         false None (get_element_properties e).2 ∅ ∅ None "Mangler pset" 1 0).
Proof.
  intros Hr. destruct (located_pset e) as [found|] eqn:Hloc.
  - left. destruct Hr as [Hr|Hr].
    + destruct (tool_validate_element_result e p found r Hloc Hr) as (rev & Hrev & ->).
      destruct (tool_outcomes_tagged _ p rev Hrev) as [Ht Hw].
      exists found, (tool_outcomes (get_element_properties e).1.2 p rev),
        (validation_rules.validate_dimensions (get_element_properties e).1.2).
      split; [reflexivity |]. split; [reflexivity |]. split; [exact Ht |].
      split; [exact Hw | reflexivity].
    + destruct (app_validate_element_result e p found r Hloc Hr) as (rev & Hrev & ->).
      destruct (app_outcomes_tagged _ p rev Hrev) as [Ht Hw].
      exists found, (app_outcomes (get_element_properties e).1.2 p rev),
        (app.validate_dimensions (get_element_properties e).1.2).
      split; [reflexivity |]. split; [reflexivity |]. split; [exact Ht |].
      split; [exact Hw | reflexivity].
  - right. split; [reflexivity |].
    unfold validate_utsparinger.validate_element, app.validate_element in Hr.
    rewrite !(validate_element_missing _ _ _ e p Hloc) in Hr.
    destruct Hr as [Hr|Hr]; injection Hr as <-; reflexivity.
Qed.

End shapes.
(** * Bounds of the counts *)
Section counts.
Context {rt : PyRuntime}.

Import element_validation.

Lemma funksjon_tally_bounds (o : option PyValue) :
  (0 <= from_option warning_tally 0 (validation_rules.validate_funksjon <$> o) <= 1)%Z.
Proof.
  destruct o as [v|]; simpl; [| lia].
  pose proof (tally_bounds (validation_rules.validate_funksjon v)). lia.
Qed.

Lemma assembled_counts_bounded
    (e : IfcElement) (found : str) (rs : list ValidationResult)
    (o : option PyValue) (dim_result : ValidationResult) :
  length rs = 9%nat ->
  (tally_sum warning_tally rs <= 2)%Z ->
  let r := assembled e found rs (validation_rules.validate_funksjon <$> o) dim_result in
  (0 <= error_count r <= 10)%Z /\ (0 <= warning_count r <= 4)%Z /\
  (error_count r + warning_count r <= 12)%Z.
Proof.
  intros Hlen Hw. cbv zeta. unfold assembled. cbn [error_count warning_count].
  pose proof (tally_sum_bounds rs) as (He0 & Hw0 & Hsum). rewrite Hlen in Hsum.
  pose proof (funksjon_tally_bounds o).
  destruct (is_valid dim_result), (bool_decide (found = validation_rules.REQUIRED_PSET));
    lia.
Qed.

End counts.
(** * The counts of a validated element *)
Section counts_thm.
Context {rt : PyRuntime}.

Import element_validation.

(** X3. The counts of a validated element, of the command-line tool and of
    the app, are bounded: the error count is between 0 and 10, the warning
    count between 0 and 4, and the two together are at most 12. *)
Theorem counts_within_bounds (e : IfcElement) (p : option str) (r : ElementValidation) :
  validate_utsparinger.validate_element e p = Ok r \/ app.validate_element e p = Ok r ->
  (0 <= error_count r <= 10)%Z /\ (0 <= warning_count r <= 4)%Z /\
  (error_count r + warning_count r <= 12)%Z.
Proof.
  intros Hr. destruct (located_pset e) as [found|] eqn:Hloc.
  - destruct Hr as [Hr|Hr].
    + destruct (tool_validate_element_result e p found r Hloc Hr) as (rev & Hrev & ->).
      apply assembled_counts_bounded; [reflexivity |].
      apply tool_outcomes_tagged. exact Hrev.
    + destruct (app_validate_element_result e p found r Hloc Hr) as (rev & Hrev & ->).
      apply assembled_counts_bounded; [reflexivity |].
      apply app_outcomes_tagged. exact Hrev.
  - assert (Hm : r = mkElementValidation (GlobalId e) (display_name e) (is_a e)
                       (ObjectType e) false None (get_element_properties e).2 ∅ ∅ None
                       "Mangler pset" 1 0).
    { unfold validate_utsparinger.validate_element, app.validate_element in Hr.
      rewrite !(validate_element_missing _ _ _ e p Hloc) in Hr.
      destruct Hr as [Hr|Hr]; injection Hr as <-; reflexivity. }
    rewrite Hm. cbn [error_count warning_count]. lia.
Qed.

End counts_thm.

(** * The recorded outcomes and the status *)
Section recorded_status.
Context {rt : PyRuntime}.

Import element_validation.

Lemma result_map_length {A B : Type} (f : A -> result B) (l : list A) :
  forall bs, result_map f l = Ok bs -> length bs = length l.
Proof.
  induction l as [|a l IH]; intros bs; cbn [result_map].
  - intros H. injection H as <-. reflexivity.
  - destruct (f a) as [b|x]; [| rewrite result_bind_raise; discriminate].
    rewrite result_bind_ok.
    destruct (result_map f l) as [bs'|x]; [| rewrite result_bind_raise; discriminate].
    rewrite result_bind_ok. intros H. injection H as <-. simpl. f_equal.
    apply IH. reflexivity.
Qed.

Lemma clean_iff_tallies (res : ValidationResult) :
  tagged res -> clean res <-> error_tally res = 0%Z /\ warning_tally res = 0%Z.
Proof.
  unfold tagged, clean, error_tally, warning_tally. intros Htag.
  destruct (is_valid res); cbn [negb andb].
  - case_bool_decide as Hs; split; intros [H1 H2];
      first [ discriminate H2 | contradiction
            | split; first [reflexivity | assumption] ].
  - destruct (Htag eq_refl) as [He|Hw].
    + rewrite (bool_decide_eq_true_2 _ He). split; [intros [H _] | intros [H _]];
        discriminate H.
    + rewrite (bool_decide_eq_true_2 (severity res = utf8 "warning") Hw).
      split; [intros [H _] | intros [_ H]]; discriminate H.
Qed.

(** The entries of the map of outcomes are the outcomes of the loops. *)
Lemma recorded_forall
    (Q : ValidationResult -> Prop) (rs : list ValidationResult)
    (o : option ValidationResult) :
  length rs = length validation_rules.REQUIRED_PROPERTIES ->
  (forall k res,
     (match o with
      | Some res' =>
          <[utf8 "A4_Utsp_Funksjon" := res']>
            (record_all validation_rules.REQUIRED_PROPERTIES rs ∅)
      | None => record_all validation_rules.REQUIRED_PROPERTIES rs ∅
      end) !! k = Some res -> Q res)
  <-> Forall Q rs /\ (forall res, o = Some res -> Q res).
Proof.
  intros Hlen. split.
  - intros H. split.
    + apply Forall_lookup. intros i res Hi.
      assert (Hk : is_Some (validation_rules.REQUIRED_PROPERTIES !! i)).
      { apply lookup_lt_is_Some. rewrite <- Hlen. eapply lookup_lt_Some. exact Hi. }
      destruct Hk as [k Hk]. apply (H k).
      assert (Hrec : record_all validation_rules.REQUIRED_PROPERTIES rs ∅ !! k
                     = Some res).
      { eapply record_all_lookup; [apply required_properties_NoDup | exact Hk | exact Hi]. }
      destruct o as [res'|]; [| exact Hrec].
      rewrite lookup_insert_ne; [exact Hrec |].
      intros <-. apply funksjon_not_required.
      eapply list_elem_of_lookup_2. exact Hk.
    + intros res ->. apply (H (utf8 "A4_Utsp_Funksjon")). apply lookup_insert_eq.
  - intros [Hrs Ho] k res Hk.
    assert (Hcase : o = Some res \/
                    record_all validation_rules.REQUIRED_PROPERTIES rs ∅ !! k = Some res).
    { destruct o as [res'|]; [| right; exact Hk].
      destruct (decide (utf8 "A4_Utsp_Funksjon" = k)) as [<-|Hne].
      - rewrite lookup_insert_eq in Hk. left. exact Hk.
      - rewrite lookup_insert_ne in Hk by exact Hne. right. exact Hk. }
    destruct Hcase as [Heq|Hrec]; [apply Ho; exact Heq |].
    apply record_all_Some in Hrec as [Hemp|(i & _ & Hi)].
    + rewrite lookup_empty in Hemp. discriminate Hemp.
    + eapply Forall_lookup_1; [exact Hrs | exact Hi].
Qed.

Lemma status_of_counts_ok (ec wc : Z) :
  status_of_counts ec wc = "OK" <-> (ec <= 0)%Z /\ (wc <= 0)%Z.
Proof.
  destruct status_values_distinct as (_ & _ & _ & _ & H5 & H6).
  unfold status_of_counts.
  destruct (0 <? ec)%Z eqn:He; [apply Z.ltb_lt in He | apply Z.ltb_ge in He].
  - split; [intros H; exfalso; exact (H5 H) | lia].
  - destruct (0 <? wc)%Z eqn:Hw; [apply Z.ltb_lt in Hw | apply Z.ltb_ge in Hw].
    + split; [intros H; exfalso; exact (H6 H) | lia].
    + split; [intros _; split; assumption | reflexivity].
Qed.

Lemma assembled_ok
    (e : IfcElement) (found : str) (rs : list ValidationResult)
    (ov : option PyValue) (dim_result : ValidationResult) :
  length rs = length validation_rules.REQUIRED_PROPERTIES ->
  Forall tagged rs ->
  let r := assembled e found rs (validation_rules.validate_funksjon <$> ov) dim_result in
  overall_status r = "OK"
  <-> has_pset r = true /\
      (forall k res, property_validations r !! k = Some res -> clean res) /\
      (exists d, dimension_validation r = Some d /\ is_valid d = true).
Proof.
  intros Hlen Htag. cbv zeta. unfold assembled.
  cbn [overall_status has_pset property_validations dimension_validation].
  rewrite status_of_counts_ok, (recorded_forall clean rs _ Hlen).
  pose proof (tally_sum_bounds rs) as (He0 & Hw0 & _).
  pose proof (funksjon_tally_bounds ov) as Hf.
  assert (Hrs : Forall clean rs
                <-> tally_sum error_tally rs = 0%Z /\ tally_sum warning_tally rs = 0%Z).
  { rewrite (tally_sum_zero error_tally), (tally_sum_zero warning_tally)
      by (intros res; pose proof (tally_bounds res); lia).
    rewrite <- Forall_and. split; intros H.
    - eapply Forall_impl; [apply Forall_and; split; [exact Htag | exact H] |].
      intros res [Ht Hc]. apply clean_iff_tallies; assumption.
    - eapply Forall_impl; [apply Forall_and; split; [exact Htag | exact H] |].
      intros res [Ht Hc]. apply clean_iff_tallies; assumption. }
  assert (Ho : (forall res, validation_rules.validate_funksjon <$> ov = Some res
                            -> clean res)
               <-> from_option warning_tally 0%Z
                     (validation_rules.validate_funksjon <$> ov) = 0%Z).
  { destruct ov as [v|]; cbn [fmap option_fmap option_map from_option].
    - unfold clean, warning_tally. split.
      + intros H. destruct (H _ eq_refl) as [_ Hs].
        rewrite bool_decide_eq_false_2 by exact Hs. reflexivity.
      + intros H res Heq. injection Heq as <-. split; [apply funksjon_valid |].
        intros Hs. rewrite bool_decide_eq_true_2 in H by exact Hs. discriminate H.
    - split; [reflexivity | intros _ res Heq; discriminate Heq]. }
  rewrite Hrs, Ho. clear Hrs Ho.
  destruct (is_valid dim_result) eqn:Hd,
    (bool_decide (found = validation_rules.REQUIRED_PSET)) eqn:Hm.
  - split; [intros [H1 H2] | intros (_ & ((H1 & H2) & H3) & _); lia].
    split; [reflexivity |]. split; [lia |]. exists dim_result. split; [reflexivity | exact Hd].
  - split; [intros [H1 H2]; lia | intros (H & _); discriminate H].
  - split; [intros [H1 H2]; lia |].
    intros (_ & _ & d & Heq & Hv). injection Heq as <-. congruence.
  - split; [intros [H1 H2]; lia | intros (H & _); discriminate H].
Qed.

End recorded_status.
(** * When an element is reported OK *)
Section ok_status.
Context {rt : PyRuntime}.

Import element_validation.

(** X4. An element is reported OK, by the command-line tool and by the
    app, exactly when its property set has the exact name A4_Utsp, every
    recorded outcome passed without the tag warning, and the dimension
    check passed. *)
Theorem status_ok_iff_clean (e : IfcElement) (p : option str) (r : ElementValidation) :
  validate_utsparinger.validate_element e p = Ok r \/ app.validate_element e p = Ok r ->
  overall_status r = "OK"
  <-> has_pset r = true /\
      (forall k res, property_validations r !! k = Some res -> clean res) /\
      (exists d, dimension_validation r = Some d /\ is_valid d = true).
Proof.
  intros Hr. destruct (located_pset e) as [found|] eqn:Hloc.
  - destruct Hr as [Hr|Hr].
    + destruct (tool_validate_element_result e p found r Hloc Hr) as (rev & Hrev & ->).
      apply assembled_ok; [reflexivity |].
      apply tool_outcomes_tagged. exact Hrev.
    + destruct (app_validate_element_result e p found r Hloc Hr) as (rev & Hrev & ->).
      apply assembled_ok; [reflexivity |].
      apply app_outcomes_tagged. exact Hrev.
  - assert (Hm : r = mkElementValidation (GlobalId e) (display_name e) (is_a e)
                       (ObjectType e) false None (get_element_properties e).2 ∅ ∅ None
                       "Mangler pset" 1 0).
    { unfold validate_utsparinger.validate_element, app.validate_element in Hr.
      rewrite !(validate_element_missing _ _ _ e p Hloc) in Hr.
      destruct Hr as [Hr|Hr]; injection Hr as <-; reflexivity. }
    rewrite Hm. cbn [overall_status has_pset].
    destruct status_values_distinct as (_ & _ & H3 & _).
    split; [intros H; exfalso; apply H3; symmetry; exact H | intros (H & _); discriminate H].
Qed.

End ok_status.

(** * A required property without a value *)
Section blank_values.
Context {rt : PyRuntime}.

Import element_validation.

Lemma blank_tetting (v : PyValue) :
  none_or_blank v = true ->
  failed_error (validation_rules.validate_tetting v) /\
  failed_error (app.validate_tetting v).
Proof.
  unfold none_or_blank, validation_rules.validate_tetting, app.validate_tetting.
  intros H. destruct v as [|s|z|f|b]; cbn [is_None orb] in H;
    try (split; split; reflexivity).
  4: { destruct b; vm_compute in H; discriminate H. }
  all: cbv zeta; rewrite H; split; split; reflexivity.
Qed.

Lemma blank_rev (v : PyValue) (res : ValidationResult) :
  none_or_blank v = true ->
  validation_rules.validate_rev v = Ok res \/ app.validate_rev v = Ok res ->
  failed_error res.
Proof.
  unfold none_or_blank, validation_rules.validate_rev, app.validate_rev.
  intros H. destruct (is_None v); cbn [orb] in H.
  - intros [Hr|Hr]; injection Hr as <-; split; reflexivity.
  - cbv zeta. rewrite H. intros [Hr|Hr]; injection Hr as <-; split; reflexivity.
Qed.

Lemma tally_sum_lookup
    (tally : ValidationResult -> Z) (rs : list ValidationResult)
    (i : nat) (res : ValidationResult) :
  (forall x, (0 <= tally x)%Z) -> rs !! i = Some res ->
  (tally res <= tally_sum tally rs)%Z.
Proof.
  intros Hpos. unfold tally_sum. revert i.
  induction rs as [|a rs IH]; intros i Hi; [discriminate |].
  assert (0 <= foldr Z.add 0 (map tally rs))%Z.
  { clear IH Hi. induction rs as [|b rs IH]; simpl; [lia |].
    pose proof (Hpos b). lia. }
  destruct i as [|i]; simpl in *.
  - injection Hi as ->. lia.
  - specialize (IH i Hi). pose proof (Hpos a). lia.
Qed.

Lemma tool_outcomes_blank
    (props : gmap str PyValue) (p : option str) (rev : ValidationResult)
    (i : nat) (k : str) (res : ValidationResult) :
  validation_rules.validate_rev (dict_get props "A4_Utsp_Rev") = Ok rev ->
  validation_rules.REQUIRED_PROPERTIES !! i = Some k ->
  tool_outcomes props p rev !! i = Some res ->
  none_or_blank (dict_get props k) = true ->
  failed_error res.
Proof.
  intros Hrev Hk Hres.
  unfold validation_rules.REQUIRED_PROPERTIES, tool_outcomes in *.
  destruct i as [|[|[|[|[|[|[|[|[|i]]]]]]]]];
    cbn [lookup list_lookup] in Hk, Hres; try discriminate Hk;
    injection Hk as <-; injection Hres as <-; intros Hb.
  - unfold validation_rules.validate_kategori. rewrite Hb. split; reflexivity.
  - unfold validation_rules.validate_id. rewrite Hb. split; reflexivity.
  - unfold validation_rules.validate_utsparingstype. rewrite Hb. split; reflexivity.
  - apply blank_tetting. exact Hb.
  - unfold validation_rules.validate_fase. rewrite Hb. split; reflexivity.
  - unfold validation_rules.validate_status. rewrite Hb. split; reflexivity.
  - eapply blank_rev; [exact Hb | left; exact Hrev].
  - unfold validation_rules.validate_rev_dato. rewrite Hb. split; reflexivity.
  - unfold validation_rules.validate_rev_beskrivelse. rewrite Hb. split; reflexivity.
Qed.

Lemma app_outcomes_blank
    (props : gmap str PyValue) (p : option str) (rev : ValidationResult)
    (i : nat) (k : str) (res : ValidationResult) :
  app.validate_rev (dict_get props "A4_Utsp_Rev") = Ok rev ->
  validation_rules.REQUIRED_PROPERTIES !! i = Some k ->
  app_outcomes props p rev !! i = Some res ->
  none_or_blank (dict_get props k) = true ->
  failed_error res.
Proof.
  intros Hrev Hk Hres.
  unfold validation_rules.REQUIRED_PROPERTIES, app_outcomes in *.
  destruct i as [|[|[|[|[|[|[|[|[|i]]]]]]]]];
    cbn [lookup list_lookup] in Hk, Hres; try discriminate Hk;
    injection Hk as <-; injection Hres as <-; intros Hb.
  - unfold app.validate_kategori. rewrite Hb. split; reflexivity.
  - unfold app.validate_id. rewrite Hb. split; reflexivity.
  - unfold app.validate_utsparingstype. rewrite Hb. split; reflexivity.
  - apply blank_tetting. exact Hb.
  - unfold app.validate_fase. rewrite Hb. split; reflexivity.
  - unfold app.validate_status. rewrite Hb. split; reflexivity.
  - eapply blank_rev; [exact Hb | right; exact Hrev].
  - unfold app.validate_rev_dato. rewrite Hb. split; reflexivity.
  - unfold app.validate_rev_beskrivelse. rewrite Hb. split; reflexivity.
Qed.

Lemma assembled_failed
    (e : IfcElement) (found : str) (rs : list ValidationResult)
    (o : option ValidationResult) (dim_result : ValidationResult)
    (i : nat) (k : str) (res : ValidationResult) :
  validation_rules.REQUIRED_PROPERTIES !! i = Some k ->
  rs !! i = Some res ->
  failed_error res ->
  let r := assembled e found rs o dim_result in
  property_validations r !! k = Some res /\
  overall_status r = "Feil" /\ (1 <= error_count r)%Z.
Proof.
  intros Hk Hi [Hv Hs]. cbv zeta. unfold assembled.
  cbn [property_validations overall_status error_count].
  assert (Hrec : record_all validation_rules.REQUIRED_PROPERTIES rs ∅ !! k = Some res).
  { eapply record_all_lookup; [apply required_properties_NoDup | exact Hk | exact Hi]. }
  assert (Herr : (1 <= tally_sum error_tally rs)%Z).
  { pose proof (tally_sum_lookup error_tally rs i res
                  (fun x => proj1 (tally_bounds x)) Hi) as Hle.
    unfold error_tally at 1 in Hle. rewrite Hv in Hle.
    rewrite (bool_decide_eq_true_2 _ Hs) in Hle. exact Hle. }
  split.
  - destruct o as [res'|]; [| exact Hrec].
    rewrite lookup_insert_ne; [exact Hrec |].
    intros <-. apply funksjon_not_required.
    eapply list_elem_of_lookup_2. exact Hk.
  - assert (Hpos : (1 <= tally_sum error_tally rs
                         + (if is_valid dim_result then 0 else 1))%Z)
      by (destruct (is_valid dim_result); lia).
    split; [| exact Hpos].
    unfold status_of_counts.
    rewrite (proj2 (Z.ltb_lt _ _)) by lia. reflexivity.
Qed.

End blank_values.
(** * Missing values are errors *)
Section missing_values.
Context {rt : PyRuntime}.

Import element_validation.

(** X5. When the extractor located a property set and a required property
    has no value among the extracted properties (it is absent, None, or
    blank text), the element validators of the command-line tool and of
    the app record a failed outcome tagged error for it, count at least
    one error, and report the element as Feil. *)
Theorem missing_required_property_is_error
    (e : IfcElement) (p : option str) (r : ElementValidation) (k : str) :
  validate_utsparinger.validate_element e p = Ok r \/ app.validate_element e p = Ok r ->
  located_pset e <> None ->
  k ∈ validation_rules.REQUIRED_PROPERTIES ->
  none_or_blank (dict_get (properties_found r) k) = true ->
  (exists res, property_validations r !! k = Some res /\ failed_error res) /\
  overall_status r = "Feil" /\ (1 <= error_count r)%Z.
Proof.
  intros Hr Hloc Hk. destruct (located_pset e) as [found|] eqn:Hfound; [| congruence].
  clear Hloc. apply list_elem_of_lookup_1 in Hk as [i Hi].
  destruct Hr as [Hr|Hr].
  - destruct (tool_validate_element_result e p found r Hfound Hr) as (rev & Hrev & ->).
    unfold assembled at 1. cbn [properties_found]. intros Hb.
    assert (Hres : is_Some (tool_outcomes (get_element_properties e).1.2 p rev !! i)).
    { apply lookup_lt_is_Some. apply lookup_lt_Some in Hi. exact Hi. }
    destruct Hres as [res Hres].
    pose proof (tool_outcomes_blank _ p rev i k res Hrev Hi Hres Hb) as Hfail.
    destruct (assembled_failed e found _
                (validation_rules.validate_funksjon
                   <$> (get_element_properties e).1.2 !! (utf8 "A4_Utsp_Funksjon"))
                (validation_rules.validate_dimensions (get_element_properties e).1.2)
                i k res Hi Hres Hfail) as (H1 & H2 & H3).
    split; [exists res; split; assumption |]. split; assumption.
  - destruct (app_validate_element_result e p found r Hfound Hr) as (rev & Hrev & ->).
    unfold assembled at 1. cbn [properties_found]. intros Hb.
    assert (Hres : is_Some (app_outcomes (get_element_properties e).1.2 p rev !! i)).
    { apply lookup_lt_is_Some. apply lookup_lt_Some in Hi. exact Hi. }
    destruct Hres as [res Hres].
    pose proof (app_outcomes_blank _ p rev i k res Hrev Hi Hres Hb) as Hfail.
    destruct (assembled_failed e found _
                (validation_rules.validate_funksjon
                   <$> (get_element_properties e).1.2 !! (utf8 "A4_Utsp_Funksjon"))
                (app.validate_dimensions (get_element_properties e).1.2)
                i k res Hi Hres Hfail) as (H1 & H2 & H3).
    split; [exists res; split; assumption |]. split; assumption.
Qed.

End missing_values.

(** * The extracted properties *)
Section extracted.

Import element_validation.

Lemma all_properties_prefixed (n : str) :
  str_in n validation_rules.ALL_PROPERTIES = true ->
  str_startswith "A4_Utsp_" n = true.
Proof.
  unfold str_in. intros H. apply bool_decide_eq_true_1 in H.
  unfold validation_rules.ALL_PROPERTIES, validation_rules.REQUIRED_PROPERTIES,
    validation_rules.DIMENSION_PROPERTIES, validation_rules.OPTIONAL_PROPERTIES in H.
  cbn [app] in H.
  repeat (apply elem_of_cons in H as [->|H]; [vm_compute; reflexivity |]).
  inversion H.
Qed.

(** One turn of the inner loop, seen from one name. *)
Lemma extract_property_lookup (props : gmap str PyValue) (prop : IfcProperty) (k : str) :
  extract_property props prop !! k
  = if carries k prop then Some (stored_value prop) else props !! k.
Proof.
  unfold extract_property, carries, stored_value.
  destruct (prop_Name prop) as [n|];
    [| rewrite bool_decide_eq_false_2 by discriminate; reflexivity].
  destruct (str_startswith "A4_Utsp_" n || str_in n validation_rules.ALL_PROPERTIES)
    eqn:Hacc.
  - assert (Hpre : str_startswith "A4_Utsp_" n = true).
    { apply orb_true_iff in Hacc as [H|H]; [exact H | apply all_properties_prefixed, H]. }
    destruct (decide (n = k)) as [->|Hne].
    + rewrite lookup_insert_eq, bool_decide_eq_true_2, Hpre by reflexivity. reflexivity.
    + rewrite lookup_insert_ne by exact Hne.
      rewrite bool_decide_eq_false_2 by congruence. reflexivity.
  - apply orb_false_iff in Hacc as [Hpre _].
    destruct (decide (n = k)) as [->|Hne].
    + rewrite Hpre, andb_false_r. reflexivity.
    + rewrite bool_decide_eq_false_2 by congruence. reflexivity.
Qed.

Lemma extract_properties_lookup (ps : list IfcProperty) (k : str) :
  forall props : gmap str PyValue,
    foldl extract_property props ps !! k
    = match last (List.filter (carries k) ps) with
      | Some prop => Some (stored_value prop)
      | None => props !! k
      end.
Proof.
  induction ps as [|prop ps IH]; intros props; [reflexivity |].
  cbn [foldl List.filter]. rewrite IH, extract_property_lookup.
  destruct (carries k prop); [| reflexivity].
  rewrite last_cons. destruct (last (List.filter (carries k) ps)); reflexivity.
Qed.

Lemma extract_definitions_lookup (defs : list IfcRelDefines) (k : str) :
  forall (found : option str) (props : gmap str PyValue) (names : list (option str)),
    (foldl extract_definition (found, props, names) defs).1.2 !! k
    = match last (List.filter (carries k)
                    (concat (property_sets (mkIfcElement [] None [] None defs)).*2)) with
      | Some prop => Some (stored_value prop)
      | None => props !! k
      end.
Proof.
  induction defs as [|d defs IH]; intros found props names; [reflexivity |].
  rewrite (property_sets_cons d defs _ (mkIfcElement [] None [] None defs))
    by reflexivity.
  destruct d as [[n ps|]|]; cbn [foldl extract_definition]; try apply IH.
  rewrite IH, extract_properties_lookup.
  cbn [fmap list_fmap snd concat]. rewrite List.filter_app, last_app.
  destruct (last (List.filter (carries k) (concat _))); reflexivity.
Qed.

(** X6. The extractor keeps, for every name, the value of the last
    property of that name over all property sets of the element, in order,
    provided the name starts with A4_Utsp_ (the test against the list of
    all properties adds nothing); a property without a nominal value is
    kept as None.  No other name is extracted. *)
Theorem extracted_properties_spec (e : IfcElement) (k : str) :
  (validate_utsparinger.get_element_properties e).1.2 !! k
  = stored_value <$> last (List.filter (carries k) (all_properties e)) /\
  (app.get_element_properties e).1.2 !! k
  = stored_value <$> last (List.filter (carries k) (all_properties e)).
Proof.
  unfold validate_utsparinger.get_element_properties, app.get_element_properties.
  assert (H : (get_element_properties e).1.2 !! k
              = stored_value <$> last (List.filter (carries k) (all_properties e))).
  { rewrite get_element_properties_foldl, extract_definitions_lookup.
    unfold all_properties.
    change (property_sets (mkIfcElement [] None [] None (IsDefinedBy e)))
      with (property_sets e).
    destruct (last _); reflexivity. }
  split; exact H.
Qed.

(** X7. When the extractor locates no property set, it has extracted no
    property: the empty map of the early return of the element validator
    drops nothing.  Conversely every extracted name starts with A4_Utsp_
    and comes with a located set. *)
Theorem no_located_set_no_properties (e : IfcElement) :
  (located_pset e = None -> (get_element_properties e).1.2 = ∅) /\
  (forall k, is_Some ((get_element_properties e).1.2 !! k) ->
             str_startswith "A4_Utsp_" k = true /\ located_pset e <> None).
Proof.
  assert (Hkey : forall k, is_Some ((get_element_properties e).1.2 !! k) ->
                 str_startswith "A4_Utsp_" k = true /\ located_pset e <> None).
  { intros k [v Hv].
    rewrite get_element_properties_foldl, extract_definitions_lookup in Hv.
    change (property_sets (mkIfcElement [] None [] None (IsDefinedBy e)))
      with (property_sets e) in Hv.
    destruct (last _) as [prop|] eqn:Hlast; [| rewrite lookup_empty in Hv; discriminate].
    apply last_Some in Hlast as [l' Hl'].
    assert (Hin : In prop (List.filter (carries k) (concat (property_sets e).*2))).
    { rewrite Hl'. apply in_or_app. right. left. reflexivity. }
    apply filter_In in Hin as [Hin Hc]. unfold carries in Hc.
    apply andb_true_iff in Hc as [Hname Hpre]. apply bool_decide_eq_true_1 in Hname.
    split; [exact Hpre |].
    intros Hnone. apply located_pset_None in Hnone as [_ Hfind].
    apply in_concat in Hin as (ps & Hps & Hprop).
    apply in_map_iff in Hps as ([n ps'] & <- & Hpset).
    pose proof (find_none _ _ Hfind _ Hpset) as Hfz.
    unfold fuzzy, has_misplaced_property in Hfz. cbn [snd] in *.
    assert (Hex : existsb
                    (fun prop => match prop_Name prop with
                                 | Some prop_name => str_startswith "A4_Utsp_" prop_name
                                 | None => false
                                 end) ps' = true).
    { apply existsb_exists. exists prop. split; [exact Hprop |].
      rewrite Hname. exact Hpre. }
    congruence. }
  split; [| exact Hkey].
  intros Hnone. apply map_eq. intros k. rewrite lookup_empty.
  destruct (_ !! k) as [v|] eqn:Hv; [| reflexivity].
  destruct (Hkey k (ex_intro _ v Hv)) as [_ Hloc]. contradiction.
Qed.

End extracted.
(** * The expected prefix of a file *)
Section file_prefix.
Context {rt : PyRuntime} {host : Host}.

Lemma str_split_single (sep : N) (s w : str) : str_split sep s = [w] -> w = s.
Proof.
  revert w. induction s as [|c s IH]; intros w; cbn [str_split].
  - intros H. injection H as <-. reflexivity.
  - destruct (c =? sep)%N.
    + intros H. injection H as _ H. exfalso. exact (str_split_nonempty sep s H).
    + destruct (str_split sep s) as [|w0 ws] eqn:Hs.
      * exfalso. exact (str_split_nonempty sep s Hs).
      * intros H. injection H as <- ->. f_equal. apply IH. reflexivity.
Qed.

Lemma discipline_codes_whole (c : str) :
  c ∈ discipline_codes -> str_split 95 c = [c].
Proof.
  unfold discipline_codes. intros H.
  repeat (apply elem_of_cons in H as [->|H]; [vm_compute; reflexivity |]).
  inversion H.
Qed.

(** A text without the separator is one part. *)
Lemma str_split_whole (sep : N) (w : str) : sep ∉ w -> str_split sep w = [w].
Proof.
  induction w as [|c w IH]; intros Hno; [reflexivity |].
  apply not_elem_of_cons in Hno as [Hne Hno]. cbn [str_split].
  rewrite (proj2 (N.eqb_neq c sep)) by congruence.
  rewrite (IH Hno). reflexivity.
Qed.

(** The text before the first separator is the first part. *)
Lemma str_split_cons (sep : N) (w rest : str) :
  sep ∉ w -> str_split sep (w ++ sep :: rest) = w :: str_split sep rest.
Proof.
  induction w as [|c w IH]; intros Hno.
  - cbn [app str_split]. rewrite N.eqb_refl. reflexivity.
  - apply not_elem_of_cons in Hno as [Hne Hno]. cbn [app str_split].
    rewrite (proj2 (N.eqb_neq c sep)) by congruence.
    rewrite (IH Hno). reflexivity.
Qed.

(** Splitting at the separator undoes joining with it. *)
Lemma str_split_join (sep : N) (parts : list str) :
  parts <> [] -> Forall (fun part => sep ∉ part) parts ->
  str_split sep (str_join [sep] parts) = parts.
Proof.
  intros Hne Hall. induction Hall as [|w parts Hw Hall IH]; [congruence |].
  destruct parts as [|w' parts].
  - cbn [str_join]. apply str_split_whole. exact Hw.
  - change (str_join [sep] (w :: w' :: parts))
      with (w ++ sep :: str_join [sep] (w' :: parts)).
    rewrite (str_split_cons sep w _ Hw), IH by discriminate. reflexivity.
Qed.

Lemma find_code_first (before after : list str) (c : str) :
  Forall (fun part => part ∉ discipline_codes) before -> c ∈ discipline_codes ->
  find (fun part => str_in part discipline_codes) (before ++ c :: after) = Some c.
Proof.
  intros Hb Hc. apply find_first.
  - eapply Forall_impl; [exact Hb |]. intros part Hp.
    apply bool_decide_eq_false_2. exact Hp.
  - apply bool_decide_eq_true_2. exact Hc.
Qed.

Lemma find_code_none (parts : list str) :
  Forall (fun part => part ∉ discipline_codes) parts ->
  find (fun part => str_in part discipline_codes) parts = None.
Proof.
  intros H. apply find_nothing.
  eapply Forall_impl; [exact H |]. intros part Hp.
  apply bool_decide_eq_false_2. exact Hp.
Qed.

(** X8. The prefix extractors on a file whose stem is the parts
    w1_w2_..._wn (no underscore within a part).  The app returns the first
    part that is one of RIV, RIE and RIVA, and None when no part is.  The
    command-line tool returns the same when the stem has at least two
    parts, and None when it has one.  So the two differ on exactly the
    files whose stem is itself one of the three codes. *)
Theorem prefix_extractors_differ (filename : str) (parts : list str) :
  path_stem filename = str_join [underscore] parts ->
  parts <> [] ->
  Forall (fun part => underscore ∉ part) parts ->
  (forall before code after,
     parts = before ++ code :: after ->
     Forall (fun part => part ∉ discipline_codes) before ->
     code ∈ discipline_codes ->
     app.extract_file_prefix filename = Some code /\
     validate_utsparinger.extract_file_prefix filename
     = if decide (2 <= length parts)%nat then Some code else None) /\
  (Forall (fun part => part ∉ discipline_codes) parts ->
   app.extract_file_prefix filename = None /\
   validate_utsparinger.extract_file_prefix filename = None) /\
  (validate_utsparinger.extract_file_prefix filename <> app.extract_file_prefix filename
   <-> path_stem filename ∈ discipline_codes).
Proof.
  intros Hstem Hne Hall.
  unfold validate_utsparinger.extract_file_prefix, app.extract_file_prefix.
  cbv zeta. change [utf8 "RIV"; utf8 "RIE"; utf8 "RIVA"] with discipline_codes.
  assert (Hsplit : str_split 95 (path_stem filename) = parts).
  { rewrite Hstem. apply str_split_join; assumption. }
  rewrite Hsplit. split; [| split].
  - intros before code after Heq Hb Hc. rewrite Heq at 1 3.
    rewrite (find_code_first before after code Hb Hc). split; [reflexivity |].
    destruct (decide (2 <= length parts)%nat) as [Hlen|Hlen].
    + rewrite (proj2 (Nat.leb_le _ _) Hlen). reflexivity.
    + rewrite (proj2 (Nat.leb_gt _ _)) by lia. reflexivity.
  - intros Hnone. rewrite (find_code_none parts Hnone).
    split; [reflexivity |]. destruct (2 <=? length parts)%nat; reflexivity.
  - clear Hstem. destruct parts as [|w [|w' ws]] eqn:Hparts; [congruence | |].
    + apply str_split_single in Hsplit as ->. cbn [length Nat.leb find].
      unfold str_in. case_bool_decide as Hc.
      * split; [intros _; exact Hc | intros _; discriminate].
      * split; [intros H; exfalso; apply H; reflexivity | intros H; contradiction].
    + cbn [length Nat.leb]. split; [intros H; exfalso; apply H; reflexivity |].
      intros Hc. apply discipline_codes_whole in Hc. rewrite Hc in Hsplit.
      discriminate Hsplit.
Qed.

End file_prefix.

(** * What the ID validators accept *)
Section id_accepts.
Context {rt : PyRuntime}.

Lemma id_shape_unique (L D L' D' : str) :
  forallb is_upper_AZ L = true -> forallb is_upper_AZ L' = true ->
  L ++ "_Hull-" ++ D = L' ++ "_Hull-" ++ D' -> L = L'.
Proof.
  intros HL HL' Heq.
  rewrite <- (id_letter_prefix L D HL), <- (id_letter_prefix L' D' HL'), Heq.
  reflexivity.
Qed.

(** X9. The ID validator of the app passes exactly the values whose
    trimmed text is two to four upper-case letters, _Hull- and one or more
    digits, whatever the expected prefix.  The validator of the
    command-line tool passes such a value only if, in addition, no prefix
    is expected (none, or the empty text) or the letters are the expected
    prefix. *)
Theorem validate_id_passes_exactly (v : PyValue) (p : option str) :
  (is_valid (app.validate_id v p) = true
   <-> exists L D, str_strip (py_str v) = L ++ "_Hull-" ++ D /\ id_shape L D) /\
  (is_valid (validation_rules.validate_id v p) = true
   <-> exists L D, str_strip (py_str v) = L ++ "_Hull-" ++ D /\ id_shape L D /\
                   (p = None \/ p = Some [] \/ p = Some L)).
Proof.
  unfold app.validate_id, validation_rules.validate_id. cbv zeta.
  change app.ID_PATTERN with validation_rules.ID_PATTERN.
  destruct (re_match validation_rules.ID_PATTERN (str_strip (py_str v))) eqn:Hre.
  - pose proof (proj1 (ID_PATTERN_stripped (py_str v)) Hre) as (L & D & Heq & Hshape).
    rewrite (id_shape_present v L D Heq). cbn [negb].
    assert (Hpre : default [] (str_split 95 (str_strip (py_str v)) !! 0%nat) = L).
    { rewrite Heq. apply id_letter_prefix. apply Hshape. }
    rewrite Hpre. split.
    + split; [intros _; exists L, D; split; assumption |].
      intros _. destruct p as [[|c e]|]; try reflexivity.
      case_bool_decide; reflexivity.
    + destruct p as [[|c e]|].
      * split; [intros _; exists L, D; auto | reflexivity].
      * case_bool_decide as Hc; cbn [is_valid Result2].
        -- split; [discriminate |].
           intros (L' & D' & Heq' & Hshape' & [H|[H|H]]); try discriminate H.
           exfalso. apply Hc. injection H as H. rewrite H.
           rewrite Heq in Heq'.
           apply (id_shape_unique L D L' D'); [apply Hshape | apply Hshape' | exact Heq'].
        -- split; [| reflexivity]. intros _. exists L, D.
           split; [exact Heq |]. split; [exact Hshape |].
           right. right. f_equal. symmetry. exact Hc.
      * split; [intros _; exists L, D; auto | reflexivity].
  - assert (Hno : ~ exists L D, str_strip (py_str v) = L ++ "_Hull-" ++ D /\ id_shape L D).
    { intros H. apply ID_PATTERN_stripped in H. congruence. }
    destruct (none_or_blank v); cbn [negb is_valid Result3].
    + split; (split; [discriminate |]).
      * intros H. contradiction.
      * intros (L & D & H1 & H2 & _). exfalso. apply Hno. eauto.
    + split; (split; [discriminate |]).
      * intros H. contradiction.
      * intros (L & D & H1 & H2 & _). exfalso. apply Hno. eauto.
Qed.

End id_accepts.
(** * What the date validators accept *)
Section date_accepts.
Context {rt : PyRuntime}.

Lemma DATE_PATTERN_stripped (x : str) :
  re_match validation_rules.DATE_PATTERN (str_strip x) = true
  <-> exists d m y, str_strip x = d ++ "." ++ m ++ "." ++ y /\ date_shape d m y.
Proof.
  unfold re_match, validation_rules.DATE_PATTERN, date_shape.
  rewrite matches_lang, lang_anchored.
  assert (Hbody : forall s,
    lang (Cat (times 2 (Sym isdecimal))
            (Cat (lit ".")
               (Cat (times 2 (Sym isdecimal))
                  (Cat (lit ".") (times 4 (Sym isdecimal)))))) s
    <-> exists d m y, s = d ++ "." ++ m ++ "." ++ y /\
          length d = 2%nat /\ length m = 2%nat /\ length y = 4%nat /\
          forallb isdecimal (d ++ m ++ y) = true).
  { intros s. split.
    - intros H. apply lang_cat_inv in H as (d & s1 & -> & Hd & H).
      apply lang_cat_inv in H as (p1 & s2 & -> & Hp1 & H).
      apply lang_cat_inv in H as (m & s3 & -> & Hm & H).
      apply lang_cat_inv in H as (p2 & y & -> & Hp2 & Hy).
      apply lang_lit in Hp1 as ->. apply lang_lit in Hp2 as ->.
      apply lang_times_sym in Hd as [Hld Hd]. apply lang_times_sym in Hm as [Hlm Hm].
      apply lang_times_sym in Hy as [Hly Hy].
      exists d, m, y. rewrite !forallb_app, Hd, Hm, Hy. auto.
    - intros (d & m & y & -> & Hld & Hlm & Hly & Hall).
      rewrite !forallb_app in Hall.
      apply andb_true_iff in Hall as [Hd Hall]. apply andb_true_iff in Hall as [Hm Hy].
      apply lang_cat; [apply lang_times_sym; auto |].
      apply lang_cat; [apply lang_lit; reflexivity |].
      apply lang_cat; [apply lang_times_sym; auto |].
      apply lang_cat; [apply lang_lit; reflexivity |].
      apply lang_times_sym; auto. }
  rewrite Hbody. split; [| auto].
  intros [H|(w & Hw & _)]; [exact H |].
  apply str_strip_last in Hw. discriminate.
Qed.

Lemma date_shape_present (v : PyValue) (d m y : str) :
  str_strip (py_str v) = d ++ "." ++ m ++ "." ++ y -> date_shape d m y ->
  none_or_blank v = false.
Proof.
  intros Heq (Hd & Hm & Hy & _). apply (f_equal length) in Heq.
  rewrite !length_app, Hd, Hm, Hy in Heq.
  unfold none_or_blank. apply orb_false_iff. split.
  - destruct v; try reflexivity. vm_compute in Heq. discriminate Heq.
  - apply bool_decide_eq_false. intros H. rewrite H in Heq. discriminate Heq.
Qed.

(** X10. The date validators of the command-line tool and of the app pass
    exactly the values whose trimmed text is two digits, a full stop, two
    digits, a full stop and four digits.  The digits are not read as a
    date: day, month and year are not checked against a calendar. *)
Theorem validate_rev_dato_shape_only (v : PyValue) :
  (is_valid (validation_rules.validate_rev_dato v) = true
   <-> exists d m y, str_strip (py_str v) = d ++ "." ++ m ++ "." ++ y /\
                     date_shape d m y) /\
  (is_valid (app.validate_rev_dato v) = true
   <-> exists d m y, str_strip (py_str v) = d ++ "." ++ m ++ "." ++ y /\
                     date_shape d m y).
Proof.
  assert (H : is_valid (validation_rules.validate_rev_dato v) = true
              <-> exists d m y, str_strip (py_str v) = d ++ "." ++ m ++ "." ++ y /\
                                date_shape d m y).
  { rewrite <- DATE_PATTERN_stripped. unfold validation_rules.validate_rev_dato.
    cbv zeta.
    destruct (re_match validation_rules.DATE_PATTERN (str_strip (py_str v))) eqn:Hre.
    - apply DATE_PATTERN_stripped in Hre as (d & m & y & Heq & Hshape).
      rewrite (date_shape_present v d m y Heq Hshape). split; reflexivity.
    - destruct (none_or_blank v); split; discriminate. }
  split; [exact H |].
  rewrite <- (proj1 (validate_rev_dato_copies v)). exact H.
Qed.

End date_accepts.

(** * What the validators of the enumerated properties accept *)

(** The empty text and the text None are not in a list of constants. *)
Ltac not_listed :=
  let H := fresh "Hin" in
  intros H;
  repeat (apply elem_of_cons in H as [H|H]; [vm_compute in H; discriminate H |]);
  inversion H.

Section enumerations.
Context {rt : PyRuntime}.

Lemma strip_None : str_strip (py_str PyNone) = utf8 "None".
Proof. vm_compute. reflexivity. Qed.

Lemma none_or_blank_cases (v : PyValue) :
  none_or_blank v = true ->
  str_strip (py_str v) = [] \/ str_strip (py_str v) = utf8 "None".
Proof.
  unfold none_or_blank. intros H. apply orb_true_iff in H as [H|H].
  - destruct v; try discriminate H. right. exact strip_None.
  - left. apply bool_decide_eq_true_1 in H. exact H.
Qed.

(** A value whose trimmed text is in a list without the empty text and
    without the text None is present. *)
Lemma trimmed_in_present (v : PyValue) (l : list str) :
  [] ∉ l -> utf8 "None" ∉ l -> str_strip (py_str v) ∈ l -> none_or_blank v = false.
Proof.
  intros He Hn Hin. destruct (none_or_blank v) eqn:Hb; [| reflexivity].
  exfalso. apply none_or_blank_cases in Hb as [Hb|Hb]; rewrite Hb in Hin; auto.
Qed.

Lemma kategori_accepts (v : PyValue) :
  is_valid (validation_rules.validate_kategori v) = true
  <-> py_str v = "ProvisionForVoid".
Proof.
  unfold validation_rules.validate_kategori, validation_rules.VALID_KATEGORI, str_in.
  destruct (none_or_blank v) eqn:Hb.
  - split; [discriminate |]. intros Heq. exfalso.
    apply none_or_blank_cases in Hb. rewrite Heq in Hb.
    destruct Hb as [Hb|Hb]; vm_compute in Hb; discriminate Hb.
  - case_bool_decide as Hin; cbn [is_valid Result2].
    + split; [| reflexivity]. intros _.
      apply elem_of_cons in Hin as [Hin|Hin]; [exact Hin | inversion Hin].
    + split; [discriminate |]. intros Heq. exfalso. apply Hin. rewrite Heq. left.
Qed.

Lemma fase_accepts (v : PyValue) :
  is_valid (validation_rules.validate_fase v) = true
  <-> str_strip (py_str v) ∈ validation_rules.VALID_FASE.
Proof.
  unfold validation_rules.validate_fase, str_in. cbv zeta.
  destruct (none_or_blank v) eqn:Hb.
  - split; [discriminate |]. intros Hin.
    rewrite (trimmed_in_present v validation_rules.VALID_FASE) in Hb;
      [discriminate Hb | not_listed | not_listed | exact Hin].
  - case_bool_decide as Hin; cbn [is_valid Result2]; split; auto; discriminate.
Qed.

Lemma status_accepts (v : PyValue) :
  is_valid (validation_rules.validate_status v) = true
  <-> str_strip (py_str v) ∈ validation_rules.VALID_STATUS.
Proof.
  unfold validation_rules.validate_status, str_in. cbv zeta.
  destruct (none_or_blank v) eqn:Hb.
  - split; [discriminate |]. intros Hin.
    rewrite (trimmed_in_present v validation_rules.VALID_STATUS) in Hb;
      [discriminate Hb | not_listed | not_listed | exact Hin].
  - case_bool_decide as Hin; cbn [is_valid Result2]; split; auto; discriminate.
Qed.

Lemma utsparingstype_accepts (v : PyValue) :
  is_valid (validation_rules.validate_utsparingstype v) = true
  <-> str_strip (py_str v)
      ∈ [ utf8 "Utsparing"; utf8 "Hulltaking"; utf8 "Innstøpningsgods" ].
Proof.
  unfold validation_rules.validate_utsparingstype,
    validation_rules.VALID_UTSPARINGSTYPE_PREFERRED, str_in. cbv zeta.
  destruct (none_or_blank v) eqn:Hb.
  - split; [discriminate |]. intros Hin.
    rewrite (trimmed_in_present v
               [ utf8 "Utsparing"; utf8 "Hulltaking"; utf8 "Innstøpningsgods" ]) in Hb;
      [discriminate Hb | not_listed | not_listed | exact Hin].
  - case_bool_decide as Hin; cbn [is_valid Result2].
    + split; [| reflexivity]. intros _.
      apply elem_of_cons in Hin as [Hin|Hin]; [rewrite Hin; left |].
      apply elem_of_cons in Hin as [Hin|Hin]; [rewrite Hin; right; left | inversion Hin].
    + case_bool_decide as Hi; cbn [is_valid Result3].
      * split; [| reflexivity]. intros _. rewrite Hi. right. right. left.
      * split; [discriminate |]. intros H. exfalso.
        apply elem_of_cons in H as [H|H]; [apply Hin; rewrite H; left |].
        apply elem_of_cons in H as [H|H]; [apply Hin; rewrite H; right; left |].
        apply elem_of_cons in H as [H|H]; [exact (Hi H) | inversion H].
Qed.

Lemma tetting_accepts (v : PyValue) :
  is_valid (validation_rules.validate_tetting v) = true
  <-> (exists b, v = PyBool b) \/
      str_strip (py_str v) ∈ validation_rules.VALID_TETTING_STR.
Proof.
  assert (Hbool : forall b,
            str_strip (py_str (PyBool b)) ∉ validation_rules.VALID_TETTING_STR).
  { intros [|]; intros H; vm_compute in H;
      repeat (apply elem_of_cons in H as [H|H]; [discriminate H |]); inversion H. }
  assert (Hnone : str_strip (py_str PyNone) ∉ validation_rules.VALID_TETTING_STR).
  { rewrite strip_None. not_listed. }
  assert (Hgen : forall w : PyValue,
            (forall b, w <> PyBool b) ->
            is_valid
              (if bool_decide (str_strip (py_str w) = [])
               then Result3 false "Tetting mangler" "error"
               else if str_in (str_strip (py_str w)) validation_rules.VALID_TETTING_STR
               then Result2 true "OK"
               else
                 mkValidationResult false
                   ("Ugyldig tetting-verdi: '" ++ py_str w
                      ++ "' (forventet: Ja/Nei eller True/False)") "error") = true
            <-> (exists b, w = PyBool b) \/
                str_strip (py_str w) ∈ validation_rules.VALID_TETTING_STR).
  { intros w Hw. unfold str_in. case_bool_decide as He.
    - split; [discriminate |]. intros [[b Hb]|Hin]; [exfalso; exact (Hw b Hb) |].
      exfalso. rewrite He in Hin. revert Hin. not_listed.
    - case_bool_decide as Hin; cbn [is_valid Result2].
      + split; [intros _; right; exact Hin | reflexivity].
      + split; [discriminate |].
        intros [[b Hb]|H]; [exfalso; exact (Hw b Hb) | contradiction]. }
  unfold validation_rules.validate_tetting. cbv zeta.
  destruct v as [|s|z|f|b].
  - split; [discriminate |]. intros [[b Hb]|Hin]; [discriminate Hb | contradiction].
  - apply Hgen. discriminate.
  - apply Hgen. discriminate.
  - apply Hgen. discriminate.
  - split; [intros _; left; eauto | reflexivity].
Qed.

(** X11. What the validators of the enumerated properties pass: the
    category only as the exact text ProvisionForVoid, compared without
    trimming; phase, status and opening type by their trimmed text, the
    opening type from Utsparing, Hulltaking and Innstøpningsgods; the
    sealing as any boolean or the trimmed text Ja or Nei.  The validators of
    the app pass the same values. *)
Theorem enumerations_accept_exactly (v : PyValue) :
  (is_valid (validation_rules.validate_kategori v) = true
   <-> py_str v = "ProvisionForVoid") /\
  (is_valid (validation_rules.validate_fase v) = true
   <-> str_strip (py_str v) ∈ validation_rules.VALID_FASE) /\
  (is_valid (validation_rules.validate_status v) = true
   <-> str_strip (py_str v) ∈ validation_rules.VALID_STATUS) /\
  (is_valid (validation_rules.validate_utsparingstype v) = true
   <-> str_strip (py_str v)
       ∈ [ utf8 "Utsparing"; utf8 "Hulltaking"; utf8 "Innstøpningsgods" ]) /\
  (is_valid (validation_rules.validate_tetting v) = true
   <-> (exists b, v = PyBool b) \/
       str_strip (py_str v) ∈ validation_rules.VALID_TETTING_STR) /\
  is_valid (app.validate_kategori v) = is_valid (validation_rules.validate_kategori v) /\
  is_valid (app.validate_fase v) = is_valid (validation_rules.validate_fase v) /\
  is_valid (app.validate_status v) = is_valid (validation_rules.validate_status v) /\
  is_valid (app.validate_utsparingstype v)
  = is_valid (validation_rules.validate_utsparingstype v) /\
  is_valid (app.validate_tetting v) = is_valid (validation_rules.validate_tetting v).
Proof.
  split; [exact (kategori_accepts v) |]. split; [exact (fase_accepts v) |].
  split; [exact (status_accepts v) |]. split; [exact (utsparingstype_accepts v) |].
  split; [exact (tetting_accepts v) |].
  split; [symmetry; exact (proj1 (validate_kategori_copies v)) |].
  split; [symmetry; exact (proj1 (validate_fase_copies v)) |].
  split; [symmetry; exact (proj1 (validate_status_copies v)) |].
  split; [symmetry; exact (proj1 (validate_utsparingstype_copies v)) |].
  symmetry. exact (proj1 (validate_tetting_copies v)).
Qed.

End enumerations.
(** * The file system after a run *)
Section file_system.
Context {rt : PyRuntime} {host : Host}.

(** X12. The files a run leaves behind.  The command-line validation
    reads its file and changes nothing, whatever it returns or raises.  A
    validation in the app that returns has removed its temporary copy, and
    an export that returns has removed the copy and the written model and
    delivers the bytes of the annotated model: when the names of the
    temporary files were not in use, the file system is as before. *)
Theorem runs_leave_no_files
    (content : bytes) (filename : str) (validation : app.FileValidation)
    (fs : filesystem) :
  let tmp_path := tmp_name fs ".ifc" in
  let output_path := str_replace ".ifc" "_validert.ifc" tmp_path in
  (forall filepath r fs',
     validate_utsparinger.validate_ifc_file filepath fs = (r, fs') -> fs' = fs) /\
  (forall fv fs',
     app.validate_ifc_file content filename fs = (Ok fv, fs') ->
     fs' !! tmp_path = None /\ (fs !! tmp_path = None -> fs' = fs)) /\
  (forall result fs',
     app.create_validated_ifc content filename validation fs = (Ok result, fs') ->
     tmp_path <> output_path /\
     fs' !! tmp_path = None /\ fs' !! output_path = None /\
     (fs !! tmp_path = None -> fs !! output_path = None -> fs' = fs) /\
     exists model annotated_model,
       ifc_parse content = Ok model /\
       ifc_annotate model (app.elements validation) = Ok annotated_model /\
       ifc_serialize annotated_model = Ok result).
Proof.
  cbv zeta. split; [| split].
  - intros filepath r fs'.
    unfold validate_utsparinger.validate_ifc_file, ifcopenshell_open, io_lift,
      mbind, io_bind, mret, io_ret.
    destruct (fs !! filepath) as [bytes|]; [| intros [= _ <-]; reflexivity].
    destruct (ifc_parse bytes) as [model|e]; [| intros [= _ <-]; reflexivity].
    destruct (result_map _ _) as [validated|e]; intros [= _ <-]; reflexivity.
  - intros fv fs' H.
    destruct (validate_ifc_file_removes_copy content filename fs fs' fv H) as [-> Hgone].
    split; [exact Hgone |]. intros Hfresh.
    rewrite delete_insert_eq. apply delete_id. exact Hfresh.
  - intros result fs'.
    unfold app.create_validated_ifc, NamedTemporaryFile, ifcopenshell_open, io_lift,
      model_write, read_file, unlink, mbind, io_bind, mret, io_ret.
    set (tmp_path := tmp_name fs ".ifc").
    set (output_path := str_replace ".ifc" "_validert.ifc" tmp_path).
    rewrite lookup_insert_eq.
    destruct (ifc_parse content) as [model|e]; [| discriminate].
    destruct (ifc_annotate model (app.elements validation)) as [model'|e] eqn:Hann;
      [| discriminate].
    destruct (ifc_serialize model') as [written|e] eqn:Hser; [| discriminate].
    rewrite lookup_insert_eq.
    destruct (decide (tmp_path = output_path)) as [Heq|Hne].
    + rewrite <- Heq, lookup_insert_eq, lookup_delete_eq. discriminate.
    + rewrite (lookup_insert_ne _ output_path tmp_path) by congruence.
      rewrite lookup_insert_eq.
      rewrite (lookup_delete_ne _ tmp_path output_path) by exact Hne.
      rewrite lookup_insert_eq. intros [= <- <-].
      split; [exact Hne |]. split.
      { rewrite lookup_delete_ne by congruence. apply lookup_delete_eq. }
      split; [apply lookup_delete_eq |].
      split; [| exists model, model'; split; [reflexivity | split; assumption]].
      intros Hfresh Hfresh'. apply map_eq. intros k.
      destruct (decide (k = output_path)) as [->|Hk1];
        [rewrite lookup_delete_eq; symmetry; exact Hfresh' |].
      rewrite lookup_delete_ne by congruence.
      destruct (decide (k = tmp_path)) as [->|Hk2];
        [rewrite lookup_delete_eq; symmetry; exact Hfresh |].
      rewrite lookup_delete_ne, !lookup_insert_ne by congruence. reflexivity.
Qed.

End file_system.

(** * The summary of a file *)
Section summaries.
Context {rt : PyRuntime} {host : Host}.

Import element_validation.

Lemma assembled_consistent
    (e : IfcElement) (found : str) (rs : list ValidationResult)
    (o : option PyValue) (dim_result : ValidationResult) :
  length rs = 9%nat ->
  (tally_sum warning_tally rs <= 2)%Z ->
  element_consistent
    (assembled e found rs (validation_rules.validate_funksjon <$> o) dim_result).
Proof.
  intros Hlen Hw.
  pose proof (assembled_counts_bounded e found rs o dim_result Hlen Hw) as Hb.
  cbv zeta in Hb. revert Hb. unfold element_consistent, assembled.
  cbn [overall_status error_count warning_count has_pset].
  set (ec := (tally_sum error_tally rs + _)%Z).
  set (wc := (tally_sum warning_tally rs + _ + _)%Z).
  intros (He & Hwc & _). unfold status_of_counts.
  destruct (0 <? ec)%Z eqn:Hec; [apply Z.ltb_lt in Hec | apply Z.ltb_ge in Hec].
  - right. right. left. split; [reflexivity |]. lia.
  - destruct (0 <? wc)%Z eqn:Hwc'; [apply Z.ltb_lt in Hwc' | apply Z.ltb_ge in Hwc'].
    + right. left. split; [reflexivity |]. lia.
    + left. split; [reflexivity |]. lia.
Qed.

Lemma validated_consistent (e : IfcElement) (p : option str) (r : ElementValidation) :
  validate_utsparinger.validate_element e p = Ok r \/ app.validate_element e p = Ok r ->
  element_consistent r.
Proof.
  intros Hr. destruct (located_pset e) as [found|] eqn:Hloc.
  - destruct Hr as [Hr|Hr].
    + destruct (tool_validate_element_result e p found r Hloc Hr) as (rev & Hrev & ->).
      apply assembled_consistent; [reflexivity |].
      apply tool_outcomes_tagged. exact Hrev.
    + destruct (app_validate_element_result e p found r Hloc Hr) as (rev & Hrev & ->).
      apply assembled_consistent; [reflexivity |].
      apply app_outcomes_tagged. exact Hrev.
  - assert (Hm : r = mkElementValidation (GlobalId e) (display_name e) (is_a e)
                       (ObjectType e) false None (get_element_properties e).2 ∅ ∅ None
                       "Mangler pset" 1 0).
    { unfold validate_utsparinger.validate_element, app.validate_element in Hr.
      rewrite !(validate_element_missing _ _ _ e p Hloc) in Hr.
      destruct Hr as [Hr|Hr]; injection Hr as <-; reflexivity. }
    rewrite Hm. do 3 right. repeat (split; [reflexivity |]). reflexivity.
Qed.

Lemma sum_of_cons (f : ElementValidation -> Z) (x : ElementValidation)
    (l : list ElementValidation) :
  sum_of f (x :: l) = (f x + sum_of f l)%Z.
Proof. reflexivity. Qed.

Lemma count_if_bounds (p : ElementValidation -> bool) (l : list ElementValidation) :
  (0 <= count_if p l <= Z.of_nat (length l))%Z.
Proof.
  induction l as [|x l IH]; [unfold count_if; simpl; lia |].
  rewrite count_if_cons. simpl length. destruct (p x); lia.
Qed.

Lemma summary_of_consistent (l : list ElementValidation) :
  Forall element_consistent l -> summary_consistent (summary_of l).
Proof.
  intros Hall.
  destruct status_values_distinct as (H1 & H2 & H3 & H4 & H5 & H6).
  assert (Hinv :
    let s := summary_of l in
    (s_ok s + s_feil s + s_advarsel s + s_mangler_pset s = s_total s)%Z /\
    (0 <= s_ok s)%Z /\ (0 <= s_feil s)%Z /\ (0 <= s_advarsel s)%Z /\
    (0 <= s_mangler_pset s)%Z /\
    (s_has_pset s + s_mangler_pset s <= s_total s)%Z /\
    (s_feil s + s_mangler_pset s <= s_total_errors s
     <= 10 * s_feil s + s_mangler_pset s)%Z /\
    (s_advarsel s <= s_total_warnings s <= 4 * (s_feil s + s_advarsel s))%Z).
  { cbv zeta. unfold summary_of.
    cbn [s_total s_ok s_feil s_advarsel s_mangler_pset s_has_pset s_total_errors
         s_total_warnings].
    induction Hall as [|x l Hx _ IH].
    - unfold count_if, sum_of. simpl. lia.
    - rewrite !count_if_cons, !sum_of_cons. simpl length. rewrite Nat2Z.inj_succ.
      destruct IH as (I1 & I2 & I3 & I4 & I5 & I6 & I7 & I8).
      destruct Hx as [(Hs & He & Hw)|[(Hs & He & Hw)|[(Hs & He & Hw)|(Hs & He & Hw & Hp)]]];
        rewrite Hs;
        repeat (first [ rewrite bool_decide_eq_true_2 by reflexivity
                      | rewrite bool_decide_eq_false_2 by congruence ]);
        try rewrite Hp; destruct (has_pset x); try lia.
      all: pose proof (count_if_bounds has_pset l); lia. }
  cbv zeta in Hinv.
  destruct Hinv as (I1 & I2 & I3 & I4 & I5 & I6 & I7 & I8).
  unfold summary_consistent.
  split; [exact I6 |]. split; [exact I7 |]. split; [exact I8 |]. lia.
Qed.

End summaries.
(** * The summary of a validated file *)
Section file_summaries.
Context {rt : PyRuntime} {host : Host}.

Import element_validation.

(** X13. In every file validation run that returns, of the command-line
    tool and of the app, status and counts of every element fit together
    (OK: no error and no warning; Advarsel: no error and one to four
    warnings; Feil: one to ten errors; Mangler pset: one error, no warning
    and no A4_Utsp set), the number of elements recorded for the file is the
    total of the summary, and the summary satisfies: has_pset and
    mangler_pset together are at most total; total_errors lies between
    feil + mangler_pset and 10 feil + mangler_pset; total_warnings lies
    between advarsel and 4 (feil + advarsel); and ok equals total exactly
    when there is no error and no warning in the file. *)
Theorem summary_totals_consistent :
  (forall filepath fs fv fs',
     validate_utsparinger.validate_ifc_file filepath fs = (Ok fv, fs') ->
     Forall element_consistent (validate_utsparinger.elements fv) /\
     exists s,
       validate_utsparinger.summary fv = Some s /\
       validate_utsparinger.total_elements fv = s_total s /\
       summary_consistent s) /\
  (forall content filename fs fv fs',
     app.validate_ifc_file content filename fs = (Ok fv, fs') ->
     Forall element_consistent (app.elements fv) /\
     exists s,
       app.summary fv = Some s /\
       app.total_elements fv = s_total s /\
       summary_consistent s).
Proof.
  split.
  - intros filepath fs fv fs' H. unfold validate_utsparinger.validate_ifc_file in H.
    apply io_bind_Ok in H as (model & fs1 & _ & H).
    apply io_bind_Ok in H as (validated & fs2 & Hmap & H).
    injection H as <- _. unfold io_lift in Hmap. injection Hmap as Hmap _.
    apply result_map_Ok in Hmap as [Hlen Hall].
    cbn [validate_utsparinger.calculate_summary validate_utsparinger.elements
         validate_utsparinger.summary validate_utsparinger.total_elements].
    assert (Hc : Forall element_consistent validated).
    { eapply Forall_impl; [exact Hall |]. intros r (a & Ha).
      eapply validated_consistent. left. exact Ha. }
    split; [exact Hc |]. eexists. split; [reflexivity |].
    split; [| apply summary_of_consistent; exact Hc].
    unfold summary_of. cbn [s_total]. rewrite Hlen. reflexivity.
  - intros content filename fs fv fs' H. unfold app.validate_ifc_file in H.
    apply io_bind_Ok in H as (tmp_path & fs1 & _ & H).
    apply io_bind_Ok in H as (model & fs2 & _ & H).
    apply io_bind_Ok in H as (validated & fs3 & Hmap & H).
    apply io_bind_Ok in H as (u & fs4 & _ & H).
    injection H as <- _. unfold io_lift in Hmap. injection Hmap as Hmap _.
    apply result_map_Ok in Hmap as [Hlen Hall].
    cbn [app.calculate_summary app.elements app.summary app.total_elements].
    assert (Hc : Forall element_consistent validated).
    { eapply Forall_impl; [exact Hall |]. intros r (a & Ha).
      eapply validated_consistent. right. exact Ha. }
    split; [exact Hc |]. eexists. split; [reflexivity |].
    split; [| apply summary_of_consistent; exact Hc].
    unfold summary_of. cbn [s_total]. rewrite Hlen. reflexivity.
Qed.

End file_summaries.

(** * The messages of an element in the app *)
Section element_messages.
Context {rt : PyRuntime}.

Import element_validation.

Lemma omap_lookup_zip (ks : list str) :
  forall (rs : list ValidationResult) (pv : gmap str ValidationResult),
    length rs = length ks ->
    (forall i k res, ks !! i = Some k -> rs !! i = Some res -> pv !! k = Some res) ->
    omap (fun k => pair k <$> pv !! k) ks = zip ks rs.
Proof.
  induction ks as [|k ks IH]; intros rs pv Hlen Hpv; [reflexivity |].
  destruct rs as [|res rs]; [discriminate Hlen |].
  cbn [omap list_omap zip zip_with]. rewrite (Hpv 0%nat k res eq_refl eq_refl).
  cbn [fmap option_fmap option_map]. f_equal.
  apply IH; [simpl in Hlen; lia |].
  intros i k' res' Hk Hr. exact (Hpv (S i) k' res' Hk Hr).
Qed.

Lemma items_empty : app_report.items ∅ = [].
Proof.
  unfold app_report.items.
  induction (app.REQUIRED_PROPERTIES ++ app.OPTIONAL_PROPERTIES) as [|k ks IH];
    [reflexivity |].
  cbn [omap list_omap]. rewrite lookup_empty. exact IH.
Qed.

(** The items of the map of a validated element, in the order of the
    loops. *)
Lemma items_assembled
    (e : IfcElement) (found : str) (rs : list ValidationResult)
    (o : option ValidationResult) (dim_result : ValidationResult) :
  length rs = length validation_rules.REQUIRED_PROPERTIES ->
  app_report.items (property_validations (assembled e found rs o dim_result))
  = zip validation_rules.REQUIRED_PROPERTIES rs
    ++ match o with
       | Some res => [(utf8 "A4_Utsp_Funksjon", res)]
       | None => []
       end.
Proof.
  intros Hlen. unfold app_report.items, assembled. cbn [property_validations].
  change app.REQUIRED_PROPERTIES with validation_rules.REQUIRED_PROPERTIES.
  unfold app.OPTIONAL_PROPERTIES. rewrite omap_app. f_equal.
  - apply omap_lookup_zip; [exact Hlen |].
    intros i k res Hk Hr.
    assert (Hrec : record_all validation_rules.REQUIRED_PROPERTIES rs ∅ !! k
                   = Some res).
    { eapply record_all_lookup; [apply required_properties_NoDup | exact Hk | exact Hr]. }
    destruct o as [res'|]; [| exact Hrec].
    rewrite lookup_insert_ne; [exact Hrec |].
    intros <-. apply funksjon_not_required.
    eapply list_elem_of_lookup_2. exact Hk.
  - cbn [omap list_omap]. destruct o as [res|].
    + rewrite lookup_insert_eq. reflexivity.
    + rewrite record_all_other by apply funksjon_not_required.
      rewrite lookup_empty. reflexivity.
Qed.

(** The loop over the items adds one line per counted outcome. *)
Lemma collect_messages_lengths (its : list (str * ValidationResult)) :
  forall errs warns : list str,
    let '(errs', warns') := foldl app_report.collect_message (errs, warns) its in
    Z.of_nat (length errs')
    = (Z.of_nat (length errs) + tally_sum error_tally its.*2)%Z /\
    Z.of_nat (length warns')
    = (Z.of_nat (length warns) + tally_sum warning_tally its.*2)%Z.
Proof.
  induction its as [|[k res] its IH]; intros errs warns.
  - unfold tally_sum. simpl. lia.
  - cbn [foldl fmap list_fmap snd]. unfold tally_sum in *. cbn [map foldr].
    unfold app_report.collect_message at 2.
    unfold error_tally at 1, warning_tally at 1.
    destruct (is_valid res); cbn [negb andb].
    + case_bool_decide as Hw.
      * specialize (IH errs
                      (warns ++ [str_replace "A4_Utsp_" [] k ++ ": " ++ message res])).
        destruct (foldl _ _ its) as [errs' warns']. rewrite length_app in IH.
        simpl length in IH. lia.
      * specialize (IH errs warns). destruct (foldl _ _ its) as [errs' warns']. lia.
    + case_bool_decide as He.
      * rewrite bool_decide_eq_false_2
          by (rewrite He; exact error_warning_distinct).
        specialize (IH (errs ++ [str_replace "A4_Utsp_" [] k ++ ": " ++ message res])
                      warns).
        destruct (foldl _ _ its) as [errs' warns']. rewrite length_app in IH.
        simpl length in IH. lia.
      * case_bool_decide as Hw.
        -- specialize (IH errs
                         (warns ++ [str_replace "A4_Utsp_" [] k ++ ": " ++ message res])).
           destruct (foldl _ _ its) as [errs' warns']. rewrite length_app in IH.
           simpl length in IH. lia.
        -- specialize (IH errs warns). destruct (foldl _ _ its) as [errs' warns']. lia.
Qed.

End element_messages.
Section element_messages_thm.
Context {rt : PyRuntime}.

Import element_validation.

Lemma tally_sum_app (tally : ValidationResult -> Z) (a b : list ValidationResult) :
  tally_sum tally (a ++ b) = (tally_sum tally a + tally_sum tally b)%Z.
Proof.
  unfold tally_sum. induction a as [|x a IH]; simpl; [reflexivity |]. rewrite IH. lia.
Qed.

Lemma located_pset_nonempty (e : IfcElement) (found : str) :
  located_pset e = Some found -> found <> [].
Proof.
  intros Hloc. destruct (located_pset_cases e found Hloc) as [->|(_ & pset & _ & ->)].
  - discriminate.
  - apply annotated_not_required.
Qed.

Lemma messages_assembled
    (e : IfcElement) (found : str) (rs : list ValidationResult)
    (ov : option PyValue) (dim_result : ValidationResult) :
  length rs = length validation_rules.REQUIRED_PROPERTIES ->
  found <> [] ->
  let r := assembled e found rs (validation_rules.validate_funksjon <$> ov) dim_result in
  exists errs warns,
    app_report.messages r = Ok (errs, warns) /\
    Z.of_nat (length errs) = error_count r /\
    Z.of_nat (length warns) = warning_count r.
Proof.
  intros Hlen Hfound. cbv zeta. unfold app_report.messages.
  rewrite (items_assembled e found rs _ dim_result Hlen).
  pose proof (collect_messages_lengths
                (zip validation_rules.REQUIRED_PROPERTIES rs
                 ++ match validation_rules.validate_funksjon <$> ov with
                    | Some res => [(utf8 "A4_Utsp_Funksjon", res)]
                    | None => []
                    end) [] []) as Hfold.
  destruct (foldl _ _ _) as [errs warns].
  rewrite fmap_app, !tally_sum_app, snd_zip in Hfold by (rewrite Hlen; reflexivity).
  destruct Hfold as [He Hw]. simpl length in He, Hw.
  assert (Hopt : tally_sum error_tally
                   (match validation_rules.validate_funksjon <$> ov with
                    | Some res => [(utf8 "A4_Utsp_Funksjon", res)]
                    | None => []
                    end).*2 = 0%Z /\
                 tally_sum warning_tally
                   (match validation_rules.validate_funksjon <$> ov with
                    | Some res => [(utf8 "A4_Utsp_Funksjon", res)]
                    | None => []
                    end).*2
                 = from_option warning_tally 0%Z
                     (validation_rules.validate_funksjon <$> ov)).
  { destruct ov as [v|]; [| split; reflexivity].
    unfold tally_sum. cbn [fmap option_fmap option_map list_fmap snd map foldr from_option].
    unfold error_tally. rewrite funksjon_valid. cbn [negb andb]. split; lia. }
  destruct Hopt as [Hoe How]. rewrite Hoe in He. rewrite How in Hw. clear Hoe How.
  unfold assembled.
  cbn [dimension_validation has_pset pset_name_found all_psets error_count
       warning_count].
  rewrite (bool_decide_eq_false_2 (Some found = None)) by discriminate.
  rewrite andb_false_r.
  destruct found as [|c n]; [congruence |].
  change (utf8 "A4_Utsp") with validation_rules.REQUIRED_PSET.
  destruct (is_valid dim_result); cbn [negb];
    (case_bool_decide as Hm;
     [ rewrite (bool_decide_eq_false_2 (c :: n = validation_rules.REQUIRED_PSET))
         by exact Hm
     | rewrite (bool_decide_eq_true_2 (c :: n = validation_rules.REQUIRED_PSET))
         by (destruct (decide (c :: n = validation_rules.REQUIRED_PSET));
             [assumption | contradiction] ) ]);
    eexists; eexists; (split; [reflexivity |]);
    rewrite ?length_app; simpl length; lia.
Qed.

End element_messages_thm.
(** * What the message collector returns *)

(** The text joined from a list starts as its first item does. *)
Lemma str_join_head (sep : str) (c : N) (p : str) (ps : list str) :
  hd 0%N (str_join sep ((c :: p) :: ps)) = c.
Proof. destruct ps; reflexivity. Qed.

Lemma Ok_inj {A : Type} (a b : A) : Ok a = Ok b -> a = b.
Proof. intros H. injection H as H. exact H. Qed.

Lemma get_error_messages_of (r : ElementValidation) (errs warns : list str) :
  app_report.messages r = Ok (errs, warns) ->
  (app_report.get_error_messages r = Ok (utf8 "-") <-> errs = [] /\ warns = []) /\
  (forall x, app_report.get_error_messages r <> Raise x).
Proof.
  intros H. unfold app_report.get_error_messages. rewrite H, result_bind_ok.
  assert (Hf : utf8 "FEIL: " = 70%N :: utf8 "EIL: ") by (vm_compute; reflexivity).
  assert (Ha : utf8 "ADVARSEL: " = 65%N :: utf8 "DVARSEL: ") by (vm_compute; reflexivity).
  assert (Hd : hd 0%N (utf8 "-") = 45%N) by (vm_compute; reflexivity).
  destruct errs as [|m errs]; [destruct warns as [|m warns] |]; cbn [map app].
  - split; [| discriminate]. split; [auto | reflexivity].
  - split; [| discriminate]. split; [| intros [_ Hw]; discriminate Hw].
    intros Heq. exfalso. apply Ok_inj in Heq. apply (f_equal (hd 0%N)) in Heq.
    rewrite Ha in Heq. change ((65%N :: utf8 "DVARSEL: ") ++ m)
      with (65%N :: (utf8 "DVARSEL: " ++ m)) in Heq.
    rewrite str_join_head, Hd in Heq. discriminate Heq.
  - split; [| discriminate]. split; [| intros [He _]; discriminate He].
    intros Heq. exfalso. apply Ok_inj in Heq. apply (f_equal (hd 0%N)) in Heq.
    rewrite Hf in Heq. change ((70%N :: utf8 "EIL: ") ++ m)
      with (70%N :: (utf8 "EIL: " ++ m)) in Heq.
    rewrite str_join_head, Hd in Heq. discriminate Heq.
Qed.

Section messages_thm.
Context {rt : PyRuntime}.

Import element_validation.

(** X14. For every validated element, of the app and of the command-line
    tool, the message collector [get_error_messages] of the app (the same
    lines stand inline in [add_validation_pset_to_ifc] of the tool) agrees
    with the counts of the element validator: it collects as many error
    lines as the error count and as many warning lines as the warning
    count, so that it returns "-" exactly for the elements reported OK.  It
    raises, always TypeError, exactly on an element without located
    property set that has a property set without a name. *)
Theorem error_messages_match_counts
    (e : IfcElement) (p : option str) (r : ElementValidation) :
  validate_utsparinger.validate_element e p = Ok r \/ app.validate_element e p = Ok r ->
  (forall errs warns,
     app_report.messages r = Ok (errs, warns) ->
     Z.of_nat (length errs) = error_count r /\
     Z.of_nat (length warns) = warning_count r) /\
  (forall x,
     app_report.get_error_messages r = Raise x
     <-> x = TypeError /\ located_pset e = None /\ None ∈ all_psets r) /\
  (app_report.get_error_messages r = Ok (utf8 "-") <-> overall_status r = "OK").
Proof.
  intros Hr.
  destruct (validated_element_shape e p r Hr)
    as [(found & rs & dim_result & Hloc & Hlen & _ & Hwarn & ->)|[Hloc ->]].
  - destruct (messages_assembled e found rs
                ((get_element_properties e).1.2 !! utf8 "A4_Utsp_Funksjon")
                dim_result Hlen (located_pset_nonempty e found Hloc))
      as (errs & warns & Hmsg & He & Hw).
    destruct (get_error_messages_of _ errs warns Hmsg) as [Hdash Hnoraise].
    split; [| split].
    + intros errs' warns' Hmsg'. rewrite Hmsg in Hmsg'. injection Hmsg' as <- <-.
      split; assumption.
    + intros x. split; [intros H; exfalso; exact (Hnoraise x H) |].
      intros (_ & Hnone & _). rewrite Hloc in Hnone. discriminate Hnone.
    + rewrite Hdash. clear Hdash Hnoraise Hmsg.
      pose proof (assembled_counts_bounded e found rs
                    ((get_element_properties e).1.2 !! utf8 "A4_Utsp_Funksjon")
                    dim_result Hlen Hwarn) as Hb.
      cbv zeta in Hb. revert He Hw Hb. unfold assembled.
      cbn [overall_status error_count warning_count].
      rewrite status_of_counts_ok. intros He Hw (Hbe & Hbw & _).
      split.
      * intros [-> ->]. simpl length in He, Hw. lia.
      * intros [H1 H2]. split; [destruct errs | destruct warns]; try reflexivity;
          simpl length in He, Hw; lia.
  - destruct status_values_distinct as (_ & _ & H3 & _).
    unfold app_report.get_error_messages, app_report.messages.
    cbn [property_validations dimension_validation has_pset pset_name_found all_psets
         error_count warning_count overall_status].
    rewrite items_empty. cbn [foldl negb andb].
    rewrite (bool_decide_eq_true_2 (None = None)) by reflexivity.
    destruct ((get_element_properties e).2) as [|n names] eqn:Hnames.
    + rewrite !result_bind_ok. cbn [app map]. split; [| split].
      * intros errs warns Heq. injection Heq as <- <-. split; reflexivity.
      * intros x. split; [discriminate |]. intros (_ & _ & Hin). inversion Hin.
      * split; [| intros H; exfalso; apply H3; symmetry; exact H].
        intros Heq. exfalso. apply Ok_inj in Heq. vm_compute in Heq.
        discriminate Heq.
    + unfold app_report.join_names.
      destruct (forallb (fun n0 : option str => bool_decide (n0 <> None)) (n :: names))
        eqn:Hall.
      * rewrite !result_bind_ok. cbn [app map]. split; [| split].
        -- intros errs warns Heq. injection Heq as <- <-. split; reflexivity.
        -- intros x. split; [discriminate |]. intros (_ & _ & Hin). exfalso.
           rewrite forallb_forall in Hall. apply list_elem_of_In in Hin.
           specialize (Hall None Hin). apply bool_decide_eq_true_1 in Hall.
           congruence.
        -- split; [| intros H; exfalso; apply H3; symmetry; exact H].
           intros Heq. exfalso. apply Ok_inj in Heq.
           apply (f_equal (hd 0%N)) in Heq. vm_compute in Heq. discriminate Heq.
      * rewrite !result_bind_raise. split; [| split].
        -- intros errs warns Heq. discriminate Heq.
        -- intros x. split.
           ++ intros Heq. injection Heq as <-. split; [reflexivity |].
              split; [exact Hloc |].
              apply not_true_iff_false in Hall. apply dec_stable. intros Hnot.
              apply Hall. apply forallb_forall. intros o Ho.
              apply bool_decide_eq_true_2. intros ->. apply Hnot.
              apply list_elem_of_In. exact Ho.
           ++ intros (-> & _). reflexivity.
        -- split; [discriminate | intros H; exfalso; apply H3; symmetry; exact H].
Qed.

End messages_thm.

(** * The tile of a file on the page *)
Section file_tile.
Context {rt : PyRuntime} {host : Host}.

Import element_validation.

Lemma str_startswith_app (sub rest : str) : str_startswith sub (sub ++ rest) = true.
Proof.
  induction sub as [|c sub IH]; [reflexivity |].
  simpl. rewrite N.eqb_refl. exact IH.
Qed.

Lemma str_contains_unfold (sub s : str) :
  str_contains sub s
  = str_startswith sub s
    || match s with
       | [] => false
       | _ :: s' => str_contains sub s'
       end.
Proof. destruct s; reflexivity. Qed.

Lemma str_contains_app (sub before rest : str) :
  str_contains sub (before ++ sub ++ rest) = true.
Proof.
  induction before as [|c before IH].
  - rewrite str_contains_unfold. cbn [app]. rewrite str_startswith_app. reflexivity.
  - rewrite str_contains_unfold. cbn [app]. rewrite IH. apply orb_true_r.
Qed.

Lemma annotated_wrong_place (pset : option str * list IfcProperty) :
  exists c n, annotated pset = c :: n /\
              str_contains "(feil plassering)" (c :: n) = true.
Proof.
  destruct (annotated pset) as [|c n] eqn:Heq.
  - exfalso. exact (proj1 (annotated_not_required pset) Heq).
  - exists c, n. split; [reflexivity |]. rewrite <- Heq. unfold annotated.
    assert (Hs : utf8 " (feil plassering)" = [32%N] ++ utf8 "(feil plassering)" ++ [])
      by (vm_compute; reflexivity).
    rewrite Hs, app_assoc. apply str_contains_app.
Qed.

(** Where the app found the properties of a validated element. *)
Lemma validated_placement (e : IfcElement) (p : option str) (r : ElementValidation) :
  app.validate_element e p = Ok r ->
  (has_pset r = true /\ app_report.wrong_place r = false /\
   overall_status r <> "Mangler pset") \/
  (has_pset r = false /\ app_report.wrong_place r = true /\
   overall_status r <> "Mangler pset") \/
  (has_pset r = false /\ app_report.wrong_place r = false /\
   overall_status r = "Mangler pset").
Proof.
  intros Hr.
  pose proof (overall_status_generic _ _ _ e p r Hr) as [Hmiss _].
  destruct (located_pset e) as [found|] eqn:Hloc.
  - assert (Hst : overall_status r <> "Mangler pset")
      by (rewrite Hmiss; discriminate).
    destruct (app_validate_element_result e p found r Hloc Hr) as (rev & _ & Heq).
    assert (Hhas : has_pset r = bool_decide (found = validation_rules.REQUIRED_PSET))
      by (rewrite Heq; reflexivity).
    assert (Hname : pset_name_found r = Some found) by (rewrite Heq; reflexivity).
    unfold app_report.wrong_place. rewrite Hhas, Hname.
    destruct (located_pset_cases e found Hloc) as [->|(_ & pset & _ & ->)].
    + left. split; [apply bool_decide_eq_true_2; reflexivity |].
      split; [vm_compute; reflexivity | exact Hst].
    + right. left.
      split; [apply bool_decide_eq_false_2, annotated_not_required |].
      destruct (annotated_wrong_place pset) as (c & n & -> & Hc).
      split; [exact Hc | exact Hst].
  - right. right. unfold app.validate_element in Hr.
    rewrite (validate_element_missing _ _ _ e p Hloc) in Hr. injection Hr as <-.
    repeat split.
Qed.

Lemma tile_classes_distinct :
  utf8 "ok" <> utf8 "warning" /\ utf8 "ok" <> utf8 "error" /\
  utf8 "warning" <> utf8 "error".
Proof. repeat split; distinct_strings. Qed.

(** X15. The tile of a file on the page.  The last return of
    [get_file_pset_status] ("Ukjent") is never reached: when some element
    is in a wrong set, the loop finds it.  For a file validated by the
    app the class of the tile is ok exactly when some element has the set
    A4_Utsp, and error exactly when every element is reported as
    Mangler pset. *)
Theorem file_tile_classes :
  (forall fv,
     app_report.get_file_pset_status fv
     = if existsb has_pset (app.elements fv)
       then (utf8 "ok", utf8 "A4_Utsp", None)
       else
         match find app_report.wrong_place (app.elements fv) with
         | Some e =>
             (utf8 "warning",
              str_replace " (feil plassering)" [] (default [] (pset_name_found e)),
              Some (utf8 "Feil pset-navn"))
         | None => (utf8 "error", utf8 "Ikke funnet", None)
         end) /\
  (forall content filename fs fv fs',
     app.validate_ifc_file content filename fs = (Ok fv, fs') ->
     ((app_report.get_file_pset_status fv).1.1 = "ok"
      <-> Exists (fun r => has_pset r = true) (app.elements fv)) /\
     ((app_report.get_file_pset_status fv).1.1 = "error"
      <-> Forall (fun r => overall_status r = "Mangler pset") (app.elements fv))).
Proof.
  assert (Hdead : forall fv,
     app_report.get_file_pset_status fv
     = if existsb has_pset (app.elements fv)
       then (utf8 "ok", utf8 "A4_Utsp", None)
       else
         match find app_report.wrong_place (app.elements fv) with
         | Some e =>
             (utf8 "warning",
              str_replace " (feil plassering)" [] (default [] (pset_name_found e)),
              Some (utf8 "Feil pset-navn"))
         | None => (utf8 "error", utf8 "Ikke funnet", None)
         end).
  { intros fv. unfold app_report.get_file_pset_status. cbv zeta.
    destruct (existsb has_pset (app.elements fv)); [reflexivity |].
    destruct (existsb app_report.wrong_place (app.elements fv)) eqn:Hw.
    - destruct (find app_report.wrong_place (app.elements fv)) eqn:Hf; [reflexivity |].
      exfalso. apply existsb_exists in Hw as (x & Hin & Hx).
      pose proof (find_none _ _ Hf x Hin). congruence.
    - destruct (find app_report.wrong_place (app.elements fv)) as [x|] eqn:Hf;
        [| reflexivity].
      exfalso. apply find_some in Hf as [Hin Hx].
      apply not_true_iff_false in Hw. apply Hw. apply existsb_exists. eauto. }
  split; [exact Hdead |].
  intros content filename fs fv fs' H. rewrite Hdead. clear Hdead.
  unfold app.validate_ifc_file in H.
  apply io_bind_Ok in H as (tmp_path & fs1 & _ & H).
  apply io_bind_Ok in H as (model & fs2 & _ & H).
  apply io_bind_Ok in H as (validated & fs3 & Hmap & H).
  apply io_bind_Ok in H as (u & fs4 & _ & H).
  injection H as <- _. unfold io_lift in Hmap. injection Hmap as Hmap _.
  apply result_map_Ok in Hmap as [_ Hall].
  cbn [app.calculate_summary app.elements].
  assert (Hpl : Forall (fun r =>
            (has_pset r = true /\ app_report.wrong_place r = false /\
             overall_status r <> "Mangler pset") \/
            (has_pset r = false /\ app_report.wrong_place r = true /\
             overall_status r <> "Mangler pset") \/
            (has_pset r = false /\ app_report.wrong_place r = false /\
             overall_status r = "Mangler pset")) validated).
  { eapply Forall_impl; [exact Hall |]. intros r (a & Ha).
    eapply validated_placement. exact Ha. }
  clear Hall. destruct tile_classes_distinct as (D1 & D2 & D3).
  destruct (existsb has_pset validated) eqn:Hex.
  - apply existsb_exists in Hex as (x & Hin & Hx). cbn [fst]. split.
    + split; [intros _ | reflexivity]. apply Exists_exists. exists x.
      split; [apply list_elem_of_In, Hin | exact Hx].
    + split; [intros Heq; exfalso; exact (D2 Heq) |].
      intros Hmiss. exfalso. rewrite Forall_forall in Hmiss, Hpl.
      apply list_elem_of_In in Hin.
      specialize (Hmiss x Hin). specialize (Hpl x Hin).
      destruct Hpl as [(_ & _ & Hst)|[(Hh & _)|(Hh & _)]]; congruence.
  - assert (Hno : Forall (fun r => has_pset r = false) validated).
    { apply Forall_forall. intros x Hin. apply list_elem_of_In in Hin.
      destruct (has_pset x) eqn:Hx; [| reflexivity].
      exfalso. apply not_true_iff_false in Hex. apply Hex.
      apply existsb_exists. eauto. }
    split.
    + split.
      * intros Heq. exfalso.
        destruct (find app_report.wrong_place validated); cbn [fst] in Heq;
          [exact (D1 (eq_sym Heq)) | exact (D2 (eq_sym Heq))].
      * intros Hsome. exfalso. apply Exists_exists in Hsome as (x & Hin & Hx).
        rewrite Forall_forall in Hno. specialize (Hno x Hin). congruence.
    + destruct (find app_report.wrong_place validated) as [x|] eqn:Hf; cbn [fst].
      * split; [intros Heq; exfalso; exact (D3 Heq) |].
        intros Hmiss. exfalso. apply find_some in Hf as [Hin Hx].
        apply list_elem_of_In in Hin. rewrite Forall_forall in Hmiss, Hpl.
        specialize (Hmiss x Hin). specialize (Hpl x Hin).
        destruct Hpl as [(_ & Hw & _)|[(_ & _ & Hst)|(_ & Hw & _)]]; congruence.
      * split; [intros _ | reflexivity].
        apply Forall_forall. intros x Hin. rewrite Forall_forall in Hpl, Hno.
        specialize (Hpl x Hin). specialize (Hno x Hin).
        apply list_elem_of_In in Hin. pose proof (find_none _ _ Hf x Hin) as Hw.
        destruct Hpl as [(Hh & _)|[(_ & Hw' & _)|(_ & _ & Hst)]]; congruence.
Qed.

End file_tile.

(** * The texts written for an element *)
Section annotation_texts.
Context {rt : PyRuntime}.

Import element_validation.

Lemma val_status_texts_distinct :
  utf8 "Godkjent" <> utf8 "Godkjent med advarsler" /\
  utf8 "Godkjent" <> utf8 "Mangler A4_Utsp" /\
  utf8 "Godkjent" <> utf8 "Ikke godkjent" /\
  utf8 "Godkjent med advarsler" <> utf8 "Mangler A4_Utsp" /\
  utf8 "Ikke godkjent" <> utf8 "Mangler A4_Utsp" /\
  utf8 "OK" <> utf8 "Mangler" /\
  utf8 "Godkjent med advarsler" <> utf8 "Ikke godkjent".
Proof. repeat split; distinct_strings. Qed.

Lemma wrong_place_text (found : str) :
  utf8 "Feil plassering: " ++ found <> utf8 "OK" /\
  utf8 "Feil plassering: " ++ found <> utf8 "Mangler".
Proof.
  split; intros H; apply (f_equal (hd 0%N)) in H; vm_compute in H; discriminate H.
Qed.

(** X16. The texts written into the exported model fit together, for
    every validated element of either tool: the set status is OK exactly
    for the elements that have the set A4_Utsp, it is Mangler exactly when
    the validation status is Mangler A4_Utsp, and then no dimension was
    validated; an element with the validation status Godkjent has the set
    status OK, and the status Ikke godkjent stands for Feil alone. *)
Theorem annotation_texts_consistent
    (e : IfcElement) (p : option str) (r : ElementValidation) :
  validate_utsparinger.validate_element e p = Ok r \/ app.validate_element e p = Ok r ->
  (app_report.pset_status r = "OK" <-> has_pset r = true) /\
  (app_report.pset_status r = "Mangler"
   <-> app_report.val_status r = "Mangler A4_Utsp") /\
  (app_report.val_status r = "Mangler A4_Utsp" ->
   app_report.dim_status r = "Ikke validert") /\
  (app_report.val_status r = "Godkjent" -> app_report.pset_status r = "OK") /\
  (app_report.val_status r = "Ikke godkjent" <-> overall_status r = "Feil").
Proof.
  intros Hr.
  destruct status_values_distinct as (S1 & S2 & S3 & S4 & S5 & S6).
  destruct val_status_texts_distinct as (T1 & T2 & T3 & T4 & T5 & T6 & T7).
  destruct (validated_element_shape e p r Hr)
    as [(found & rs & dim_result & Hloc & Hlen & _ & Hwarn & ->)|[Hloc ->]].
  - pose proof (located_pset_nonempty e found Hloc) as Hne.
    destruct found as [|c n]; [congruence |].
    pose proof (wrong_place_text (c :: n)) as [W1 W2].
    pose proof (assembled_counts_bounded e (c :: n) rs
                  ((get_element_properties e).1.2 !! utf8 "A4_Utsp_Funksjon")
                  dim_result Hlen Hwarn) as Hb.
    cbv zeta in Hb. revert Hb.
    pose proof (tally_sum_bounds rs) as (_ & Hw0 & _).
    pose proof (funksjon_tally_bounds
                  ((get_element_properties e).1.2 !! utf8 "A4_Utsp_Funksjon")) as Hf.
    unfold app_report.pset_status, app_report.val_status, app_report.dim_status,
      assembled.
    cbn [overall_status has_pset pset_name_found dimension_validation error_count
         warning_count].
    intros (Hbe & Hbw & _). unfold status_of_counts.
    destruct (bool_decide (c :: n = validation_rules.REQUIRED_PSET)) eqn:Hhas;
      (destruct (0 <? _)%Z eqn:Hec;
       [ apply Z.ltb_lt in Hec
       | apply Z.ltb_ge in Hec;
         destruct (0 <? _)%Z eqn:Hwc;
         [apply Z.ltb_lt in Hwc | apply Z.ltb_ge in Hwc] ]);
      repeat (first [ rewrite bool_decide_eq_true_2 by reflexivity
                    | rewrite bool_decide_eq_false_2 by congruence ]);
      try (exfalso; lia);
      repeat split; intros; try reflexivity; try congruence.
  - unfold app_report.pset_status, app_report.val_status, app_report.dim_status.
    cbn [overall_status has_pset pset_name_found dimension_validation].
    repeat (first [ rewrite bool_decide_eq_true_2 by reflexivity
                  | rewrite bool_decide_eq_false_2 by congruence ]).
    repeat split; intros; try reflexivity; try congruence.
Qed.

End annotation_texts.

(** * Closed instances of the further theorems *)

(** The bounds are reached: ten errors on an empty set A4_Utsp, four
    warnings on the warned element in a file of discipline RIE. *)
Lemma counts_within_bounds_witness :
  error_count (example.validated scenario.empty_set) = 10%Z /\
  warning_count (scenario.validated_for "RIE" scenario.warned) = 4%Z /\
  (0 <= warning_count (example.validated scenario.empty_set) <= 4)%Z.
Proof.
  assert (H : @validate_utsparinger.validate_element example.runtime
                scenario.empty_set None
              = Ok (example.validated scenario.empty_set))
    by (vm_compute; reflexivity).
  split; [vm_compute; reflexivity |]. split; [vm_compute; reflexivity |].
  exact (proj1 (proj2 (@counts_within_bounds example.runtime scenario.empty_set None
                         (example.validated scenario.empty_set) (or_introl H)))).
Defined.

(** Element A of the scenario is reported OK. *)
Lemma status_ok_iff_clean_witness :
  overall_status (example.validated example.element_A) = "OK"
  <-> has_pset (example.validated example.element_A) = true /\
      (forall k res,
         property_validations (example.validated example.element_A) !! k = Some res ->
         clean res) /\
      (exists d, dimension_validation (example.validated example.element_A) = Some d /\
                 is_valid d = true).
Proof.
  assert (H : @validate_utsparinger.validate_element example.runtime
                example.element_A None
              = Ok (example.validated example.element_A))
    by (vm_compute; reflexivity).
  exact (@status_ok_iff_clean example.runtime example.element_A None
           (example.validated example.element_A) (or_introl H)).
Defined.

(** The empty set A4_Utsp: the identifier is missing, and the element is
    reported as Feil. *)
Lemma missing_required_property_is_error_witness :
  overall_status (example.validated scenario.empty_set) = "Feil".
Proof.
  assert (H : @validate_utsparinger.validate_element example.runtime
                scenario.empty_set None
              = Ok (example.validated scenario.empty_set))
    by (vm_compute; reflexivity).
  assert (Hloc : located_pset scenario.empty_set <> None)
    by (vm_compute; discriminate).
  assert (Hk : utf8 "A4_Utsp_ID" ∈ validation_rules.REQUIRED_PROPERTIES)
    by (right; left).
  assert (Hb : @none_or_blank example.runtime
                 (dict_get (properties_found (example.validated scenario.empty_set))
                    (utf8 "A4_Utsp_ID")) = true)
    by (vm_compute; reflexivity).
  exact (proj1 (proj2 (@missing_required_property_is_error example.runtime
                         scenario.empty_set None
                         (example.validated scenario.empty_set) (utf8 "A4_Utsp_ID")
                         (or_introl H) Hloc Hk Hb))).
Defined.

(** The text 99.99.0000 passes as a date. *)
Lemma validate_rev_dato_shape_only_witness :
  is_valid (@validation_rules.validate_rev_dato example.runtime (PyStr "99.99.0000"))
  = true.
Proof.
  apply (proj1 (@validate_rev_dato_shape_only example.runtime (PyStr "99.99.0000"))).
  exists (utf8 "99"), (utf8 "99"), (utf8 "0000").
  split; [vm_compute; reflexivity |].
  repeat split; vm_compute; reflexivity.
Defined.

(** The upload of the example model to the app, on an empty file system,
    leaves the file system empty. *)
Lemma runs_leave_no_files_witness : example.upload.2 = ∅.
Proof.
  assert (H : @app.validate_ifc_file example.runtime example.host
                [ Byte.x01 ] "A4_RIV_Utsparinger.ifc" ∅
              = (Ok (example.returned example.no_file example.upload.1),
                 example.upload.2))
    by (vm_compute; reflexivity).
  destruct (@runs_leave_no_files example.runtime example.host
              [ Byte.x01 ] "A4_RIV_Utsparinger.ifc" example.no_file ∅)
    as (_ & Hrun & _).
  destruct (Hrun _ _ H) as [_ Hfresh]. apply Hfresh. apply lookup_empty.
Defined.

(** The upload of the example model: its summary is consistent. *)
Lemma summary_totals_consistent_witness :
  exists s,
    app.summary (example.returned example.no_file example.upload.1) = Some s /\
    app.total_elements (example.returned example.no_file example.upload.1) = s_total s /\
    summary_consistent s.
Proof.
  assert (H : @app.validate_ifc_file example.runtime example.host
                [ Byte.x01 ] "A4_RIV_Utsparinger.ifc" ∅
              = (Ok (example.returned example.no_file example.upload.1),
                 example.upload.2))
    by (vm_compute; reflexivity).
  exact (proj2 (proj2 (@summary_totals_consistent example.runtime example.host)
                  _ _ _ _ _ H)).
Defined.

(** An element whose only property set has no name and no A4_Utsp_
    property: the message collector of the app raises TypeError on its
    result. *)
Lemma error_messages_match_counts_witness :
  app_report.get_error_messages
    (example.returned example.no_outcome
       (@app.validate_element example.runtime scenario.nameless_set None))
  = Raise TypeError.
Proof.
  assert (H : @app.validate_element example.runtime scenario.nameless_set None
              = Ok (example.returned example.no_outcome
                      (@app.validate_element example.runtime scenario.nameless_set
                         None)))
    by (vm_compute; reflexivity).
  destruct (@error_messages_match_counts example.runtime scenario.nameless_set None
              _ (or_intror H)) as (_ & Hraise & _).
  apply Hraise. split; [reflexivity |]. split; [vm_compute; reflexivity |].
  vm_compute. left.
Defined.

(** The upload of the example model: element A has the set A4_Utsp, and
    the tile of the file is of class ok. *)
Lemma file_tile_classes_witness :
  (@app_report.get_file_pset_status
     (example.returned example.no_file example.upload.1)).1.1 = "ok".
Proof.
  assert (H : @app.validate_ifc_file example.runtime example.host
                [ Byte.x01 ] "A4_RIV_Utsparinger.ifc" ∅
              = (Ok (example.returned example.no_file example.upload.1),
                 example.upload.2))
    by (vm_compute; reflexivity).
  destruct (proj2 (@file_tile_classes example.runtime example.host) _ _ _ _ _ H)
    as [Hok _].
  apply Hok. vm_compute. left. reflexivity.
Defined.


(** Elements A and C of the scenario: the tool and the app report both
    alike. *)
Lemma tool_and_app_agree_witness :
  overall_status
    (example.returned example.no_outcome
       (@app.validate_element example.runtime example.element_C None))
  = overall_status (example.validated example.element_C).
Proof.
  pose proof (@tool_and_app_agree example.runtime example.element_C None) as H.
  assert (Ht : @validate_utsparinger.validate_element example.runtime
                 example.element_C None
               = Ok (example.validated example.element_C))
    by (vm_compute; reflexivity).
  assert (Ha : @app.validate_element example.runtime example.element_C None
               = Ok (example.returned example.no_outcome
                       (@app.validate_element example.runtime example.element_C None)))
    by (vm_compute; reflexivity).
  rewrite Ht, Ha in H. unfold result_fmap, verdict in H.
  apply Ok_inj in H. symmetry.
  exact (f_equal (fun t => t.1.1.1.1.1.1.1) H).
Defined.

(** Element C of the scenario, whose properties stand in a set of another
    name: its set status is OK only if it has the set A4_Utsp, which it has
    not. *)
Lemma annotation_texts_consistent_witness :
  app_report.pset_status (example.validated example.element_C) = "OK"
  <-> has_pset (example.validated example.element_C) = true.
Proof.
  assert (H : @validate_utsparinger.validate_element example.runtime
                example.element_C None
              = Ok (example.validated example.element_C))
    by (vm_compute; reflexivity).
  exact (proj1 (@annotation_texts_consistent example.runtime example.element_C None
                  (example.validated example.element_C) (or_introl H))).
Defined.

(** The file A4_RIV_Utsparinger.ifc: both extractors return RIV. *)
Lemma prefix_extractors_differ_witness :
  @app.extract_file_prefix example.runtime "A4_RIV_Utsparinger.ifc"
  = Some ("RIV" : str) /\
  @validate_utsparinger.extract_file_prefix example.runtime "A4_RIV_Utsparinger.ifc"
  = Some ("RIV" : str).
Proof.
  assert (Hstem : @path_stem example.runtime "A4_RIV_Utsparinger.ifc"
                  = str_join [underscore]
                      [ utf8 "A4"; utf8 "RIV"; utf8 "Utsparinger" ])
    by (vm_compute; reflexivity).
  assert (Hne : [ utf8 "A4"; utf8 "RIV"; utf8 "Utsparinger" ] <> []) by discriminate.
  assert (Hall : Forall (fun part => underscore ∉ part)
                   [ utf8 "A4"; utf8 "RIV"; utf8 "Utsparinger" ]).
  { repeat constructor; intros Hin; vm_compute in Hin;
      repeat (apply elem_of_cons in Hin as [Hin|Hin]; [discriminate Hin |]);
      inversion Hin. }
  destruct (@prefix_extractors_differ example.runtime "A4_RIV_Utsparinger.ifc"
              _ Hstem Hne Hall) as (Hfirst & _ & _).
  destruct (Hfirst [ utf8 "A4" ] (utf8 "RIV") [ utf8 "Utsparinger" ] eq_refl)
    as [Happ Htool].
  - repeat constructor. intros Hin. vm_compute in Hin.
    repeat (apply elem_of_cons in Hin as [Hin|Hin]; [discriminate Hin |]).
    inversion Hin.
  - left.
  - split; [exact Happ |]. rewrite Htool.
    destruct (decide (2 <= length [ utf8 "A4"; utf8 "RIV"; utf8 "Utsparinger" ])%nat)
      as [_|Hlen]; [reflexivity |].
    exfalso. apply Hlen. simpl. lia.
Defined.

